(** * stock-agent: debate room, baseline strategies and MCP tool wrappers

    A shallow embedding of

      - [src/agents/debate_room.py]            (module [DebateRoom]),
      - [src/backtest/baselines/buy_hold.py]   (module [BuyHold]),
      - [src/backtest/baselines/moving_average.py] (module [MovingAverage]),
      - [src/mcp_api/mcp_tools/base.py]        (module [McpTools]),

    followed by the properties proved about them.

    Modelling conventions, shared by all modules.

      - A Python [float] is a binary64 number: a rational extended with
        [inf], [-inf] and [nan] ([pyfloat]). Every arithmetic operation
        rounds its exact result to the nearest binary64 number, ties to
        even, and overflows to an infinity ([round64]); a float literal
        denotes the binary64 number nearest to the decimal written. The
        sign of zero is not kept.
      - A Python [int] is an integer of [Z]; it is compared with a float
        exactly and converted to a float, with rounding, when it enters
        float arithmetic or formatting, which raises [OverflowError] when
        it is too large.
      - JSON-like Python values are the inductive [pyval]; a [dict] is an
        insertion-ordered association list, as Python dicts are.
      - Code that can raise returns a [result]; [try]/[except] is [catch].
      - Strings are byte strings and [str.lower] is the ASCII one;
        [str.isdigit] and [len], which [base.py] applies to a text the
        caller chooses, are Python's own and taken as they are.
      - Logger calls have no effect on the values computed and are left out,
        except for the number formatting they perform, which can raise
        ([fmt_f]). *)

From Stdlib Require Import ZArith QArith Qround Qpower Qreduction Lqa Lia.
From Stdlib Require Import String Ascii List Bool DecimalString.
Import ListNotations.

Set Implicit Arguments.

(* ===================================================================== *)
(** * Part I. The embedding                                               *)
(* ===================================================================== *)

(** ** Python values, exceptions and dictionaries *)

Module Py.

Local Open Scope string_scope.

(** The exception classes the four source files name or provoke.
    [JSONDecodeError] is a subclass of [ValueError]; [OtherException] stands
    for every other subclass of [Exception]. *)
Inductive exn_class : Type :=
| KeyError | ValueError | TypeError | AttributeError | JSONDecodeError
| IndexError | OverflowError | ZeroDivisionError | SyntaxError
| NoDataFoundError | LoginError | DataSourceError | OtherException.

(** An exception instance: its class and [str(e)]. *)
Record exn : Type := mkExn { exn_cls : exn_class; exn_msg : string }.

Definition exn_class_eqb (a b : exn_class) : bool :=
  match a, b with
  | KeyError, KeyError | ValueError, ValueError | TypeError, TypeError
  | AttributeError, AttributeError | JSONDecodeError, JSONDecodeError
  | IndexError, IndexError | OverflowError, OverflowError
  | ZeroDivisionError, ZeroDivisionError | SyntaxError, SyntaxError
  | NoDataFoundError, NoDataFoundError | LoginError, LoginError
  | DataSourceError, DataSourceError | OtherException, OtherException => true
  | _, _ => false
  end.

(** [isinstance(e, c)] for the classes above. *)
Definition isinstance_exn (e : exn) (c : exn_class) : bool :=
  exn_class_eqb (exn_cls e) c
  || (exn_class_eqb (exn_cls e) JSONDecodeError && exn_class_eqb c ValueError).

(** The outcome of code that may raise. *)
Inductive result (A : Type) : Type :=
| Ok (a : A)
| Raise (e : exn).

Arguments Ok {A} a.
Arguments Raise {A} e.

Definition bind {A B : Type} (c : result A) (k : A -> result B) : result B :=
  match c with
  | Ok a => k a
  | Raise e => Raise e
  end.

(** [try: c  except (classes): handler]. *)
Definition catch {A : Type} (c : result A) (classes : list exn_class)
    (handler : exn -> result A) : result A :=
  match c with
  | Ok a => Ok a
  | Raise e => if existsb (isinstance_exn e) classes then handler e else Raise e
  end.

(** [try: c  except Exception: handler]. *)
Definition catch_all {A : Type} (c : result A) (handler : exn -> A) : A :=
  match c with
  | Ok a => a
  | Raise e => handler e
  end.

(** *** Floats *)

Inductive pyfloat : Type :=
| Fin (q : Q)
| PInf
| NInf
| NaN.

(** [a < b]; every comparison with [nan] is false. *)
Definition flt (a b : pyfloat) : bool :=
  match a, b with
  | NaN, _ | _, NaN => false
  | Fin x, Fin y => negb (Qle_bool y x)
  | NInf, NInf => false
  | NInf, _ => true
  | _, NInf => false
  | PInf, _ => false
  | Fin _, PInf => true
  end.

Definition fgt (a b : pyfloat) : bool := flt b a.

(** [a <= b]. *)
Definition fle (a b : pyfloat) : bool :=
  match a, b with
  | NaN, _ | _, NaN => false
  | Fin x, Fin y => Qle_bool x y
  | NInf, _ => true
  | _, PInf => true
  | _, _ => false
  end.

Definition fge (a b : pyfloat) : bool := fle b a.

Definition fneg (a : pyfloat) : pyfloat :=
  match a with
  | Fin q => Fin (- q)
  | PInf => NInf
  | NInf => PInf
  | NaN => NaN
  end.

(** **** Rounding to binary64

    A finite binary64 number is [m * 2^e] for integers [|m| < 2^53] and
    [-1074 <= e <= 971]. *)

Definition pow2 (k : Z) : Q := 2 ^ k.

(** [floor (log2 x)] for a positive [x]. *)
Definition ilog2 (x : Q) : Z :=
  let k := (Z.log2 (Qnum x) - Z.log2 (Zpos (Qden x)))%Z in
  if Qle_bool (pow2 k) x then k else (k - 1)%Z.

(** The integer nearest to [q], ties to the even one. *)
Definition round_half_even (q : Q) : Z :=
  let f := Qfloor q in
  match Qcompare (q - inject_Z f) (1 # 2) with
  | Lt => f
  | Gt => (f + 1)%Z
  | Eq => if Z.even f then f else (f + 1)%Z
  end.

(** The exponent of the unit in the last place of the binary64 numbers
    around a positive [x]: 53 significant bits, subnormal numbers below
    [2^-1022]. *)
Definition ulp_exponent (x : Q) : Z := Z.max (ilog2 x - 52) (-1074).

(** The multiple of that unit nearest to a positive [x]. *)
Definition nearest (x : Q) : Q :=
  let e := ulp_exponent x in
  inject_Z (round_half_even (x / pow2 e)) * pow2 e.

Definition round_pos (x : Q) : pyfloat :=
  let v := nearest x in
  if Qle_bool (pow2 1024) v then PInf else Fin (Qred v).

(** The binary64 number a real result is rounded to: the nearest one, ties
    to even, an infinity from [2^1024 - 2^970] on. *)
Definition round64 (x : Q) : pyfloat :=
  match Qcompare x 0 with
  | Eq => Fin 0
  | Gt => round_pos x
  | Lt => fneg (round_pos (- x))
  end.

(** [q] is a binary64 number (written in lowest terms). *)
Definition is_double (q : Q) : Prop := round64 q = Fin q.

(** The float literals of the sources. [1.0], [0.0], [-1.0] and [100.0]
    are [Fin 1], [Fin 0], [Fin (-1)] and [Fin 100]. *)
Definition f_0_5 : pyfloat := Eval vm_compute in round64 0.5.
Definition f_0_1 : pyfloat := Eval vm_compute in round64 0.1.
Definition f_0_3 : pyfloat := Eval vm_compute in round64 0.3.
Definition f_0_6 : pyfloat := Eval vm_compute in round64 0.6.
Definition f_0_7 : pyfloat := Eval vm_compute in round64 0.7.
Definition f_0_8 : pyfloat := Eval vm_compute in round64 0.8.
Definition f_0_9 : pyfloat := Eval vm_compute in round64 0.9.
Definition f_0_005 : pyfloat := Eval vm_compute in round64 0.005.

(** **** Arithmetic *)

(** The sign of a float that is not [nan]: [-1], [0] or [1]. *)
Definition fsign (a : pyfloat) : Z :=
  match a with
  | Fin q => Z.sgn (Qnum q)
  | PInf => 1
  | NInf => -1
  | NaN => 0
  end.

Definition inf_of_sign (s : Z) : pyfloat :=
  if (0 <? s)%Z then PInf else if (s <? 0)%Z then NInf else NaN.

Definition fadd (a b : pyfloat) : pyfloat :=
  match a, b with
  | NaN, _ | _, NaN => NaN
  | Fin x, Fin y => round64 (x + y)
  | PInf, NInf | NInf, PInf => NaN
  | PInf, _ | _, PInf => PInf
  | NInf, _ | _, NInf => NInf
  end.

Definition fmul (a b : pyfloat) : pyfloat :=
  match a, b with
  | NaN, _ | _, NaN => NaN
  | Fin x, Fin y => round64 (x * y)
  | _, _ => inf_of_sign (fsign a * fsign b)
  end.

Definition fsub (a b : pyfloat) : pyfloat := fadd a (fneg b).

(** Division as numpy does it: a zero divisor gives [inf], [-inf] or [nan]
    and raises nothing. *)
Definition fdiv_np (a b : pyfloat) : pyfloat :=
  match a, b with
  | NaN, _ | _, NaN => NaN
  | Fin x, Fin y =>
      if Qeq_bool y 0 then inf_of_sign (Z.sgn (Qnum x)) else round64 (x / y)
  | Fin _, _ => Fin 0
  | _, Fin y => if Qeq_bool y 0 then a else inf_of_sign (fsign a * fsign b)
  | _, _ => NaN
  end.

(** Division of Python floats: a zero divisor raises [ZeroDivisionError]. *)
Definition fdiv (a b : pyfloat) : result pyfloat :=
  match b with
  | Fin y =>
      if Qeq_bool y 0 then Raise (mkExn ZeroDivisionError "float division by zero")
      else Ok (fdiv_np a b)
  | _ => Ok (fdiv_np a b)
  end.

(** [int(x)] on a float: truncation towards zero; [inf] and [nan] raise. *)
Definition int_of_float (a : pyfloat) : result Z :=
  match a with
  | Fin q => Ok (Z.quot (Qnum q) (Zpos (Qden q)))
  | NaN => Raise (mkExn ValueError "cannot convert float NaN to integer")
  | _ => Raise (mkExn OverflowError "cannot convert float infinity to integer")
  end.

(** The value of an int, as a comparison with a float takes it: exactly. *)
Definition int_value (z : Z) : pyfloat := Fin (inject_Z z).

(** [float(z)] on an int, and the conversion of an int operand of a float
    operation. *)
Definition float_of_int (z : Z) : result pyfloat :=
  match round64 (inject_Z z) with
  | Fin q => Ok (Fin q)
  | _ => Raise (mkExn OverflowError "int too large to convert to float")
  end.

(** The float of a count: a length is far below [2^1024]. *)
Definition float_of_count (n : Z) : pyfloat := round64 (inject_Z n).

(** [lo <= a <= hi] as a proposition on floats ([nan] is in no interval). *)
Definition in_range (lo hi : Q) (a : pyfloat) : Prop :=
  fle (Fin lo) a = true /\ fle a (Fin hi) = true.

(** *** Values *)

#[warnings="-register-all"]
Inductive pyval : Type :=
| VNone
| VBool (b : bool)
| VInt (z : Z)
| VFloat (f : pyfloat)
| VStr (s : string)
| VList (l : list pyval)
| VDict (d : list (string * pyval)).

Definition dict : Type := list (string * pyval).

(** [isinstance(v, (int, float))], with the exact value of the number:
    [bool] is a subclass of [int]. *)
Definition num_of (v : pyval) : option pyfloat :=
  match v with
  | VBool b => Some (int_value (if b then 1 else 0))
  | VInt z => Some (int_value z)
  | VFloat f => Some f
  | _ => None
  end.

(** A number as an operand of float arithmetic, of [float()] or of a float
    format: an int is converted. *)
Definition to_float (v : pyval) : result pyfloat :=
  match v with
  | VBool b => Ok (if b then Fin 1 else Fin 0)
  | VInt z => float_of_int z
  | VFloat f => Ok f
  | _ => Raise (mkExn TypeError "must be real number")
  end.

(** Truth value of a Python object ([if v:]). *)
Definition truthy (v : pyval) : bool :=
  match v with
  | VNone => false
  | VBool b => b
  | VInt z => negb (z =? 0)%Z
  | VFloat (Fin q) => negb (Qeq_bool q 0)
  | VFloat _ => true
  | VStr s => negb (s =? "")
  | VList l => match l with [] => false | _ => true end
  | VDict d => match d with [] => false | _ => true end
  end.

(** *** Association lists as insertion-ordered dicts *)

Section Assoc.
Variable V : Type.

(** [d.get(k)] *)
Fixpoint assoc_get (d : list (string * V)) (k : string) : option V :=
  match d with
  | [] => None
  | (k', v) :: t => if k' =? k then Some v else assoc_get t k
  end.

(** [k in d] *)
Definition assoc_mem (d : list (string * V)) (k : string) : bool :=
  match assoc_get d k with Some _ => true | None => false end.

(** [d[k] = v]: an existing key keeps its place, a new key goes last. *)
Fixpoint assoc_set (d : list (string * V)) (k : string) (v : V)
    : list (string * V) :=
  match d with
  | [] => [(k, v)]
  | (k', v') :: t => if k' =? k then (k, v) :: t else (k', v') :: assoc_set t k v
  end.

End Assoc.

(** [d.get(k, default)] *)
Definition get_default (d : dict) (k : string) (default : pyval) : pyval :=
  match assoc_get d k with Some v => v | None => default end.

(** [d[k]], raising [KeyError]. *)
Definition getitem (d : dict) (k : string) : result pyval :=
  match assoc_get d k with
  | Some v => Ok v
  | None => Raise (mkExn KeyError ("'" ++ k ++ "'"))
  end.

(** [v.get]: only a dict has the method. *)
Definition as_dict (v : pyval) : result dict :=
  match v with
  | VDict d => Ok d
  | _ => Raise (mkExn AttributeError "object has no attribute 'get'")
  end.

(** *** Strings *)

Definition startswith (s p : string) : bool := String.prefix p s.

Definition endswith (s suf : string) : bool :=
  let n := String.length s in
  let m := String.length suf in
  if (m <=? n)%nat then substring (n - m) m s =? suf else false.

Definition lower_ascii (c : ascii) : ascii :=
  let n := nat_of_ascii c in
  if ((65 <=? n) && (n <=? 90))%nat then ascii_of_nat (n + 32) else c.

(** [s.lower()] *)
Fixpoint lower (s : string) : string :=
  match s with
  | EmptyString => EmptyString
  | String c t => String (lower_ascii c) (lower t)
  end.

Definition is_digit_ascii (c : ascii) : bool :=
  let n := nat_of_ascii c in ((48 <=? n) && (n <=? 57))%nat.

Fixpoint all_digits (s : string) : bool :=
  match s with
  | EmptyString => true
  | String c t => is_digit_ascii c && all_digits t
  end.

(** [s.isdigit()] for an ASCII text [s]: non-empty and digits only. On
    other texts Python's [str.isdigit] also accepts the digits of other
    scripts, superscripts and the like. *)
Definition isdigit_ascii (s : string) : bool :=
  match s with
  | EmptyString => false
  | _ => all_digits s
  end.

(** [s.find(c)] and [s.rfind(c)] for a one-character needle, counting from
    [i]: the index of the first (last) occurrence, or [-1]. *)
Fixpoint find_from (c : ascii) (s : string) (i : Z) : Z :=
  match s with
  | EmptyString => (-1)%Z
  | String a t => if Ascii.eqb a c then i else find_from c t (i + 1)%Z
  end.

Fixpoint rfind_from (c : ascii) (s : string) (i : Z) : Z :=
  match s with
  | EmptyString => (-1)%Z
  | String a t =>
      let r := rfind_from c t (i + 1)%Z in
      if (0 <=? r)%Z then r else if Ascii.eqb a c then i else (-1)%Z
  end.

Definition find (s : string) (c : ascii) : Z := find_from c s 0.
Definition rfind (s : string) (c : ascii) : Z := rfind_from c s 0.

(** [s[i:j]] for [0 <= i <= j]. *)
Definition slice (s : string) (i j : Z) : string :=
  substring (Z.to_nat i) (Z.to_nat (j - i)) s.

(** [str(z)] for an int. *)
Definition str_of_Z (z : Z) : string := NilZero.string_of_int (Z.to_int z).

End Py.

Export Py.

Declare Scope py_scope.
Delimit Scope py_scope with py.
Notation "x <- c ;; k" := (bind c (fun x => k))
  (at level 61, c at next level, right associativity) : py_scope.
Notation "c ;;; k" := (bind c (fun _ => k))
  (at level 61, right associativity) : py_scope.

(* ===================================================================== *)
(** ** [src/agents/debate_room.py]                                        *)
(* ===================================================================== *)

Module DebateRoom.

Local Open Scope string_scope.
Local Open Scope py_scope.

(** A message of the agent bus. [msg_name = None] is a message without a
    [name] attribute or with [name is None]; [msg_content = VNone] is a
    message without [content] or with [content is None]. *)
Record Msg : Type := HumanMessage { msg_content : pyval; msg_name : option string }.

(** The state dict the agent is called with. Each of the three keys of
    [AgentState] is there or not ([None]: the key is absent and subscripting
    raises [KeyError]). An entry of [messages] that is [None] in Python is
    [None] here. *)
Record AgentState : Type := mkState {
  messages : option (list (option Msg));
  data : option dict;
  metadata : option dict
}.

(** [state[k]] for the three keys. *)
Definition state_item {A : Type} (field : option A) (k : string) : result A :=
  match field with
  | Some v => Ok v
  | None => Raise (mkExn KeyError ("'" ++ k ++ "'"))
  end.

(** What the agent returns: [{"messages": ..., "data": ..., "metadata": ...}]. *)
Record AgentOutput : Type := mkOutput {
  out_messages : list Msg;
  out_data : dict;
  out_metadata : dict
}.

(** The library and repository functions that [debate_room.py] imports and
    whose code is not part of the file. Each may raise. *)
Record Externals : Type := mkExternals {
  (** [json.loads] on a [str] *)
  json_loads : string -> result pyval;
  (** [json.dumps] *)
  json_dumps : pyval -> string;
  (** [ast.literal_eval] *)
  literal_eval : pyval -> result pyval;
  (** [float] on a [str]; [None] is [ValueError] *)
  float_of_str : string -> option pyfloat;
  (** [AdvancedRegimeDetector()] *)
  regime_detector_new : result unit;
  (** [prices_to_df] followed by [AdvancedRegimeDetector]'s
      [extract_regime_features], [fit_regime_model] and
      [predict_current_regime]: [(regime_model_results, current_regime)] *)
  regime_analysis : pyval -> result (dict * dict);
  (** [adaptive_signal_aggregation(signals, regime_info, confidence_threshold)] *)
  adaptive_signal_aggregation : dict -> dict -> pyfloat -> result dict;
  (** the text of the f-strings of lines 346-394, given the researcher
      data, the agent signals and the regime: Python's string formatting *)
  llm_prompt : list (string * pyval) -> dict -> dict -> string;
  (** [log_llm_interaction(state)(lambda: get_chat_completion(messages))()] *)
  get_chat_completion : string -> result pyval
}.

(** [format(v, ".2f")] and the like, as the log lines apply it: only its
    raising matters. An int is converted to a float first. *)
Definition fmt_f (v : pyval) : result unit :=
  match v with
  | VBool _ | VFloat _ => Ok tt
  | VInt z => float_of_int z ;;; Ok tt
  | VStr _ => Raise (mkExn ValueError "Unknown format code 'f' for object of type 'str'")
  | _ => Raise (mkExn TypeError "unsupported format string")
  end.

(** [v[k]] for a string key. *)
Definition subscript (v : pyval) (k : string) : result pyval :=
  match v with
  | VDict d => getitem d k
  | _ => Raise (mkExn TypeError "object is not subscriptable with a str")
  end.

(** [v > c] for a float constant [c]. *)
Definition py_gt (v : pyval) (c : pyfloat) : result bool :=
  match num_of v with
  | Some x => Ok (fgt x c)
  | None => Raise (mkExn TypeError "'>' not supported between instances")
  end.

(** [v == s] for a string constant [s]. *)
Definition is_str (v : option pyval) (s : string) : bool :=
  match v with
  | Some (VStr s') => s' =? s
  | _ => false
  end.

Definition agent_type_mapping : list (string * string) :=
  [ ("technical_analyst_agent", "technical");
    ("fundamentals_agent", "fundamental");
    ("sentiment_agent", "sentiment");
    ("valuation_agent", "valuation");
    ("ai_model_analyst_agent", "ai_model");
    ("macro_analyst_agent", "macro") ].

Definition signal_mapping (s : string) : pyfloat :=
  if s =? "bullish" then Fin 1
  else if s =? "neutral" then Fin 0
  else if s =? "bearish" then Fin (-1)
  else Fin 0.

(** [perspective_values.get(perspective, 0.0)]: a list or a dict is not
    hashable. *)
Definition perspective_values (perspective : pyval) : result pyfloat :=
  match perspective with
  | VStr s =>
      Ok (if s =? "bullish" then Fin 1
          else if s =? "neutral" then Fin 0
          else if s =? "bearish" then Fin (-1)
          else Fin 0)
  | VList _ | VDict _ => Raise (mkExn TypeError "unhashable type")
  | _ => Ok (Fin 0)
  end.

(** Python's [min(a, b)] and [max(a, b)]: the first argument unless the
    second is strictly smaller (larger). *)
Definition py_min (a b : pyfloat) : pyfloat := if flt b a then b else a.
Definition py_max (a b : pyfloat) : pyfloat := if fgt b a then b else a.

(** [_convert_numeric_signal_to_string] (lines 429-448). The log line 445
    formats the number the signal was, and does so after the signal has been
    rewritten. *)
Definition _convert_numeric_signal_to_string (analysis : dict) : result dict :=
  match assoc_get analysis "signal" with
  | Some original_signal =>
      match num_of original_signal with
      | Some numeric_signal =>
          let analysis :=
            if fgt numeric_signal f_0_1 then
              assoc_set analysis "signal" (VStr "bullish")
            else if flt numeric_signal (fneg f_0_1) then
              assoc_set analysis "signal" (VStr "bearish")
            else
              assoc_set analysis "signal" (VStr "neutral") in
          fmt_f original_signal ;;;
          Ok analysis
      | None => Ok analysis
      end
  | None => Ok analysis
  end.

Section WithExternals.

Variable E : Externals.

(** [json.loads(v)]: anything but a [str] is a [TypeError]. *)
Definition py_json_loads (v : pyval) : result pyval :=
  match v with
  | VStr s => json_loads E s
  | _ => Raise (mkExn TypeError "the JSON object must be str, bytes or bytearray")
  end.

(** [float(v)] *)
Definition py_float (v : pyval) : result pyfloat :=
  match v with
  | VStr s =>
      match float_of_str E s with
      | Some f => Ok f
      | None => Raise (mkExn ValueError "could not convert string to float")
      end
  | VBool _ | VInt _ | VFloat _ => to_float v
  | _ => Raise (mkExn TypeError "float() argument must be a string or a real number")
  end.

(** [_parse_confidence] (lines 248-265). Only [ValueError] is caught, and
    only around [float] of a [str]; an int too large for a float raises
    [OverflowError] on lines 262 and 263. *)
Definition _parse_confidence (conf_value : pyval) : result pyfloat :=
  match conf_value with
  | VStr s =>
      if endswith s "%" then
        match float_of_str E (substring 0 (String.length s - 1) s) with
        | Some f => Ok (fdiv_np f (Fin 100))
        | None => Ok f_0_5
        end
      else
        match float_of_str E s with
        | Some f => Ok f
        | None => Ok f_0_5
        end
  | _ =>
      match num_of conf_value with
      | Some x =>
          if fgt x (Fin 1) then
            f <- to_float conf_value ;; Ok (fdiv_np f (Fin 100))
          else to_float conf_value
      | None => Ok f_0_5
      end
  end.

(** The body of the [try] in the loop of [_traditional_debate_logic]
    (lines 281-290): the numeric signal and the parsed confidence of one
    researcher message. *)
Definition researcher_contribution (msg : Msg) : result (pyfloat * pyfloat) :=
  data <- py_json_loads (msg_content msg) ;;
  d <- as_dict data ;;
  let perspective := get_default d "perspective" (VStr "neutral") in
  let raw_confidence := get_default d "confidence" (VFloat f_0_5) in
  confidence <- _parse_confidence raw_confidence ;;
  numeric_signal <- perspective_values perspective ;;
  Ok (numeric_signal, confidence).

(** The contributions of the messages the loop counts, in order: a message
    whose body raises is skipped ([except Exception: continue]). *)
Fixpoint contributions (researcher_messages : list (string * Msg))
    : list (pyfloat * pyfloat) :=
  match researcher_messages with
  | [] => []
  | (_, msg) :: t =>
      match researcher_contribution msg with
      | Ok c => c :: contributions t
      | Raise _ => contributions t
      end
  end.

(** The accumulators of the loop (lines 275-297):
    [(total_signal, total_confidence, count)]. *)
Fixpoint accumulate (cs : list (pyfloat * pyfloat))
    (acc : pyfloat * pyfloat * Z) : pyfloat * pyfloat * Z :=
  match cs with
  | [] => acc
  | (numeric_signal, confidence) :: t =>
      let '(total_signal, total_confidence, count) := acc in
      accumulate t (fadd total_signal (fmul numeric_signal confidence),
                    fadd total_confidence confidence,
                    (count + 1)%Z)
  end.

(** [avg_signal] of lines 299-304. The guard [total_confidence > 0] keeps
    the divisor away from zero. *)
Definition avg_signal_of (totals : pyfloat * pyfloat * Z) : pyfloat :=
  let '(total_signal, total_confidence, count) := totals in
  if (0 <? count)%Z then
    if fgt total_confidence (Fin 0) then fdiv_np total_signal total_confidence
    else Fin 0
  else Fin 0.

(** [avg_confidence] of lines 299-304. *)
Definition avg_confidence_of (totals : pyfloat * pyfloat * Z) : pyfloat :=
  let '(total_signal, total_confidence, count) := totals in
  if (0 <? count)%Z then fdiv_np total_confidence (float_of_count count)
  else f_0_3.

(** The weighted-average signal of a collection of researcher messages. *)
Definition avg_signal (researcher_messages : list (string * Msg)) : pyfloat :=
  avg_signal_of (accumulate (contributions researcher_messages) (Fin 0, Fin 0, 0%Z)).

(** [_traditional_debate_logic] (lines 238-318). *)
Definition _traditional_debate_logic (researcher_messages : list (string * Msg))
    : dict :=
  if (List.length researcher_messages <? 2)%nat then
    [ ("signal", VStr "neutral");
      ("confidence", VFloat f_0_3);
      ("aggregation_method", VStr "insufficient_data") ]
  else
    let totals := accumulate (contributions researcher_messages) (Fin 0, Fin 0, 0%Z) in
    let avg_signal := avg_signal_of totals in
    let avg_confidence := avg_confidence_of totals in
    let signal_str :=
      if fgt avg_signal f_0_1 then "bullish"
      else if flt avg_signal (fneg f_0_1) then "bearish"
      else "neutral" in
    [ ("signal", VStr signal_str);
      ("confidence", VFloat avg_confidence);
      ("aggregation_method", VStr "traditional_average") ].

(** [_parse_confidence_for_display] (lines 324-341) is, line for line,
    [_parse_confidence]. *)
Definition _parse_confidence_for_display (conf_value : pyval) : result pyfloat :=
  _parse_confidence conf_value.

(** Whether [for point in v] can start. *)
Definition is_iterable (v : pyval) : bool :=
  match v with
  | VStr _ | VList _ | VDict _ => true
  | _ => false
  end.

(** What the loop of lines 355-360 can raise while it adds the researcher
    views to the prompt. *)
Fixpoint prompt_researchers (researcher_data : list (string * pyval)) : result unit :=
  match researcher_data with
  | [] => Ok tt
  | (name, data) :: t =>
      d <- as_dict data ;;
      researcher_confidence <-
        _parse_confidence_for_display (get_default d "confidence" (VInt 0)) ;;
      (if is_iterable (get_default d "thesis_points" (VList []))
       then Ok tt
       else Raise (mkExn TypeError "object is not iterable")) ;;;
      prompt_researchers t
  end.

(** What the loop of lines 365-377 can raise while it adds the agent
    signals to the prompt. *)
Fixpoint prompt_signals (agent_signals : dict) : result unit :=
  match agent_signals with
  | [] => Ok tt
  | (signal_type, signal_data) :: t =>
      d <- as_dict signal_data ;;
      let signal_value := get_default d "signal" (VStr "neutral") in
      let confidence_value := get_default d "confidence" (VInt 0) in
      (match signal_value with
       | VStr _ => Ok tt
       | _ => fmt_f signal_value
       end) ;;;
      parsed_confidence <- _parse_confidence_for_display confidence_value ;;
      prompt_signals t
  end.

(** What [_get_llm_enhanced_analysis] returns when no score was obtained. *)
Definition llm_failed : dict :=
  [ ("llm_score", VInt 0); ("error", VStr "LLM analysis failed") ].

(** Lines 407-422: the score of an LLM response. *)
Definition parse_llm_response (llm_response : pyval) : result dict :=
  if truthy llm_response then
    match llm_response with
    | VStr s =>
        let json_start := find s "{" in
        let json_end := (rfind s "}" + 1)%Z in
        if (0 <=? json_start)%Z && (json_start <? json_end)%Z then
          let json_str := slice s json_start json_end in
          llm_analysis <- json_loads E json_str ;;
          d <- as_dict llm_analysis ;;
          llm_score <- py_float (get_default d "score" (VInt 0)) ;;
          let llm_score := py_max (py_min llm_score (Fin 1)) (Fin (-1)) in
          Ok [ ("llm_score", VFloat llm_score);
               ("llm_analysis", llm_analysis);
               ("llm_response", llm_response) ]
        else Ok llm_failed
    | _ => Raise (mkExn AttributeError "object has no attribute 'find'")
    end
  else Ok llm_failed.

(** [_get_llm_enhanced_analysis] (lines 321-426): building the prompt may
    raise; everything from the LLM call on is inside [try ... except
    Exception]. *)
Definition _get_llm_enhanced_analysis (researcher_data : list (string * pyval))
    (agent_signals current_regime : dict) : result dict :=
  regime_confidence <-
    _parse_confidence_for_display (get_default current_regime "confidence" (VInt 0)) ;;
  prompt_researchers researcher_data ;;;
  prompt_signals agent_signals ;;;
  let prompt := llm_prompt E researcher_data agent_signals current_regime in
  Ok (catch_all
        (llm_response <- get_chat_completion E prompt ;;
         parse_llm_response llm_response)
        (fun _ => llm_failed)).

(** The body of the [try] of lines 56-86 for a message whose name ends in
    ["_agent"]: the updated [(agent_signals, researcher_messages)]. *)
Definition collect_agent_message (name : string) (msg : Msg)
    (acc : dict * list (string * Msg)) : result (dict * list (string * Msg)) :=
  let '(agent_signals, researcher_messages) := acc in
  match msg_content msg with
  | VNone => Ok acc
  | c =>
      content <- (match c with VStr s => json_loads E s | _ => Ok c end) ;;
      agent_signals' <-
        (match assoc_get agent_type_mapping name with
         | Some signal_type =>
             d <- as_dict content ;;
             let raw_signal := get_default d "signal" (VStr "neutral") in
             let confidence := get_default d "confidence" (VFloat f_0_5) in
             Ok (assoc_set agent_signals signal_type
                   (VDict [ ("signal", raw_signal);
                            ("confidence", confidence);
                            ("raw_data", content) ]))
         | None => Ok agent_signals
         end) ;;
      Ok (agent_signals',
          if startswith name "researcher_"
          then assoc_set researcher_messages name msg
          else researcher_messages)
  end.

(** One iteration of the loop of lines 47-90. *)
Definition collect_message (acc : dict * list (string * Msg)) (m : option Msg)
    : result (dict * list (string * Msg)) :=
  match m with
  | None => Ok acc
  | Some msg =>
      match msg_name msg with
      | None => Ok acc
      | Some name =>
          if endswith name "_agent" then
            catch (collect_agent_message name msg acc)
                  [JSONDecodeError; TypeError; AttributeError]
                  (fun _ => Ok acc)
          else Ok acc
      end
  end.

(** The loop of lines 47-90. *)
Fixpoint collect (msgs : list (option Msg)) (acc : dict * list (string * Msg))
    : result (dict * list (string * Msg)) :=
  match msgs with
  | [] => Ok acc
  | m :: t => acc' <- collect_message acc m ;; collect t acc'
  end.

(** The formatting of the log lines 109-113. *)
Fixpoint log_contributions (items : dict) : result unit :=
  match items with
  | [] => Ok tt
  | (_, contribution) :: t =>
      subscript contribution "signal" ;;;
      c <- subscript contribution "confidence" ;; fmt_f c ;;;
      w <- subscript contribution "weight" ;; fmt_f w ;;;
      v <- subscript contribution "contribution" ;; fmt_f v ;;;
      log_contributions t
  end.

(** Lines 94-128: the regime-aware branch. *)
Definition regime_aware_analysis (agent_signals regime_model_results current_regime : dict)
    : result dict :=
  aggregated_result <- adaptive_signal_aggregation E agent_signals current_regime f_0_6 ;;
  final_signal <- getitem aggregated_result "aggregated_signal" ;;
  final_confidence <- getitem aggregated_result "aggregated_confidence" ;;
  fmt_f final_signal ;;;
  fmt_f final_confidence ;;;
  fmt_f (get_default aggregated_result "original_signal" (VStr "N/A")) ;;;
  items <- as_dict (get_default aggregated_result "signal_contributions" (VDict [])) ;;
  log_contributions items ;;;
  regime_adjusted_weights <- getitem aggregated_result "regime_adjusted_weights" ;;
  signal_contributions <- getitem aggregated_result "signal_contributions" ;;
  dynamic_threshold <- getitem aggregated_result "dynamic_threshold" ;;
  Ok [ ("signal", final_signal);
       ("confidence", final_confidence);
       ("aggregation_method", VStr "regime_aware_adaptive");
       ("market_regime", VDict current_regime);
       ("regime_adjusted_weights", regime_adjusted_weights);
       ("signal_contributions", signal_contributions);
       ("dynamic_threshold", dynamic_threshold);
       ("regime_model_performance",
        VDict [ ("model_score", get_default regime_model_results "model_score" (VInt 0));
                ("regime_characteristics",
                 get_default regime_model_results "regime_characteristics" (VDict [])) ]) ].

(** The check of lines 136-140. *)
Definition check_researchers (agent_signals : dict)
    (researcher_messages : list (string * Msg)) : result unit :=
  if negb (assoc_mem researcher_messages "researcher_bull_agent")
     || negb (assoc_mem researcher_messages "researcher_bear_agent")
  then
    match agent_signals with
    | [] => Raise (mkExn ValueError
                     "Missing required researcher_bull_agent or researcher_bear_agent messages")
    | _ => Ok tt
    end
  else Ok tt.

(** The loop of lines 143-158. *)
Fixpoint parse_researchers (researcher_messages : list (string * Msg))
    (researcher_data : list (string * pyval)) : result (list (string * pyval)) :=
  match researcher_messages with
  | [] => Ok researcher_data
  | (name, msg) :: t =>
      match msg_content msg with
      | VNone => parse_researchers t researcher_data
      | c =>
          parsed <-
            catch (v <- py_json_loads c ;; Ok (Some v))
                  [JSONDecodeError; TypeError]
                  (fun _ =>
                     catch (v <- literal_eval E c ;; Ok (Some v))
                           [ValueError; SyntaxError; TypeError]
                           (fun _ => Ok None)) ;;
          match parsed with
          | Some data_content =>
              parse_researchers t (assoc_set researcher_data name data_content)
          | None => parse_researchers t researcher_data
          end
      end
  end.

(** Lines 167-194: the fusion with the LLM score. *)
Definition fuse (enhanced_analysis llm_enhanced_analysis current_regime : dict)
    : result dict :=
  match assoc_get enhanced_analysis "signal", assoc_get llm_enhanced_analysis "llm_score" with
  | Some current_signal, Some llm_score =>
      let regime_confidence := get_default current_regime "confidence" (VFloat f_0_5) in
      confident <- py_gt regime_confidence f_0_6 ;;
      let adaptive_weight := if confident then f_0_7 else f_0_5 in
      let llm_weight := fsub (Fin 1) adaptive_weight in
      numeric_signal <-
        (match current_signal with
         | VStr s => Ok (signal_mapping (lower s))
         | _ => py_float current_signal
         end) ;;
      llm_score <- to_float llm_score ;;
      let fused_signal :=
        fadd (fmul adaptive_weight numeric_signal) (fmul llm_weight llm_score) in
      let enhanced_analysis := assoc_set enhanced_analysis "signal" (VFloat fused_signal) in
      let enhanced_analysis :=
        assoc_set enhanced_analysis "llm_analysis" (VDict llm_enhanced_analysis) in
      let enhanced_analysis :=
        assoc_set enhanced_analysis "fusion_weights"
          (VDict [ ("adaptive_aggregation", VFloat adaptive_weight);
                   ("llm_analysis", VFloat llm_weight) ]) in
      Ok (assoc_set enhanced_analysis "original_signal" current_signal)
  | _, _ => Ok enhanced_analysis
  end.

(** The [try] block of [debate_room_agent] (lines 24-214). *)
Definition main_body (state : AgentState) : result AgentOutput :=
  metadata0 <- state_item (metadata state) "metadata" ;;
  show_reasoning <- getitem metadata0 "show_reasoning" ;;
  regime_detector_new E ;;;
  data <- state_item (data state) "data" ;;
  prices <- getitem data "prices" ;;
  regimes <- regime_analysis E prices ;;
  let '(regime_model_results, current_regime) := regimes in
  fmt_f (get_default current_regime "confidence" (VInt 0)) ;;;
  msgs <- state_item (messages state) "messages" ;;
  collected <- collect msgs ([], []) ;;
  let '(agent_signals, researcher_messages) := collected in
  enhanced_analysis <-
    (if negb (match agent_signals with [] => true | _ => false end)
        && negb (is_str (assoc_get current_regime "regime_name") "unknown")
     then regime_aware_analysis agent_signals regime_model_results current_regime
     else Ok (_traditional_debate_logic researcher_messages)) ;;
  check_researchers agent_signals researcher_messages ;;;
  researcher_data <- parse_researchers researcher_messages [] ;;
  enhanced_analysis <-
    (if (2 <=? List.length researcher_data)%nat then
       llm_enhanced_analysis <-
         _get_llm_enhanced_analysis researcher_data agent_signals current_regime ;;
       fuse enhanced_analysis llm_enhanced_analysis current_regime
     else Ok enhanced_analysis) ;;
  enhanced_analysis <- _convert_numeric_signal_to_string enhanced_analysis ;;
  let message :=
    HumanMessage (VStr (json_dumps E (VDict enhanced_analysis))) (Some "debate_room_agent") in
  let metadata' :=
    if truthy show_reasoning
    then assoc_set metadata0 "agent_reasoning" (VDict enhanced_analysis)
    else metadata0 in
  Ok (mkOutput [message] data metadata').

(** The [default_analysis] of the [except] block (lines 219-224). *)
Definition default_analysis (e : exn) : dict :=
  [ ("signal", VStr "neutral");
    ("confidence", VFloat f_0_3);
    ("error", VStr (exn_msg e));
    ("aggregation_method", VStr "error_fallback") ].

(** The [except Exception] block (lines 216-235); its own subscripts of
    [state] are not guarded. *)
Definition error_fallback (state : AgentState) (e : exn) : result AgentOutput :=
  let message :=
    HumanMessage (VStr (json_dumps E (VDict (default_analysis e))))
                 (Some "debate_room_agent") in
  data <- state_item (data state) "data" ;;
  metadata <- state_item (metadata state) "metadata" ;;
  Ok (mkOutput [message] data metadata).

(** [debate_room_agent] (lines 18-235): the dict returned, or the exception
    that leaves the function. *)
Definition debate_room_agent (state : AgentState) : result AgentOutput :=
  match main_body state with
  | Ok out => Ok out
  | Raise e => error_fallback state e
  end.

End WithExternals.

End DebateRoom.

(* ===================================================================== *)
(** ** [src/backtest/baselines/base_strategy.py] (as the strategies use it) *)
(* ===================================================================== *)

Module BaseStrategy.

(** [Signal(action, quantity, confidence, reasoning, metadata)]; [metadata]
    is [None] when the caller passes none. *)
Record Signal : Type := mkSignal {
  action : string;
  quantity : Z;
  confidence : pyfloat;
  reasoning : string;
  sig_metadata : option dict
}.

(** [Portfolio]: the two attributes the strategies read, both floats. *)
Record Portfolio : Type := mkPortfolio {
  cash : pyfloat;
  stock : pyfloat
}.

(** The ['close'] column of the price frame, oldest first. *)
Definition Prices : Type := list pyfloat.

(** [prices.iloc[-1]] *)
Definition iloc_last (prices : Prices) : result pyfloat :=
  match rev prices with
  | p :: _ => Ok p
  | [] => Raise (mkExn IndexError "single positional indexer is out-of-bounds")
  end.

(** A Python slice bound [i] on a sequence of length [n]. *)
Definition slice_bound (n i : Z) : Z :=
  if (i <? 0)%Z then Z.max 0 (i + n) else Z.min i n.

(** [prices.iloc[start:stop]] *)
Definition iloc_slice (prices : Prices) (start stop : Z) : Prices :=
  let n := Z.of_nat (List.length prices) in
  let a := slice_bound n start in
  let b := slice_bound n stop in
  skipn (Z.to_nat a) (firstn (Z.to_nat b) prices).

(** [prices.tail(n)]: pandas returns [iloc[0:0]] for [n = 0] and
    [iloc[-n:]] otherwise. *)
Definition tail (prices : Prices) (n : Z) : Prices :=
  if (n =? 0)%Z then []
  else
    let len := Z.of_nat (List.length prices) in
    skipn (Z.to_nat (slice_bound len (- n))) prices.

Definition is_nan (a : pyfloat) : bool :=
  match a with NaN => true | _ => false end.

End BaseStrategy.

(* ===================================================================== *)
(** ** [src/backtest/baselines/buy_hold.py]                               *)
(* ===================================================================== *)

Module BuyHold.

Import BaseStrategy.
Local Open Scope string_scope.
Local Open Scope py_scope.

(** The attributes of a [BuyHoldStrategy] instance that [generate_signal]
    reads or writes. *)
Record BuyHoldStrategy : Type := mkBuyHold {
  allocation_ratio : pyfloat;
  initial_purchase_made : bool
}.

(** [BuyHoldStrategy(allocation_ratio)] *)
Definition init (allocation_ratio : pyfloat) : BuyHoldStrategy :=
  mkBuyHold allocation_ratio false.

(** The signal of lines 40-45. *)
Definition hold_signal : Signal :=
  mkSignal "hold" 0 (Fin 1) "Buy-and-hold strategy maintains position" None.

(** [generate_signal] (lines 17-45): the signal returned, or the exception
    raised, and the instance after the call. *)
Definition generate_signal (self : BuyHoldStrategy) (data : Prices)
    (portfolio : Portfolio) : result Signal * BuyHoldStrategy :=
  if negb (initial_purchase_made self) && fgt (cash portfolio) (Fin 0) then
    match
      (current_price <- iloc_last data ;;
       int_of_float (fdiv_np (fmul (cash portfolio) (allocation_ratio self)) current_price))
    with
    | Raise e => (Raise e, self)
    | Ok max_shares =>
        if (0 <? max_shares)%Z then
          (Ok (mkSignal "buy" max_shares (Fin 1) "Initial buy-and-hold purchase"
                 (Some [("allocation_ratio", VFloat (allocation_ratio self))])),
           mkBuyHold (allocation_ratio self) true)
        else (Ok hold_signal, self)
    end
  else (Ok hold_signal, self).

(** A sequence of calls on one instance: the outcomes, in order. *)
Fixpoint run (self : BuyHoldStrategy) (calls : list (Prices * Portfolio))
    : list (result Signal) :=
  match calls with
  | [] => []
  | (data, portfolio) :: t =>
      let '(r, self') := generate_signal self data portfolio in
      r :: run self' t
  end.

(** Whether an outcome is a returned ['buy'] signal. *)
Definition is_buy (r : result Signal) : bool :=
  match r with
  | Ok s => action s =? "buy"
  | Raise _ => false
  end.

End BuyHold.

(* ===================================================================== *)
(** ** [src/backtest/baselines/moving_average.py]                         *)
(* ===================================================================== *)

Module MovingAverage.

Import BaseStrategy.
Local Open Scope string_scope.
Local Open Scope py_scope.

(** The attributes of a [MovingAverageStrategy] that [generate_signal] reads. *)
Record MovingAverageStrategy : Type := mkMovingAverage {
  short_window : Z;
  long_window : Z;
  signal_threshold : pyfloat
}.


Section WithPandas.

(** [Series.mean()] of pandas: the order in which it adds the entries, and
    so its rounding, is the library's. *)
Variable mean : Prices -> pyfloat.

(** [format(x, ".2f")] on a float. *)
Variable format_2f : pyfloat -> string.

Definition ma_metadata (short_ma long_ma prev_short_ma prev_long_ma : pyfloat)
    (data_length : Z) : dict :=
  [ ("short_ma", VFloat short_ma);
    ("long_ma", VFloat long_ma);
    ("prev_short_ma", VFloat prev_short_ma);
    ("prev_long_ma", VFloat prev_long_ma);
    ("data_length", VInt data_length) ].

(** [position_ratio] of line 59. *)
Definition position_ratio (portfolio : Portfolio) (current_price : pyfloat) : pyfloat :=
  fdiv_np (fmul (stock portfolio) current_price)
          (fadd (cash portfolio) (fmul (stock portfolio) current_price)).

(** [generate_signal] (lines 21-115). *)
Definition generate_signal (self : MovingAverageStrategy) (prices : Prices)
    (portfolio : Portfolio) : result Signal :=
  let len := Z.of_nat (List.length prices) in
  if (len <? long_window self)%Z then
    Ok (mkSignal "hold" 0 f_0_5
          ("Insufficient data: need " ++ str_of_Z (long_window self)
             ++ " periods, got " ++ str_of_Z len)
          None)
  else
    let short_ma := mean (tail prices (short_window self)) in
    let long_ma := mean (tail prices (long_window self)) in
    let '(golden_cross, death_cross, prev_short_ma, prev_long_ma) :=
      if (long_window self + 1 <=? len)%Z then
        let prev_short_ma := mean (iloc_slice prices (- (short_window self + 1)) (-1)) in
        let prev_long_ma := mean (iloc_slice prices (- (long_window self + 1)) (-1)) in
        (fle prev_short_ma prev_long_ma && fgt short_ma long_ma,
         fge prev_short_ma prev_long_ma && flt short_ma long_ma,
         prev_short_ma, prev_long_ma)
      else
        (fgt short_ma (fmul long_ma (fadd (Fin 1) (signal_threshold self))),
         flt short_ma (fmul long_ma (fsub (Fin 1) (signal_threshold self))),
         short_ma, long_ma) in
    current_price <- iloc_last prices ;;
    let position_ratio := position_ratio portfolio current_price in
    let hold :=
      mkSignal "hold" 0 f_0_5
        ("No crossover: Short MA " ++ format_2f short_ma ++ ", Long MA "
           ++ format_2f long_ma ++ " (data: " ++ str_of_Z len ++ " days)")
        (Some (ma_metadata short_ma long_ma prev_short_ma prev_long_ma len)) in
    if golden_cross && flt position_ratio f_0_9 then
      let max_investment := fmul (cash portfolio) f_0_8 in
      quantity <- int_of_float (fdiv_np max_investment current_price) ;;
      if (0 <? quantity)%Z then
        Ok (mkSignal "buy" quantity f_0_7
              ("Golden cross: Short MA " ++ format_2f short_ma ++ " > Long MA "
                 ++ format_2f long_ma)
              (Some (ma_metadata short_ma long_ma prev_short_ma prev_long_ma len)))
      else Ok hold
    else if death_cross && fgt (stock portfolio) (Fin 0) then
      quantity <- int_of_float (fmul (stock portfolio) f_0_8) ;;
      if (0 <? quantity)%Z then
        Ok (mkSignal "sell" quantity f_0_7
              ("Death cross: Short MA " ++ format_2f short_ma ++ " < Long MA "
                 ++ format_2f long_ma)
              (Some (ma_metadata short_ma long_ma prev_short_ma prev_long_ma len)))
      else Ok hold
    else Ok hold.

End WithPandas.

End MovingAverage.

(* ===================================================================== *)
(** ** [src/mcp_api/mcp_tools/base.py]                                    *)
(* ===================================================================== *)

Module McpTools.

Local Open Scope string_scope.
Local Open Scope py_scope.

(** A table as the data source returns it: column names and rows of cells
    already rendered as text. *)
Record DataFrame : Type := mkDataFrame {
  columns : list string;
  rows : list (list string)
}.

(** The table a markdown rendering shows when it is capped at [max_rows]
    rows and [max_cols] columns. *)
Definition cap_table (max_rows max_cols : nat) (df : DataFrame) : DataFrame :=
  mkDataFrame (firstn max_cols (columns df))
              (map (firstn max_cols) (firstn max_rows (rows df))).

Definition markdown_row (cells : list string) : string :=
  fold_left (fun acc c => acc ++ " " ++ c ++ " |") cells "|".

(** A table as markdown text: header, rule, one line per row. *)
Definition to_markdown (df : DataFrame) : string :=
  String.concat (String (ascii_of_nat 10) EmptyString)
    (markdown_row (columns df)
       :: markdown_row (map (fun _ => "---") (columns df))
       :: map markdown_row (rows df)).

(** Modelled from the spec: [format_df_to_markdown] of
    [src/mcp_api/formatting/markdown_formatter.py], which is not among the
    sources. The spec says of the data source's tables that they are
    "converted to markdown tables capped at fixed row/column counts": the
    table is cut to [max_rows] rows and [max_cols] columns, the formatter's
    own fixed counts [default_rows] and [default_cols] standing in for a
    limit the caller does not pass, and then rendered. *)
Definition format_df_to_markdown_spec (default_rows default_cols : nat)
    (df : DataFrame) (max_rows max_cols : option nat) : string :=
  let r := match max_rows with Some n => n | None => default_rows end in
  let c := match max_cols with Some n => n | None => default_cols end in
  to_markdown (cap_table r c df).

(** What a tool call did: the string returned and the calls made to the
    data-source method, in order. *)
Record ToolRun (Call : Type) : Type := mkRun {
  output : string;
  invoked : list Call
}.

Section Tools.

(** Python's [str.isdigit] and [len] on a [str]. *)
Variable isdigit : string -> bool.
Variable len : string -> nat.

(** [format_df_to_markdown(df, max_rows=None, max_cols=None)]; as far as
    [base.py] goes it may raise like any other call. *)
Variable format_df_to_markdown : DataFrame -> option nat -> option nat -> result string.

(** [call_financial_data_tool] (lines 10-71). *)
Definition call_financial_data_tool (tool_name : string)
    (data_source_method : string -> string -> Z -> result DataFrame)
    (data_type_name code year : string) (quarter : Z)
    : ToolRun (string * string * Z) :=
  if negb (isdigit year) || negb (len year =? 4)%nat then
    mkRun ("Error: Invalid year '" ++ year ++ "'. Please provide a 4-digit year.") []
  else if negb ((1 <=? quarter)%Z && (quarter <=? 4)%Z) then
    mkRun ("Error: Invalid quarter '" ++ str_of_Z quarter ++ "'. Must be between 1 and 4.") []
  else
    let r :=
      df <- data_source_method code year quarter ;;
      format_df_to_markdown df (Some 20%nat) (Some 10%nat) in
    mkRun
      (match r with
       | Ok s => s
       | Raise e =>
           if isinstance_exn e NoDataFoundError then
             "Error: " ++ exn_msg e
           else if isinstance_exn e LoginError then
             "Error: Could not connect to data source. " ++ exn_msg e
           else if isinstance_exn e DataSourceError then
             "Error: An error occurred while fetching data. " ++ exn_msg e
           else if isinstance_exn e ValueError then
             "Error: Invalid input parameter. " ++ exn_msg e
           else
             "Error: An unexpected error occurred: " ++ exn_msg e
       end)
      [(code, year, quarter)].

(** [call_macro_data_tool] (lines 74-124); [kwargs] are the extra keyword
    arguments handed on to the method. *)
Definition call_macro_data_tool (tool_name : string)
    (data_source_method : option string -> option string -> dict -> result DataFrame)
    (data_type_name : string) (start_date end_date : option string) (kwargs : dict)
    : ToolRun (option string * option string * dict) :=
  let r :=
    df <- data_source_method start_date end_date kwargs ;;
    format_df_to_markdown df None None in
  mkRun
    (match r with
     | Ok s => s
     | Raise e =>
         if isinstance_exn e NoDataFoundError then
           "Error: " ++ exn_msg e
         else if isinstance_exn e LoginError then
           "Error: Could not connect to data source. " ++ exn_msg e
         else if isinstance_exn e DataSourceError then
           "Error: An error occurred while fetching data. " ++ exn_msg e
         else if isinstance_exn e ValueError then
           "Error: Invalid input parameter. " ++ exn_msg e
         else
           "Error: An unexpected error occurred: " ++ exn_msg e
     end)
    [(start_date, end_date, kwargs)].

(** [call_index_constituent_tool] (lines 127-171). *)
Definition call_index_constituent_tool (tool_name : string)
    (data_source_method : option string -> result DataFrame)
    (index_name : string) (date : option string)
    : ToolRun (option string) :=
  let r :=
    df <- data_source_method date ;;
    format_df_to_markdown df None None in
  mkRun
    (match r with
     | Ok s => s
     | Raise e =>
         if isinstance_exn e NoDataFoundError then
           "Error: " ++ exn_msg e
         else if isinstance_exn e LoginError then
           "Error: Could not connect to data source. " ++ exn_msg e
         else if isinstance_exn e DataSourceError then
           "Error: An error occurred while fetching data. " ++ exn_msg e
         else if isinstance_exn e ValueError then
           "Error: Invalid input parameter. " ++ exn_msg e
         else
           "Error: An unexpected error occurred: " ++ exn_msg e
     end)
    [date].

End Tools.

End McpTools.

(* ===================================================================== *)
(** ** Concrete inputs used by the examples below                         *)
(* ===================================================================== *)

Module Examples.

Import DebateRoom BaseStrategy McpTools.
Local Open Scope string_scope.

(** The double quote, to write JSON text. *)
Definition dq : string := String (ascii_of_nat 34) EmptyString.

(** The JSON text [{"k1": v1, "k2": v2}] for members already rendered. *)
Definition json_object (members : list (string * string)) : string :=
  "{" ++ String.concat ", " (map (fun m => dq ++ fst m ++ dq ++ ": " ++ snd m) members) ++ "}".

(** [{"perspective": "bullish", "confidence": 1.0}] *)
Definition bull_text : string :=
  json_object [("perspective", dq ++ "bullish" ++ dq); ("confidence", "1.0")].

(** [{"perspective": "bearish", "confidence": -0.5}] *)
Definition bear_text : string :=
  json_object [("perspective", dq ++ "bearish" ++ dq); ("confidence", "-0.5")].

(** [{"score": NaN}]: Python's [json.loads] reads [NaN] as [float('nan')]. *)
Definition nan_score_text : string := json_object [("score", "NaN")].

(** [{"perspective": "bullish", "confidence": Infinity}]: [json.loads]
    reads [Infinity] as [float('inf')]. *)
Definition inf_conf_text : string :=
  json_object [("perspective", dq ++ "bullish" ++ dq); ("confidence", "Infinity")].

(** [{"score": 7}] *)
Definition big_score_text : string := json_object [("score", "7")].

(** [{"perspective": "bullish", "confidence": "1e308"}] *)
Definition large_conf_text : string :=
  json_object [("perspective", dq ++ "bullish" ++ dq);
               ("confidence", dq ++ "1e308" ++ dq)].

(** The float [1e308]. *)
Definition f_1e308 : pyfloat := Eval vm_compute in round64 (inject_Z (10 ^ 308)).

(** [{"perspective": "bullish", "confidence": 10**400}], the int written
    out in the text. *)
Definition huge_conf_text : string :=
  json_object [("perspective", dq ++ "bullish" ++ dq);
               ("confidence", "1" ++ string_of_list_ascii (repeat "0"%char 400))].

(** [json.loads] on the texts above; any other text is taken as malformed. *)
Definition ex_json_table : list (string * pyval) :=
  [ (bull_text, VDict [("perspective", VStr "bullish"); ("confidence", VFloat (Fin 1))]);
    (bear_text, VDict [("perspective", VStr "bearish"); ("confidence", VFloat (fneg f_0_5))]);
    (inf_conf_text, VDict [("perspective", VStr "bullish"); ("confidence", VFloat PInf)]);
    (large_conf_text, VDict [("perspective", VStr "bullish"); ("confidence", VStr "1e308")]);
    (huge_conf_text, VDict [("perspective", VStr "bullish"); ("confidence", VInt (10 ^ 400))]);
    (nan_score_text, VDict [("score", VFloat NaN)]);
    (big_score_text, VDict [("score", VInt 7)]) ].

Definition ex_json_loads (s : string) : result pyval :=
  match assoc_get ex_json_table s with
  | Some v => Ok v
  | None => Raise (mkExn JSONDecodeError "Expecting value")
  end.

(** [float] on the text [1e308]; any other text is taken as no number. *)
Definition ex_float_of_str (s : string) : option pyfloat :=
  if s =? "1e308" then Some f_1e308 else None.

(** An environment in which the regime detector finds no regime and the
    LLM answers [{"score": 7}]. *)
Definition ex_env : Externals :=
  mkExternals
    ex_json_loads
    (fun _ => "<json>")
    (fun _ => Raise (mkExn ValueError "malformed node or string"))
    ex_float_of_str
    (Ok tt)
    (fun _ => Ok ([], [("regime_name", VStr "unknown"); ("confidence", VFloat f_0_5)]))
    (fun _ _ _ => Raise (mkExn OtherException "no aggregation"))
    (fun _ _ _ => "prompt")
    (fun _ => Ok (VStr ("Here is my view: " ++ big_score_text ++ " Thanks."))).

Definition bull_msg : Msg := HumanMessage (VStr bull_text) (Some "researcher_bull_agent").
Definition bear_msg : Msg := HumanMessage (VStr bear_text) (Some "researcher_bear_agent").

(** The two researcher messages as the collection loop stores them. *)
Definition ex_researchers : list (string * Msg) :=
  [ ("researcher_bull_agent", bull_msg); ("researcher_bear_agent", bear_msg) ].

(** A state with prices and the reasoning flag, and no message at all. *)
Definition ex_state_no_messages : AgentState :=
  mkState (Some []) (Some [("prices", VList [])]) (Some [("show_reasoning", VBool true)]).

(** The same state with the two researcher messages. *)
Definition ex_state_researchers : AgentState :=
  mkState (Some [Some bull_msg; Some bear_msg]) (Some [("prices", VList [])])
          (Some [("show_reasoning", VBool true)]).

(** A state dict without the ['metadata'] key. *)
Definition ex_state_no_metadata : AgentState :=
  mkState (Some []) (Some [("prices", VList [])]) None.

(** [E] with the LLM answering [response]. *)
Definition with_llm_response (E : Externals) (response : pyval) : Externals :=
  mkExternals (json_loads E) (json_dumps E) (literal_eval E) (float_of_str E)
    (regime_detector_new E) (regime_analysis E) (adaptive_signal_aggregation E)
    (llm_prompt E) (fun _ => Ok response).

(** Two researchers, both confident at [1.0]. *)
Definition ex_two_bulls : list (string * Msg) :=
  [ ("researcher_bull_agent", bull_msg); ("researcher_bear_agent", bull_msg) ].

(** Two researchers, both bullish with confidence [1e308]. *)
Definition large_msg : Msg := HumanMessage (VStr large_conf_text) (Some "researcher_bull_agent").
Definition ex_two_large : list (string * Msg) :=
  [ ("researcher_bull_agent", large_msg); ("researcher_bear_agent", large_msg) ].

(** Three calls: a purchase of 10 shares at price 10 with 100 in cash, then
    a call on a zero price, then one on an empty frame. *)
Definition ex_calls : list (Prices * Portfolio) :=
  [ ([Fin 9; Fin 10], mkPortfolio (Fin 100) (Fin 0));
    ([Fin 0], mkPortfolio (Fin 50) (Fin 10));
    ([], mkPortfolio NaN PInf) ].

(** Windows 1 and 2, two rising prices, 1000 in cash and 10 shares. *)
Definition ex_strategy : MovingAverage.MovingAverageStrategy :=
  MovingAverage.mkMovingAverage 1 2 f_0_005.

(** A mean that adds the entries from left to right, skipping [nan]; the
    mean of nothing is [nan]. *)
Definition ex_mean (xs : Prices) : pyfloat :=
  let kept := filter (fun x => negb (is_nan x)) xs in
  match kept with
  | [] => NaN
  | _ => fdiv_np (fold_left fadd kept (Fin 0))
                 (float_of_count (Z.of_nat (List.length kept)))
  end.

(** The float [20.512820512820515]. *)
Definition f_price : pyfloat := Eval vm_compute in round64 20.512820512820515.

(** A stand-in for [format(x, ".2f")]. *)
Definition ex_format_2f (x : pyfloat) : string := "<.2f>".



(** A table of three columns and two rows. *)
Definition ex_table : DataFrame :=
  mkDataFrame ["code"; "roe"; "eps"]
              [["sh.600000"; "0.11"; "1.5"]; ["sh.600000"; "0.12"; "1.7"]].

End Examples.

(* ===================================================================== *)
(** ** The vocabulary of the statements                                   *)
(* ===================================================================== *)

Module Props.

Import DebateRoom BaseStrategy McpTools.
Local Open Scope string_scope.

(** The signal string [r] is the one the thresholds [0.1] and [-0.1] give
    the number [s]. *)
Definition classified_by (s : pyfloat) (r : option pyval) : Prop :=
  (r = Some (VStr "bullish") <-> fgt s f_0_1 = true) /\
  (r = Some (VStr "bearish") <-> flt s (fneg f_0_1) = true) /\
  (r = Some (VStr "neutral") <-> fgt s f_0_1 = false /\ flt s (fneg f_0_1) = false).

(** A number that can be converted to a float: a float, a bool, or an int
    that is not too large. *)
Definition fits_float (v : pyval) : Prop :=
  exists f, to_float v = Ok f.

(** A value of the float model that is a float: finite and a binary64
    number, or one of the special values. *)
Definition is_float (a : pyfloat) : Prop :=
  match a with
  | Fin q => is_double q
  | _ => True
  end.

(** A parsed confidence that is a finite, non-negative float. *)
Definition nonneg_finite (c : pyfloat) : Prop :=
  exists q, c = Fin q /\ 0 <= q /\ is_double q.

(** What the loop of [_traditional_debate_logic] keeps true of
    [(total_signal, total_confidence)] as long as the confidences it adds
    are finite, non-negative floats: either both are finite with
    [|total_signal| <= total_confidence], or [total_confidence] has
    overflowed to [inf] and [total_signal] is not [nan]. *)
Definition totals_bounded (ts tc : pyfloat) : Prop :=
  (exists a b, ts = Fin a /\ tc = Fin b /\ (0 <= b /\ - b <= a /\ a <= b)%Q)
  \/ (tc = PInf /\ ts <> NaN).

(** A float, or its opposite. *)
Definition signed (bullish : bool) (a : pyfloat) : pyfloat :=
  if bullish then a else fneg a.

(** [total_confidence] after the loop of [_traditional_debate_logic]. *)
Definition total_confidence (E : Externals) (researcher_messages : list (string * Msg))
    : pyfloat :=
  snd (fst (accumulate (contributions E researcher_messages) (Fin 0, Fin 0, 0%Z))).

(** The numeric value of a perspective: [1.0], [0.0] or [-1.0]. *)
Definition unit_signal (v : pyfloat) : Prop :=
  v = Fin 1 \/ v = Fin 0 \/ v = Fin (-1).

(** [out] is the neutral default result for a state whose data and metadata
    are [d] and [m]: one message named [debate_room_agent] whose JSON
    content has signal ['neutral'] and confidence [0.3], with [d] and [m]
    handed back as they are. *)
Definition neutral_fallback (E : Externals) (d m : dict) (out : AgentOutput) : Prop :=
  exists analysis,
    out = mkOutput
            [HumanMessage (VStr (json_dumps E (VDict analysis))) (Some "debate_room_agent")]
            d m
    /\ assoc_get analysis "signal" = Some (VStr "neutral")
    /\ assoc_get analysis "confidence" = Some (VFloat f_0_3).

(** The loop over the messages collected no agent signal, and one of the
    two researcher messages is not among those it kept. *)
Definition researchers_missing (E : Externals) (state : AgentState) : Prop :=
  exists msgs researcher_messages,
    messages state = Some msgs
    /\ collect E msgs ([], []) = Ok ([], researcher_messages)
    /\ (assoc_mem researcher_messages "researcher_bull_agent" = false
        \/ assoc_mem researcher_messages "researcher_bear_agent" = false).

(** A message the loop of lines 47-90 passes over: [None], unnamed, or with
    a name that does not end in ["_agent"]. *)
Definition passed_over (m : option Msg) : Prop :=
  match m with
  | None => True
  | Some msg =>
      match msg_name msg with
      | None => True
      | Some name => endswith name "_agent" = false
      end
  end.

(** An outcome that is a returned ['hold'] with quantity [0] and
    confidence [1.0]. *)
Definition is_plain_hold (r : result Signal) : Prop :=
  exists s, r = Ok s /\ action s = "hold" /\ quantity s = 0%Z /\ confidence s = Fin 1.




(** A table of at most [max_rows] rows and [max_cols] columns. *)
Definition capped (max_rows max_cols : nat) (t : DataFrame) : Prop :=
  (List.length (rows t) <= max_rows)%nat
  /\ (List.length (columns t) <= max_cols)%nat
  /\ Forall (fun row => (List.length row <= max_cols)%nat) (rows t).

(** What the collection loop of lines 47-90 keeps true of
    [(agent_signals, researcher_messages)]: the signal types are those of
    [agent_type_mapping], each once, each with the three fields the loop
    stores; the researcher messages are stored once each under their own
    name, which starts with ["researcher_"] and ends with ["_agent"], and
    have a content. *)
Definition well_collected (acc : dict * list (string * Msg)) : Prop :=
  incl (map fst (fst acc)) (map snd agent_type_mapping)
  /\ NoDup (map fst (fst acc))
  /\ (forall signal_type v, In (signal_type, v) (fst acc) ->
        exists raw_signal confidence content,
          v = VDict [ ("signal", raw_signal); ("confidence", confidence);
                      ("raw_data", content) ])
  /\ NoDup (map fst (snd acc))
  /\ (forall name msg, In (name, msg) (snd acc) ->
        startswith name "researcher_" = true
        /\ endswith name "_agent" = true
        /\ msg_name msg = Some name
        /\ msg_content msg <> VNone).



(** A parsed confidence between 0 and 1. *)
Definition unit_confidence (c : pyfloat) : Prop :=
  exists q, c = Fin q /\ 0 <= q /\ q <= 1.

(** A parsed confidence that is a finite, positive float. *)
Definition positive_finite (c : pyfloat) : Prop :=
  exists q, c = Fin q /\ 0 < q /\ is_double q.

End Props.

(* ===================================================================== *)
(** * Part II. Properties                                                 *)
(* ===================================================================== *)

(** ** Rounding to binary64 *)

Module FloatFacts.

Local Open Scope Q_scope.

Lemma pow2_pos k : 0 < pow2 k.
Proof. unfold pow2. apply Qpower_0_lt. reflexivity. Qed.

Lemma pow2_add a b : pow2 (a + b) == pow2 a * pow2 b.
Proof. unfold pow2. apply Qpower_plus. discriminate. Qed.

Lemma pow2_le a b : (a <= b)%Z -> pow2 a <= pow2 b.
Proof. intros H. unfold pow2. apply Qpower_le_compat_l; [exact H | discriminate]. Qed.

Lemma pow2_Z k : (0 <= k)%Z -> pow2 k == inject_Z (2 ^ k).
Proof. intros H. unfold pow2. rewrite Zpower_Qpower by exact H. reflexivity. Qed.

(** [ilog2 x] is the integer part of the binary logarithm. *)
Lemma ilog2_spec x : 0 < x -> pow2 (ilog2 x) <= x /\ x < pow2 (ilog2 x + 1).
Proof.
  intros Hx. destruct x as [n d]. unfold ilog2. cbn [Qnum Qden].
  assert (Hn : (0 < n)%Z).
  { unfold Qlt in Hx. cbn in Hx. lia. }
  set (a := Z.log2 n). set (b := Z.log2 (Z.pos d)).
  destruct (Z.log2_spec n Hn) as [Ha1 Ha2]. fold a in Ha1, Ha2.
  destruct (Z.log2_spec (Z.pos d) eq_refl) as [Hb1 Hb2]. fold b in Hb1, Hb2.
  assert (Ha0 : (0 <= a)%Z) by apply Z.log2_nonneg.
  assert (Hb0 : (0 <= b)%Z) by apply Z.log2_nonneg.
  assert (Hx' : (n # d) * inject_Z (Z.pos d) == inject_Z n).
  { unfold Qeq, Qmult, inject_Z. cbn. lia. }
  assert (Eb : pow2 b == inject_Z (2 ^ b)) by (apply pow2_Z; exact Hb0).
  assert (Ea : pow2 a == inject_Z (2 ^ a)) by (apply pow2_Z; exact Ha0).
  assert (Ea1 : pow2 (a + 1) == inject_Z (2 ^ (a + 1))) by (apply pow2_Z; lia).
  assert (Eb1 : pow2 (b + 1) == inject_Z (2 ^ (b + 1))) by (apply pow2_Z; lia).
  assert (Hd1 : pow2 b <= inject_Z (Z.pos d)).
  { rewrite Eb. rewrite <- Zle_Qle. exact Hb1. }
  assert (Hd2 : inject_Z (Z.pos d) < pow2 (b + 1)).
  { rewrite Eb1. rewrite <- Zlt_Qlt. exact Hb2. }
  assert (Hn1 : pow2 a <= inject_Z n).
  { rewrite Ea. rewrite <- Zle_Qle. exact Ha1. }
  assert (Hn2 : inject_Z n < pow2 (a + 1)).
  { rewrite Ea1. rewrite <- Zlt_Qlt. exact Ha2. }
  assert (Lo : pow2 (a - b - 1) < n # d).
  { assert (E : pow2 a == pow2 (a - b - 1) * pow2 (b + 1)).
    { rewrite <- pow2_add. replace (a - b - 1 + (b + 1))%Z with a by lia. reflexivity. }
    pose proof (pow2_pos (a - b - 1)) as P1.
    pose proof (pow2_pos (b + 1)) as P2.
    set (X := n # d) in *. set (D := inject_Z (Z.pos d)) in *.
    set (u := pow2 (a - b - 1)) in *. set (v := pow2 (b + 1)) in *.
    set (w := pow2 a) in *. set (N := inject_Z n) in *.
    clearbody X D u v w N. nra. }
  assert (Hi : n # d < pow2 (a - b + 1)).
  { assert (E : pow2 (a + 1) == pow2 (a - b + 1) * pow2 b).
    { rewrite <- pow2_add. replace (a - b + 1 + b)%Z with (a + 1)%Z by lia. reflexivity. }
    pose proof (pow2_pos (a - b + 1)) as P1.
    pose proof (pow2_pos b) as P2.
    set (X := n # d) in *. set (D := inject_Z (Z.pos d)) in *.
    set (u := pow2 (a - b + 1)) in *. set (v := pow2 b) in *.
    set (w := pow2 (a + 1)) in *. set (N := inject_Z n) in *.
    clearbody X D u v w N. nra. }
  destruct (Qle_bool (pow2 (a - b)) (n # d)) eqn:C.
  - apply Qle_bool_iff in C. split; [exact C | exact Hi].
  - assert (C' : n # d < pow2 (a - b)).
    { apply Qnot_le_lt. intros H. apply Qle_bool_iff in H. congruence. }
    split.
    + apply Qlt_le_weak. exact Lo.
    + replace (a - b - 1 + 1)%Z with (a - b)%Z by lia. exact C'.
Qed.

Lemma ilog2_unique x k : pow2 k <= x -> x < pow2 (k + 1) -> ilog2 x = k.
Proof.
  intros H1 H2.
  assert (Hx : 0 < x) by (pose proof (pow2_pos k); lra).
  destruct (ilog2_spec Hx) as [S1 S2].
  destruct (Z.lt_trichotomy (ilog2 x) k) as [L | [L | L]]; [ | exact L | ].
  - assert (pow2 (ilog2 x + 1) <= pow2 k) by (apply pow2_le; lia). lra.
  - assert (pow2 (k + 1) <= pow2 (ilog2 x)) by (apply pow2_le; lia). lra.
Qed.

Lemma ilog2_mono x y : 0 < x -> x <= y -> (ilog2 x <= ilog2 y)%Z.
Proof.
  intros Hx Hxy.
  assert (Hy : 0 < y) by lra.
  destruct (ilog2_spec Hx) as [X1 X2].
  destruct (ilog2_spec Hy) as [Y1 Y2].
  destruct (Z.le_gt_cases (ilog2 x) (ilog2 y)) as [L | L]; [exact L | ].
  assert (pow2 (ilog2 y + 1) <= pow2 (ilog2 x)) by (apply pow2_le; lia). lra.
Qed.

Lemma ilog2_comp x y : 0 < x -> x == y -> ilog2 x = ilog2 y.
Proof.
  intros Hx E.
  destruct (ilog2_spec Hx) as [X1 X2].
  symmetry. apply ilog2_unique; rewrite <- E; assumption.
Qed.

(** *** Rounding to an integer *)

Lemma round_half_even_cases q :
  round_half_even q = Qfloor q \/ round_half_even q = (Qfloor q + 1)%Z.
Proof.
  unfold round_half_even.
  destruct (Qcompare _ _); [destruct (Z.even _) | | ]; auto.
Qed.

Lemma round_half_even_Z k : round_half_even (inject_Z k) = k.
Proof.
  unfold round_half_even. rewrite Qfloor_Z.
  assert (E : Qcompare (inject_Z k - inject_Z k) (1 # 2) = Lt).
  { rewrite <- Qlt_alt. lra. }
  rewrite E. reflexivity.
Qed.

Lemma round_half_even_comp q q' : q == q' -> round_half_even q = round_half_even q'.
Proof.
  intros E. unfold round_half_even.
  rewrite (Qfloor_comp _ _ E).
  assert (E' : q - inject_Z (Qfloor q') == q' - inject_Z (Qfloor q')) by (rewrite E; reflexivity).
  rewrite (Qcompare_comp _ _ E' _ _ (Qeq_refl (1 # 2))). reflexivity.
Qed.

Lemma round_half_even_mono q q' : q <= q' -> (round_half_even q <= round_half_even q')%Z.
Proof.
  intros H.
  pose proof (Qfloor_resp_le _ _ H) as F.
  destruct (Z.eq_dec (Qfloor q) (Qfloor q')) as [E | NE].
  - unfold round_half_even. rewrite <- E.
    destruct (Qcompare_spec (q - inject_Z (Qfloor q)) (1 # 2)) as [A | A | A];
    destruct (Qcompare_spec (q' - inject_Z (Qfloor q)) (1 # 2)) as [B | B | B];
    try lia; try lra; destruct (Z.even (Qfloor q)); lia.
  - destruct (round_half_even_cases q) as [A | A];
    destruct (round_half_even_cases q') as [B | B]; lia.
Qed.

Lemma round_half_even_ge q k : inject_Z k <= q -> (k <= round_half_even q)%Z.
Proof.
  intros H. rewrite <- (round_half_even_Z k). apply round_half_even_mono. exact H.
Qed.

Lemma round_half_even_le q k : q <= inject_Z k -> (round_half_even q <= k)%Z.
Proof.
  intros H. pose proof (round_half_even_mono H) as M.
  rewrite round_half_even_Z in M. exact M.
Qed.

(** *** The nearest multiple of the unit in the last place *)

Lemma ulp_exponent_mono x y : 0 < x -> x <= y -> (ulp_exponent x <= ulp_exponent y)%Z.
Proof.
  intros Hx H. unfold ulp_exponent. pose proof (ilog2_mono Hx H). lia.
Qed.

Lemma scaled x e : x / pow2 e * pow2 e == x.
Proof. pose proof (pow2_pos e). field. lra. Qed.

Lemma nearest_nonneg x : 0 < x -> 0 <= nearest x.
Proof.
  intros Hx. unfold nearest.
  set (e := ulp_exponent x).
  pose proof (pow2_pos e) as P.
  assert (0 <= x / pow2 e).
  { apply Qle_shift_div_l; [exact P | lra]. }
  assert (Hm : (0 <= round_half_even (x / pow2 e))%Z).
  { apply round_half_even_ge. exact H. }
  apply Qmult_le_0_compat; [ | lra].
  change 0 with (inject_Z 0). rewrite <- Zle_Qle. exact Hm.
Qed.

(** Rounding keeps the order: two numbers with the same unit are rounded
    by the same grid, and a number with a larger unit is rounded to at
    least [2^52] of its units, which no number with a smaller unit
    exceeds. *)
Lemma nearest_mono x y : 0 < x -> x <= y -> nearest x <= nearest y.
Proof.
  intros Hx H.
  assert (Hy : 0 < y) by lra.
  pose proof (ulp_exponent_mono Hx H) as He.
  unfold nearest.
  set (ex := ulp_exponent x) in *. set (ey := ulp_exponent y) in *.
  pose proof (pow2_pos ex) as Px. pose proof (pow2_pos ey) as Py.
  destruct (Z.eq_dec ex ey) as [E | NE].
  - rewrite <- E.
    assert (M : (round_half_even (x / pow2 ex) <= round_half_even (y / pow2 ex))%Z).
    { apply round_half_even_mono.
      apply Qle_shift_div_l; [exact Px | ]. rewrite scaled. exact H. }
    apply Qmult_le_compat_r; [ | lra].
    rewrite <- Zle_Qle. exact M.
  - assert (Hlt : (ex < ey)%Z) by lia.
    assert (Ey : ey = (ilog2 y - 52)%Z).
    { unfold ey, ulp_exponent in *. unfold ex, ulp_exponent in Hlt. lia. }
    destruct (ilog2_spec Hy) as [Y1 _].
    destruct (ilog2_spec Hx) as [_ X2].
    assert (Ex : (ilog2 x + 1 <= ex + 53)%Z).
    { unfold ex, ulp_exponent. lia. }
    assert (B : pow2 (ex + 53) <= pow2 (ey + 52)) by (apply pow2_le; lia).
    assert (Ux : inject_Z (round_half_even (x / pow2 ex)) <= inject_Z (2 ^ 53)).
    { rewrite <- Zle_Qle. apply round_half_even_le.
      rewrite <- (@pow2_Z 53) by lia.
      apply Qle_shift_div_r; [exact Px | ].
      rewrite <- pow2_add.
      assert (pow2 (ilog2 x + 1) <= pow2 (53 + ex)) by (apply pow2_le; lia). lra. }
    assert (Ly : inject_Z (2 ^ 52) <= inject_Z (round_half_even (y / pow2 ey))).
    { rewrite <- Zle_Qle. apply round_half_even_ge.
      rewrite <- (@pow2_Z 52) by lia.
      apply Qle_shift_div_l; [exact Py | ].
      rewrite <- pow2_add.
      replace (52 + ey)%Z with (ilog2 y) by lia. exact Y1. }
    rewrite <- (@pow2_Z 53) in Ux by lia.
    rewrite <- (@pow2_Z 52) in Ly by lia.
    assert (E1 : pow2 (ex + 53) == pow2 53 * pow2 ex).
    { rewrite <- pow2_add. replace (53 + ex)%Z with (ex + 53)%Z by lia. reflexivity. }
    assert (E2 : pow2 (ey + 52) == pow2 52 * pow2 ey).
    { rewrite <- pow2_add. replace (52 + ey)%Z with (ey + 52)%Z by lia. reflexivity. }
    set (mx := inject_Z (round_half_even (x / pow2 ex))) in *.
    set (my := inject_Z (round_half_even (y / pow2 ey))) in *.
    set (a := pow2 ex) in *. set (b := pow2 ey) in *.
    set (c := pow2 53) in *. set (d := pow2 52) in *.
    set (u := pow2 (ex + 53)) in *. set (v := pow2 (ey + 52)) in *.
    clearbody mx my a b c d u v.
    assert (mx * a <= c * a) by nra.
    assert (d * b <= my * b) by nra.
    lra.
Qed.

Lemma nearest_comp x y : 0 < x -> x == y -> nearest x == nearest y.
Proof.
  intros Hx E. unfold nearest, ulp_exponent.
  rewrite (ilog2_comp Hx E).
  set (e := Z.max (ilog2 y - 52) (-1074)).
  assert (E' : x / pow2 e == y / pow2 e) by (rewrite E; reflexivity).
  rewrite (round_half_even_comp E'). reflexivity.
Qed.

(** *** The order of floats *)

Lemma fle_trans a b c : fle a b = true -> fle b c = true -> fle a c = true.
Proof.
  destruct a, b, c; cbn; try congruence; intros H1 H2.
  apply Qle_bool_iff in H1, H2. apply Qle_bool_iff. lra.
Qed.

Lemma fle_fneg a b : fle a b = true -> fle (fneg b) (fneg a) = true.
Proof.
  destruct a, b; cbn; try congruence; intros H.
  apply Qle_bool_iff in H. apply Qle_bool_iff. lra.
Qed.

Lemma fneg_fneg a : fneg (fneg a) = a.
Proof.
  destruct a as [[n d] | | | ]; try reflexivity.
  unfold fneg, Qopp. cbn [Qnum Qden]. rewrite Z.opp_involutive. reflexivity.
Qed.

Lemma fle_Fin a b : fle (Fin a) (Fin b) = true <-> a <= b.
Proof. unfold fle. apply Qle_bool_iff. Qed.

Lemma fle_between lo hi a :
  fle (Fin lo) a = true -> fle a (Fin hi) = true ->
  exists q, a = Fin q /\ lo <= q /\ q <= hi.
Proof.
  destruct a as [q | | | ]; cbn; try discriminate. intros H1 H2.
  apply Qle_bool_iff in H1, H2. exists q. auto.
Qed.

Lemma flt_Fin a b : flt (Fin a) (Fin b) = true <-> a < b.
Proof.
  unfold flt. rewrite negb_true_iff. split.
  - intros H. apply Qnot_le_lt. intros C. apply Qle_bool_iff in C. congruence.
  - intros H. destruct (Qle_bool b a) eqn:C; [ | reflexivity].
    apply Qle_bool_iff in C. lra.
Qed.

Lemma flt_Fin_false a b : flt (Fin a) (Fin b) = false <-> b <= a.
Proof.
  unfold flt. rewrite negb_false_iff. apply Qle_bool_iff.
Qed.

(** *** Rounding *)

Lemma round_pos_not_nan x : round_pos x <> NaN.
Proof. unfold round_pos. destruct (Qle_bool _ _); discriminate. Qed.

Lemma round64_not_nan x : round64 x <> NaN.
Proof.
  unfold round64. destruct (Qcompare x 0); try discriminate.
  - pose proof (round_pos_not_nan (- x)). destruct (round_pos (- x)); cbn; congruence.
  - apply round_pos_not_nan.
Qed.

Lemma round_pos_nonneg x : 0 < x -> fle (Fin 0) (round_pos x) = true.
Proof.
  intros Hx. unfold round_pos. destruct (Qle_bool _ _); [reflexivity | ].
  unfold fle. apply Qle_bool_iff. rewrite Qred_correct. apply nearest_nonneg. exact Hx.
Qed.

Lemma round_pos_mono x y : 0 < x -> x <= y -> fle (round_pos x) (round_pos y) = true.
Proof.
  intros Hx H. pose proof (nearest_mono Hx H) as M. unfold round_pos.
  destruct (Qle_bool (pow2 1024) (nearest x)) eqn:A;
  destruct (Qle_bool (pow2 1024) (nearest y)) eqn:B; unfold fle; try reflexivity.
  - apply Qle_bool_iff in A.
    assert (B' : ~ pow2 1024 <= nearest y).
    { intros C. apply Qle_bool_iff in C. congruence. }
    exfalso. apply B'. lra.
  - apply Qle_bool_iff. rewrite !Qred_correct. exact M.
Qed.

Lemma round_pos_comp x y : 0 < x -> x == y -> round_pos x = round_pos y.
Proof.
  intros Hx E. pose proof (nearest_comp Hx E) as N. unfold round_pos.
  assert (C : Qle_bool (pow2 1024) (nearest x) = Qle_bool (pow2 1024) (nearest y)).
  { destruct (Qle_bool (pow2 1024) (nearest y)) eqn:B.
    - apply Qle_bool_iff. apply Qle_bool_iff in B. lra.
    - destruct (Qle_bool (pow2 1024) (nearest x)) eqn:A; [ | reflexivity].
      apply Qle_bool_iff in A.
      assert (Qle_bool (pow2 1024) (nearest y) = true) by (apply Qle_bool_iff; lra).
      congruence. }
  rewrite C. rewrite (Qred_complete _ _ N). reflexivity.
Qed.

(** Equal numbers are rounded to the same float, however they are written. *)
Lemma round64_comp x y : x == y -> round64 x = round64 y.
Proof.
  intros E. unfold round64.
  rewrite (Qcompare_comp _ _ E _ _ (Qeq_refl 0)).
  destruct (Qcompare_spec y 0) as [A | A | A].
  - reflexivity.
  - f_equal. apply round_pos_comp; [ | rewrite E; reflexivity]. lra.
  - apply round_pos_comp; [lra | exact E].
Qed.

Lemma round64_pos x : 0 < x -> round64 x = round_pos x.
Proof.
  intros H. unfold round64. destruct (Qcompare_spec x 0) as [A | A | A]; try lra. reflexivity.
Qed.

Lemma round64_neg x : x < 0 -> round64 x = fneg (round_pos (- x)).
Proof.
  intros H. unfold round64. destruct (Qcompare_spec x 0) as [A | A | A]; try lra. reflexivity.
Qed.

(** Rounding is symmetric. *)
Lemma round64_opp x : round64 (- x) = fneg (round64 x).
Proof.
  destruct (Qcompare_spec x 0) as [A | A | A].
  - rewrite (@round64_comp (- x) 0) by lra. rewrite (@round64_comp x 0) by lra.
    reflexivity.
  - rewrite (@round64_pos (- x)) by lra. rewrite (@round64_neg x) by lra.
    rewrite fneg_fneg. reflexivity.
  - rewrite (@round64_neg (- x)) by lra. rewrite (@round64_pos x) by lra.
    f_equal. apply round_pos_comp; lra.
Qed.

Lemma round64_nonneg x : 0 <= x -> fle (Fin 0) (round64 x) = true.
Proof.
  intros H. destruct (Qcompare_spec x 0) as [A | A | A]; try lra.
  - rewrite (@round64_comp x 0) by lra. reflexivity.
  - rewrite round64_pos by lra. apply round_pos_nonneg. exact A.
Qed.

(** Rounding is monotone, overflow included. *)
Lemma round64_mono x y : x <= y -> fle (round64 x) (round64 y) = true.
Proof.
  intros H.
  destruct (Qlt_le_dec 0 x) as [Px | Nx].
  - rewrite !round64_pos by lra. apply round_pos_mono; assumption.
  - destruct (Qlt_le_dec y 0) as [Ny | Py].
    + rewrite (@round64_neg x) by lra. rewrite (@round64_neg y) by lra.
      apply fle_fneg. apply round_pos_mono; lra.
    + apply fle_trans with (Fin 0).
      * assert (Hx : fle (Fin 0) (round64 (- x)) = true) by (apply round64_nonneg; lra).
        rewrite round64_opp in Hx. apply fle_fneg in Hx.
        pose proof (round64_not_nan x) as NN.
        destruct (round64 x); cbn in *; try congruence.
        apply Qle_bool_iff in Hx. apply Qle_bool_iff. lra.
      * apply round64_nonneg. exact Py.
Qed.

Lemma round64_le x b : x <= b -> is_double b -> fle (round64 x) (Fin b) = true.
Proof. intros H D. rewrite <- D. apply round64_mono. exact H. Qed.

Lemma round64_ge x a : a <= x -> is_double a -> fle (Fin a) (round64 x) = true.
Proof. intros H D. rewrite <- D. apply round64_mono. exact H. Qed.

Lemma round64_in_range x lo hi :
  lo <= x -> x <= hi -> is_double lo -> is_double hi -> in_range lo hi (round64 x).
Proof.
  intros H1 H2 D1 D2. split; [apply round64_ge | apply round64_le]; assumption.
Qed.

Lemma is_double_0 : is_double 0.
Proof. reflexivity. Qed.

Lemma is_double_1 : is_double 1.
Proof. vm_compute. reflexivity. Qed.

Lemma is_double_m1 : is_double (-1).
Proof. vm_compute. reflexivity. Qed.

Lemma is_double_opp q : is_double q -> is_double (- q).
Proof. unfold is_double. intros D. rewrite round64_opp, D. reflexivity. Qed.

(** The float literals are the binary64 numbers nearest to the decimals. *)
Lemma literals_rounded :
  f_0_5 = round64 0.5 /\ f_0_1 = round64 0.1 /\ f_0_3 = round64 0.3
  /\ f_0_6 = round64 0.6 /\ f_0_7 = round64 0.7 /\ f_0_8 = round64 0.8
  /\ f_0_9 = round64 0.9 /\ f_0_005 = round64 0.005.
Proof. vm_compute. repeat split. Qed.

(** A float times [1.0], [0.0] or [-1.0]. *)
Lemma fmul_one q : is_double q -> fmul (Fin 1) (Fin q) = Fin q.
Proof.
  intros D. unfold fmul. rewrite (@round64_comp (1 * q) q) by lra. exact D.
Qed.

Lemma fmul_zero q : fmul (Fin 0) (Fin q) = Fin 0.
Proof. unfold fmul. rewrite (@round64_comp (0 * q) 0) by lra. reflexivity. Qed.

Lemma fmul_minus_one q : is_double q -> fmul (Fin (-1)) (Fin q) = Fin (- q).
Proof.
  intros D. unfold fmul. rewrite (@round64_comp (-1 * q) (- q)) by lra.
  rewrite round64_opp, D. reflexivity.
Qed.

End FloatFacts.

(** ** Facts about the value model *)

Module PyFacts.

Local Open Scope string_scope.

Lemma assoc_get_set_same (V : Type) (d : list (string * V)) (k : string) (v : V) :
  assoc_get (assoc_set d k v) k = Some v.
Proof.
  induction d as [|[k' v'] t IH]; simpl.
  - now rewrite String.eqb_refl.
  - destruct (k' =? k) eqn:Hk; simpl.
    + now rewrite String.eqb_refl.
    + now rewrite Hk.
Qed.

Lemma assoc_get_set_other (V : Type) (d : list (string * V)) (k k' : string) (v : V) :
  k <> k' -> assoc_get (assoc_set d k v) k' = assoc_get d k'.
Proof.
  intros Hne. induction d as [|[k0 v0] t IH]; simpl.
  - destruct (k =? k') eqn:Hk; [apply String.eqb_eq in Hk; contradiction | reflexivity].
  - destruct (k0 =? k) eqn:Hk0; simpl.
    + apply String.eqb_eq in Hk0. subst k0.
      destruct (k =? k') eqn:Hk; [apply String.eqb_eq in Hk; contradiction | reflexivity].
    + destruct (k0 =? k'); [reflexivity | exact IH].
Qed.

(** The two thresholds exclude each other. *)
Lemma below_not_above (s : pyfloat) :
  flt s (fneg f_0_1) = true -> fgt s f_0_1 = false.
Proof.
  unfold fgt. destruct s as [q| | |]; try discriminate; try reflexivity.
  unfold f_0_1, fneg. intros H.
  apply FloatFacts.flt_Fin in H. apply FloatFacts.flt_Fin_false.
  lra.
Qed.

Lemma bind_ok (A B : Type) (c : result A) (k : A -> result B) (b : B) :
  bind c k = Ok b -> exists a, c = Ok a /\ k a = Ok b.
Proof. destruct c as [a|e]; simpl; [eauto | discriminate]. Qed.

End PyFacts.

(** ** The debate room *)

Module DebateRoomSpec.

Import DebateRoom Examples Props PyFacts.
Local Open Scope string_scope.

(** A number that converts to a float can be formatted as one. *)
Lemma fmt_f_fits (v : pyval) (s : pyfloat) :
  num_of v = Some s -> fits_float v -> fmt_f v = Ok tt.
Proof.
  intros Hs (f & Hf). destruct v; try discriminate; try reflexivity.
  cbn in Hf. cbn [fmt_f]. rewrite Hf. reflexivity.
Qed.

(** The three strings, picked by the two comparisons, satisfy [classified_by]. *)
Lemma thresholds_classify (s : pyfloat) :
  classified_by s
    (Some (VStr (if fgt s f_0_1 then "bullish"
                 else if flt s (fneg f_0_1) then "bearish" else "neutral"))).
Proof.
  unfold classified_by.
  destruct (fgt s f_0_1) eqn:Hg.
  - assert (Hl : flt s (fneg f_0_1) = false).
    { destruct (flt s (fneg f_0_1)) eqn:Hl; [|reflexivity].
      apply below_not_above in Hl. congruence. }
    rewrite Hl. repeat split; intros; try reflexivity; try discriminate.
    destruct H; discriminate.
  - destruct (flt s (fneg f_0_1)) eqn:Hl;
      repeat split; intros; try reflexivity; try discriminate;
      destruct H; discriminate.
Qed.

(** The dict the converter has written when it reaches its log line. *)
Lemma convert_unfold (analysis : dict) (v : pyval) (s : pyfloat) :
  assoc_get analysis "signal" = Some v ->
  num_of v = Some s ->
  _convert_numeric_signal_to_string analysis
  = bind (fmt_f v)
      (fun _ => Ok (assoc_set analysis "signal"
                      (VStr (if fgt s f_0_1 then "bullish"
                             else if flt s (fneg f_0_1) then "bearish"
                             else "neutral")))).
Proof.
  intros Hv Hs. unfold _convert_numeric_signal_to_string. rewrite Hv, Hs.
  destruct (fgt s f_0_1); [|destruct (flt s (fneg f_0_1))]; reflexivity.
Qed.

Lemma convert_numeric (analysis : dict) (v : pyval) (s : pyfloat) :
  assoc_get analysis "signal" = Some v ->
  num_of v = Some s ->
  fits_float v ->
  exists d,
    _convert_numeric_signal_to_string analysis = Ok d
    /\ assoc_get d "signal"
       = Some (VStr (if fgt s f_0_1 then "bullish"
                     else if flt s (fneg f_0_1) then "bearish" else "neutral")).
Proof.
  intros Hv Hs Hf. rewrite (convert_unfold analysis Hv Hs).
  rewrite (fmt_f_fits Hs Hf). cbn [bind].
  eexists. split; [reflexivity | apply assoc_get_set_same].
Qed.

(** C1 (amended). For an analysis dict whose ['signal'] is a number [s]
    that converts to a float (a float, a bool, or an int that is not too
    large), [_convert_numeric_signal_to_string] returns, and leaves
    ['bullish'] exactly when [s > 0.1], ['bearish'] exactly when
    [s < -0.1] and ['neutral'] otherwise; and for two or more researcher
    messages the signal of [_traditional_debate_logic] is the same
    classification of their averaged signal. *)
Theorem C1_signal_thresholds (E : Externals) (analysis : dict) (v : pyval)
    (s : pyfloat) (researcher_messages : list (string * Msg)) :
  assoc_get analysis "signal" = Some v ->
  num_of v = Some s ->
  fits_float v ->
  (2 <= List.length researcher_messages)%nat ->
  (exists d,
     _convert_numeric_signal_to_string analysis = Ok d
     /\ classified_by s (assoc_get d "signal"))
  /\ classified_by (avg_signal E researcher_messages)
       (assoc_get (_traditional_debate_logic E researcher_messages) "signal").
Proof.
  intros Hv Hs Hf Hlen. split.
  - destruct (convert_numeric analysis Hv Hs Hf) as (d & Hd & Hsig).
    exists d. split; [exact Hd|]. rewrite Hsig. apply thresholds_classify.
  - unfold _traditional_debate_logic, avg_signal.
    destruct (Nat.ltb_spec (List.length researcher_messages) 2) as [Hlt|_]; [lia|].
    cbn [assoc_get]. rewrite String.eqb_refl. apply thresholds_classify.
Qed.

Lemma C1_signal_thresholds_witness :
  (exists d,
     _convert_numeric_signal_to_string
       [("signal", VFloat (Fin (1 # 4))); ("confidence", VFloat f_0_8)] = Ok d
     /\ classified_by (Fin (1 # 4)) (assoc_get d "signal"))
  /\ classified_by (avg_signal ex_env ex_researchers)
       (assoc_get (_traditional_debate_logic ex_env ex_researchers) "signal").
Proof.
  apply (@C1_signal_thresholds ex_env
           [("signal", VFloat (Fin (1 # 4))); ("confidence", VFloat f_0_8)]
           (VFloat (Fin (1 # 4))) (Fin (1 # 4)) ex_researchers).
  - reflexivity.
  - reflexivity.
  - exists (Fin (1 # 4)). reflexivity.
  - simpl. lia.
Defined.

(** C1, as stated, fails: the int [10**400] is a numeric signal above
    [0.1], and the converter does not return for it, because the log line
    445 formats the number as a float and raises [OverflowError]. *)
Lemma C1_huge_int_counterexample :
  num_of (VInt (10 ^ 400)) = Some (int_value (10 ^ 400))
  /\ fgt (int_value (10 ^ 400)) f_0_1 = true
  /\ _convert_numeric_signal_to_string [("signal", VInt (10 ^ 400))]
     = Raise (mkExn OverflowError "int too large to convert to float").
Proof. vm_compute. repeat split. Qed.

(** C4. Each of ['bullish'], ['neutral'], ['bearish'], mapped to its number
    by the signal mapping of the fusion step and stored as the ['signal'] of
    an analysis, is given back by [_convert_numeric_signal_to_string]. *)
Theorem C4_signal_round_trip (analysis : dict) (s : string) :
  In s ["bullish"; "neutral"; "bearish"] ->
  exists d,
    _convert_numeric_signal_to_string
      (assoc_set analysis "signal" (VFloat (signal_mapping (lower s)))) = Ok d
    /\ assoc_get d "signal" = Some (VStr s).
Proof.
  intros Hin.
  destruct (@convert_numeric _ (VFloat (signal_mapping (lower s)))
              (signal_mapping (lower s)) (assoc_get_set_same analysis "signal" _) eq_refl)
    as (d & Hd & Hsig).
  { eexists. reflexivity. }
  exists d. split; [exact Hd|]. rewrite Hsig.
  simpl in Hin.
  destruct Hin as [<- | [<- | [<- | []]]]; reflexivity.
Qed.

Lemma C4_signal_round_trip_witness :
  exists d,
    _convert_numeric_signal_to_string
      (assoc_set [("signal", VStr "bearish"); ("confidence", VFloat f_0_3)]
         "signal" (VFloat (signal_mapping (lower "bearish")))) = Ok d
    /\ assoc_get d "signal" = Some (VStr "bearish").
Proof.
  apply (@C4_signal_round_trip
           [("signal", VStr "bearish"); ("confidence", VFloat f_0_3)] "bearish").
  simpl. right. right. left. reflexivity.
Defined.

(** *** The weighted average of the researcher signals *)

Lemma perspective_values_unit (p : pyval) (v : pyfloat) :
  perspective_values p = Ok v -> unit_signal v.
Proof.
  unfold perspective_values, unit_signal.
  destruct p; try discriminate; intros H; inversion H; subst; auto.
  destruct (s =? "bullish"); auto.
  destruct (s =? "neutral"); auto.
  destruct (s =? "bearish"); auto.
Qed.

Lemma researcher_contribution_unit (E : Externals) (msg : Msg) (v c : pyfloat) :
  researcher_contribution E msg = Ok (v, c) -> unit_signal v.
Proof.
  unfold researcher_contribution. intros H.
  apply bind_ok in H. destruct H as (d0 & _ & H).
  apply bind_ok in H. destruct H as (d & _ & H).
  apply bind_ok in H. destruct H as (c0 & _ & H).
  apply bind_ok in H. destruct H as (n & Hn & H).
  inversion H; subst. eapply perspective_values_unit; eauto.
Qed.

Lemma contributions_unit (E : Externals) (rm : list (string * Msg)) :
  Forall (fun vc => unit_signal (fst vc)) (contributions E rm).
Proof.
  induction rm as [|[name msg] t IH]; simpl; [constructor|].
  destruct (researcher_contribution E msg) as [[v c]|e] eqn:Hc; [|exact IH].
  constructor; [|exact IH]. simpl. eapply researcher_contribution_unit; eauto.
Qed.

(** A perspective value times a confidence. *)
Lemma weighted_signal (v : pyfloat) (q : Q) :
  unit_signal v -> (0 <= q)%Q -> is_double q ->
  exists w, fmul v (Fin q) = Fin w /\ (- q <= w /\ w <= q)%Q.
Proof.
  intros [-> | [-> | ->]] Hq D.
  - rewrite (FloatFacts.fmul_one D). exists q. split; [reflexivity | lra].
  - rewrite FloatFacts.fmul_zero. exists 0%Q. split; [reflexivity | lra].
  - rewrite (FloatFacts.fmul_minus_one D). exists (- q)%Q. split; [reflexivity | lra].
Qed.

Lemma totals_bounded_step (ts tc v c : pyfloat) :
  totals_bounded ts tc -> unit_signal v -> nonneg_finite c ->
  totals_bounded (fadd ts (fmul v c)) (fadd tc c).
Proof.
  intros Hb Hv (q & -> & Hq & D).
  destruct (weighted_signal Hv Hq D) as (w & -> & Hw1 & Hw2).
  destruct Hb as [(a & b & -> & -> & Hb0 & Hlo & Hhi) | (-> & Hts)].
  - cbn [fadd].
    assert (Hup : fle (round64 (a + w)) (round64 (b + q)) = true)
      by (apply FloatFacts.round64_mono; lra).
    assert (Hdown : fle (round64 (- (b + q))) (round64 (a + w)) = true)
      by (apply FloatFacts.round64_mono; lra).
    rewrite FloatFacts.round64_opp in Hdown.
    assert (Hpos : fle (Fin 0) (round64 (b + q)) = true)
      by (apply FloatFacts.round64_nonneg; lra).
    pose proof (FloatFacts.round64_not_nan (a + w)) as Hnn.
    destruct (round64 (b + q)) as [b' | | | ] eqn:Eb; try discriminate.
    + left. cbn [fneg] in Hdown.
      destruct (@FloatFacts.fle_between _ _ _ Hdown Hup) as (a' & -> & H1 & H2).
      exists a', b'. apply FloatFacts.fle_Fin in Hpos. repeat split; auto.
    + right. split; [reflexivity | exact Hnn].
  - right. split.
    + reflexivity.
    + destruct ts as [a | | | ]; cbn [fadd]; try discriminate; try congruence.
      apply FloatFacts.round64_not_nan.
Qed.

Lemma accumulate_bounded (cs : list (pyfloat * pyfloat)) :
  Forall (fun vc => unit_signal (fst vc)) cs ->
  Forall (fun vc => nonneg_finite (snd vc)) cs ->
  forall (ts tc : pyfloat) (n : Z),
    totals_bounded ts tc ->
    exists ts' tc' n',
      accumulate cs (ts, tc, n) = (ts', tc', n') /\ totals_bounded ts' tc'.
Proof.
  induction cs as [|[v c] t IH]; intros Hu Hc ts tc n Hb.
  - exists ts, tc, n. simpl. auto.
  - inversion Hu as [|? ? Hv Hu']; subst. inversion Hc as [|? ? Hq Hc']; subst.
    cbn [accumulate]. apply IH; auto.
    apply totals_bounded_step; assumption.
Qed.

Lemma avg_signal_of_bounded (ts tc : pyfloat) (n : Z) :
  totals_bounded ts tc ->
  in_range (-1) 1 (avg_signal_of (ts, tc, n))
  \/ (avg_signal_of (ts, tc, n) = NaN /\ tc = PInf).
Proof.
  intros Hb. unfold avg_signal_of.
  assert (Hzero : in_range (-1) 1 (Fin 0)) by (split; reflexivity).
  destruct (0 <? n)%Z; [|left; exact Hzero].
  destruct Hb as [(a & b & -> & -> & Hb0 & Hlo & Hhi) | (-> & Hts)].
  - left. destruct (fgt (Fin b) (Fin 0)) eqn:Hpos; [|exact Hzero].
    unfold fgt in Hpos. apply FloatFacts.flt_Fin in Hpos.
    cbn [fdiv_np]. destruct (Qeq_bool b 0) eqn:Heq.
    + apply Qeq_bool_iff in Heq. lra.
    + apply FloatFacts.round64_in_range.
      * apply Qle_shift_div_l; [exact Hpos | lra].
      * apply Qle_shift_div_r; [exact Hpos | lra].
      * apply FloatFacts.is_double_m1.
      * apply FloatFacts.is_double_1.
  - cbn [fgt flt].
    destruct ts as [a | | | ]; cbn [fdiv_np fsign Z.mul inf_of_sign];
      try congruence.
    + left. exact Hzero.
    + right. split; reflexivity.
    + right. split; reflexivity.
Qed.

(** C2 (amended). When the confidences parsed from the counted researcher
    messages are all finite, non-negative floats, the weighted-average
    signal of [_traditional_debate_logic] lies in [[-1, 1]], whatever the
    perspectives are, unless the sum of the confidences has overflowed to
    [inf], in which case the signal can also be [nan]. *)
Theorem C2_avg_signal_in_unit_interval (E : Externals)
    (researcher_messages : list (string * Msg)) :
  Forall (fun vc => nonneg_finite (snd vc)) (contributions E researcher_messages) ->
  in_range (-1) 1 (avg_signal E researcher_messages)
  \/ (avg_signal E researcher_messages = NaN
      /\ total_confidence E researcher_messages = PInf).
Proof.
  intros Hc. unfold avg_signal, total_confidence.
  destruct (@accumulate_bounded (contributions E researcher_messages)
              (contributions_unit E researcher_messages) Hc (Fin 0) (Fin 0) 0%Z)
    as (ts & tc & n & Hacc & Hb).
  { left. exists 0%Q, 0%Q. repeat split; lra. }
  rewrite Hacc. cbn [fst snd]. now apply avg_signal_of_bounded.
Qed.

Lemma C2_avg_signal_in_unit_interval_witness :
  in_range (-1) 1 (avg_signal ex_env ex_two_bulls)
  \/ (avg_signal ex_env ex_two_bulls = NaN
      /\ total_confidence ex_env ex_two_bulls = PInf).
Proof.
  apply (@C2_avg_signal_in_unit_interval ex_env ex_two_bulls).
  assert (H : contributions ex_env ex_two_bulls = [(Fin 1, Fin 1); (Fin 1, Fin 1)])
    by (vm_compute; reflexivity).
  rewrite H.
  constructor; [exists 1%Q; split; [reflexivity | split; [lra | vm_compute; reflexivity]] |].
  constructor; [exists 1%Q; split; [reflexivity | split; [lra | vm_compute; reflexivity]] |].
  constructor.
Defined.

(** C2, as stated, fails: a bullish researcher with confidence [1.0] and a
    bearish one with confidence [-0.5] are both counted, with perspective
    values [1.0] and [-1.0], and their weighted average is [1.5 / 0.5 = 3]. *)
Lemma C2_negative_confidence_counterexample :
  contributions ex_env ex_researchers = [(Fin 1, Fin 1); (Fin (-1), fneg f_0_5)]
  /\ accumulate (contributions ex_env ex_researchers) (Fin 0, Fin 0, 0%Z)
     = (Fin (3 # 2), f_0_5, 2%Z)
  /\ avg_signal ex_env ex_researchers = Fin 3
  /\ fle (avg_signal ex_env ex_researchers) (Fin 1) = false.
Proof. vm_compute. repeat split. Qed.

(** Finite, non-negative confidences whose sum overflows: two bullish
    researchers with confidence [1e308] give [inf / inf], which is [nan]. *)
Lemma overflowing_confidences_give_nan :
  Forall (fun vc => nonneg_finite (snd vc)) (contributions ex_env ex_two_large)
  /\ total_confidence ex_env ex_two_large = PInf
  /\ avg_signal ex_env ex_two_large = NaN.
Proof.
  split; [|split; vm_compute; reflexivity].
  assert (H : contributions ex_env ex_two_large = [(Fin 1, f_1e308); (Fin 1, f_1e308)])
    by (vm_compute; reflexivity).
  rewrite H. unfold f_1e308.
  constructor; [eexists; split; [reflexivity | split; [| vm_compute; reflexivity]] |].
  { unfold Qle. cbn. lia. }
  constructor; [eexists; split; [reflexivity | split; [| vm_compute; reflexivity]] |].
  { unfold Qle. cbn. lia. }
  constructor.
Qed.

(** An infinite confidence breaks the bound as well: the average is
    [inf / inf], which is [nan]. *)
Lemma infinite_confidence_gives_nan :
  avg_signal ex_env
    [ ("researcher_bull_agent", HumanMessage (VStr inf_conf_text) (Some "researcher_bull_agent"));
      ("researcher_bear_agent", bear_msg) ]
  = NaN.
Proof. vm_compute. reflexivity. Qed.

(** A researcher whose confidence is an int too large for a float is not
    counted: line 262 raises [OverflowError] and the loop goes on. *)
Lemma huge_confidence_is_skipped :
  contributions ex_env
    [ ("researcher_bull_agent", HumanMessage (VStr huge_conf_text) (Some "researcher_bull_agent"));
      ("researcher_bear_agent", bull_msg) ]
  = [(Fin 1, Fin 1)].
Proof. vm_compute. reflexivity. Qed.

(** *** The LLM score *)

(** The clamp of line 415 does its work on every float but [nan]. *)
Lemma clamp_in_range (x : pyfloat) :
  x <> NaN -> in_range (-1) 1 (py_max (py_min x (Fin 1)) (Fin (-1))).
Proof.
  intros Hx. unfold in_range, py_max, py_min, fgt.
  destruct x as [q| | |]; try contradiction; try (split; reflexivity).
  cbn [flt].
  destruct (Qle_bool q 1) eqn:H1; cbn [negb]; [|split; reflexivity].
  cbn [flt].
  destruct (Qle_bool (-1) q) eqn:H2; cbn [negb]; [|split; reflexivity].
  split; assumption.
Qed.

(** Whatever the response, the dict returned either is the failure dict,
    whose score is the int [0], or carries a clamped float. *)
Lemma parse_llm_response_score (E : Externals) (response : pyval) (d : dict) :
  parse_llm_response E response = Ok d ->
  d = llm_failed
  \/ exists x, assoc_get d "llm_score"
               = Some (VFloat (py_max (py_min x (Fin 1)) (Fin (-1)))).
Proof.
  unfold parse_llm_response. intros H.
  destruct (truthy response); [|inversion H; auto].
  destruct response; try discriminate.
  destruct ((0 <=? find s "{")%Z && (find s "{" <? rfind s "}" + 1)%Z);
    [|inversion H; auto].
  apply bind_ok in H. destruct H as (a & _ & H).
  apply bind_ok in H. destruct H as (d0 & _ & H).
  apply bind_ok in H. destruct H as (x & _ & H).
  inversion H; subst. right. exists x. reflexivity.
Qed.

(** The score [_get_llm_enhanced_analysis] returns is [0] or a clamped
    float; it lies in [[-1, 1]] unless the float clamped was [nan]. *)
Lemma llm_score_zero_or_clamped (E : Externals)
    (researcher_data : list (string * pyval)) (agent_signals current_regime d : dict) :
  _get_llm_enhanced_analysis E researcher_data agent_signals current_regime = Ok d ->
  assoc_get d "llm_score" = Some (VInt 0)
  \/ exists x, assoc_get d "llm_score"
               = Some (VFloat (py_max (py_min x (Fin 1)) (Fin (-1))))
               /\ (x <> NaN -> in_range (-1) 1 (py_max (py_min x (Fin 1)) (Fin (-1)))).
Proof.
  unfold _get_llm_enhanced_analysis. intros H.
  apply bind_ok in H. destruct H as (u0 & _ & H).
  apply bind_ok in H. destruct H as (u1 & _ & H).
  apply bind_ok in H. destruct H as (u2 & _ & H).
  inversion H as [Hd]. clear H.
  unfold catch_all.
  destruct (bind (get_chat_completion E _) (fun r => parse_llm_response E r))
    as [d'|e] eqn:Hr; [|left; reflexivity].
  apply bind_ok in Hr. destruct Hr as (r & _ & Hr).
  apply parse_llm_response_score in Hr. destruct Hr as [->|(x & Hx)].
  - left. reflexivity.
  - right. exists x. split; [exact Hx | apply clamp_in_range].
Qed.

(** C5, at the failing input. The LLM answers [{"score": NaN}], the object
    between the first brace and the last one parses, its score is the float
    [nan], and the [llm_score] returned is [nan], which is not in
    [[-1, 1]]: [min(nan, 1.0)] and [max(nan, -1.0)] both give [nan]
    back. *)
Lemma C5_nan_score_escapes_clamp :
  _get_llm_enhanced_analysis (with_llm_response ex_env (VStr nan_score_text)) [] [] []
  = Ok [ ("llm_score", VFloat NaN);
         ("llm_analysis", VDict [("score", VFloat NaN)]);
         ("llm_response", VStr nan_score_text) ]
  /\ fle (Fin (-1)) NaN = false
  /\ fle NaN (Fin 1) = false.
Proof. vm_compute. repeat split. Qed.

(** *** The error fallback and the frame of the agent *)

Ltac bind_inv H :=
  repeat match type of H with
    | bind _ _ = Ok _ =>
        let x := fresh "x" in
        let Hx := fresh "Hx" in
        apply bind_ok in H; destruct H as (x & Hx & H)
    | (let '(_, _) := ?p in _) = Ok _ => destruct p
    end.

Ltac step_or_raise :=
  match goal with
  | |- exists e, bind ?c _ = Raise e =>
      destruct c eqn:?; cbn [bind]; [| eexists; reflexivity]
  | |- exists e, (let '(_, _) := ?p in _) = Raise e => destruct p
  end.

Lemma state_item_ok (A : Type) (field : option A) (k : string) (v : A) :
  state_item field k = Ok v -> field = Some v.
Proof. destruct field; simpl; intros H; inversion H; reflexivity. Qed.

Lemma getitem_ok (d : dict) (k : string) (v : pyval) :
  getitem d k = Ok v -> assoc_get d k = Some v.
Proof. unfold getitem. destruct (assoc_get d k); intros H; inversion H; reflexivity. Qed.

(** What the [try] block returns when it returns. *)
Lemma main_body_ok (E : Externals) (state : AgentState) (out : AgentOutput) :
  main_body E state = Ok out ->
  exists d m show_reasoning enhanced_analysis,
    data state = Some d
    /\ metadata state = Some m
    /\ assoc_get m "show_reasoning" = Some show_reasoning
    /\ out = mkOutput
               [HumanMessage (VStr (json_dumps E (VDict enhanced_analysis)))
                             (Some "debate_room_agent")]
               d
               (if truthy show_reasoning
                then assoc_set m "agent_reasoning" (VDict enhanced_analysis)
                else m).
Proof.
  unfold main_body. intros H. bind_inv H.
  inversion H; subst; clear H.
  match goal with
  | Hm : state_item (metadata state) _ = Ok ?m,
    Hs : getitem ?m "show_reasoning" = Ok ?sr,
    Hd : state_item (data state) _ = Ok ?d |- _ =>
      apply state_item_ok in Hm; apply state_item_ok in Hd; apply getitem_ok in Hs;
      exists d, m, sr
  end.
  eexists. repeat split; eassumption || reflexivity.
Qed.

(** With no agent signal and a researcher missing, the [try] block raises. *)
Lemma main_body_raises_when_missing (E : Externals) (state : AgentState) :
  researchers_missing E state -> exists e, main_body E state = Raise e.
Proof.
  intros (msgs & rm & Hmsgs & Hcollect & Hmiss).
  unfold main_body. rewrite Hmsgs.
  do 6 step_or_raise. step_or_raise. step_or_raise.
  cbn [state_item bind]. rewrite Hcollect. cbn [bind negb andb].
  unfold check_researchers.
  assert (Hcond : negb (assoc_mem rm "researcher_bull_agent")
                  || negb (assoc_mem rm "researcher_bear_agent") = true).
  { destruct Hmiss as [-> | ->]; [reflexivity | apply orb_true_r]. }
  rewrite Hcond. cbn [bind]. eexists; reflexivity.
Qed.

Lemma collect_passes_over (E : Externals) (msgs : list (option Msg))
    (acc : dict * list (string * Msg)) :
  Forall passed_over msgs -> collect E msgs acc = Ok acc.
Proof.
  induction 1 as [|m t Hm _ IH]; [reflexivity|].
  cbn [collect]. unfold collect_message.
  destruct m as [msg|]; [|exact IH].
  cbn in Hm. destruct (msg_name msg) as [name|]; [|exact IH].
  rewrite Hm. exact IH.
Qed.

(** A state none of whose messages comes from an agent has no agent signal
    and no researcher message. *)
Lemma no_agent_message_no_researcher (E : Externals) (state : AgentState)
    (msgs : list (option Msg)) :
  messages state = Some msgs ->
  Forall passed_over msgs ->
  researchers_missing E state.
Proof.
  intros Hmsgs Hall. exists msgs, []. split; [exact Hmsgs|]. split.
  - now apply collect_passes_over.
  - left. reflexivity.
Qed.

(** With ['data'] and ['metadata'] in the state, the agent returns. *)
Lemma debate_room_agent_returns (E : Externals) (state : AgentState) (d m : dict) :
  data state = Some d ->
  metadata state = Some m ->
  exists out, debate_room_agent E state = Ok out.
Proof.
  intros Hd Hm. unfold debate_room_agent, error_fallback.
  destruct (main_body E state) as [out|e]; [eauto|].
  rewrite Hd, Hm. cbn [state_item bind]. eauto.
Qed.

(** The [except] block turns any exception into the neutral default
    result, for a state that has its ['data'] and ['metadata'] entries. *)
Lemma error_fallback_neutral (E : Externals) (state : AgentState) (d m : dict)
    (e : exn) :
  data state = Some d ->
  metadata state = Some m ->
  exists out, error_fallback E state e = Ok out /\ neutral_fallback E d m out.
Proof.
  intros Hd Hm. unfold error_fallback. rewrite Hd, Hm. cbn [state_item bind].
  eexists. split; [reflexivity|].
  exists (default_analysis e). repeat split; reflexivity.
Qed.

(** C3. For an [AgentState], which has its ['data'] and ['metadata']
    entries: the [except] block turns every exception into the neutral
    default result; so whenever an exception leaves the [try] block of
    [debate_room_agent], and in particular when no agent signal was
    collected and a researcher message is missing, the function returns
    that result instead of propagating the error. *)
Theorem C3_exception_gives_neutral_fallback (E : Externals) (state : AgentState)
    (d m : dict) :
  data state = Some d ->
  metadata state = Some m ->
  (forall e, exists out,
     error_fallback E state e = Ok out /\ neutral_fallback E d m out)
  /\ ((exists e, main_body E state = Raise e) \/ researchers_missing E state ->
      exists out, debate_room_agent E state = Ok out /\ neutral_fallback E d m out).
Proof.
  intros Hd Hm. split.
  - intros e. now apply error_fallback_neutral.
  - intros Hcase.
    assert (Hraise : exists e, main_body E state = Raise e).
    { destruct Hcase as [H|H]; [exact H | now apply main_body_raises_when_missing]. }
    destruct Hraise as (e & He).
    unfold debate_room_agent. rewrite He. now apply error_fallback_neutral.
Qed.

Lemma C3_exception_gives_neutral_fallback_witness :
  exists out,
    debate_room_agent ex_env ex_state_no_messages = Ok out
    /\ neutral_fallback ex_env [("prices", VList [])] [("show_reasoning", VBool true)] out.
Proof.
  apply (@C3_exception_gives_neutral_fallback ex_env ex_state_no_messages
           [("prices", VList [])] [("show_reasoning", VBool true)]).
  - reflexivity.
  - reflexivity.
  - right. exists [], []. repeat split; try reflexivity. left. reflexivity.
Defined.

(** A dict without ['metadata'] is no [AgentState]. Called with one, the
    function does not return: the [KeyError] of line 25 leaves the [try]
    block, and the [except] block, whose subscripts of [state] are not
    guarded, raises it again at line 234. *)
Lemma state_without_metadata_raises :
  main_body ex_env ex_state_no_metadata = Raise (mkExn KeyError "'metadata'")
  /\ debate_room_agent ex_env ex_state_no_metadata = Raise (mkExn KeyError "'metadata'").
Proof. split; reflexivity. Qed.

(** C10. Whatever [debate_room_agent] returns, on the normal path or from
    the [except] block, its ['data'] is the ['data'] of the input state, its
    ['messages'] is one message named [debate_room_agent], and its
    ['metadata'] is the input's, either as it was or with
    ['agent_reasoning'] written, the latter only when [show_reasoning] is
    set; every other metadata key keeps its value. *)
Theorem C10_data_carried_through (E : Externals) (state : AgentState)
    (out : AgentOutput) :
  debate_room_agent E state = Ok out ->
  data state = Some (out_data out)
  /\ (exists content, out_messages out = [HumanMessage content (Some "debate_room_agent")])
  /\ (exists m,
        metadata state = Some m
        /\ (out_metadata out = m
            \/ exists show_reasoning v,
                 assoc_get m "show_reasoning" = Some show_reasoning
                 /\ truthy show_reasoning = true
                 /\ out_metadata out = assoc_set m "agent_reasoning" v)
        /\ forall k, k <> "agent_reasoning" ->
                     assoc_get (out_metadata out) k = assoc_get m k).
Proof.
  unfold debate_room_agent. intros H.
  destruct (main_body E state) as [out'|e] eqn:Hbody.
  - inversion H; subst out'; clear H.
    apply main_body_ok in Hbody.
    destruct Hbody as (d & m & sr & enhanced & Hd & Hm & Hsr & ->).
    cbn [out_data out_messages out_metadata].
    split; [exact Hd|]. split; [eexists; reflexivity|].
    exists m. split; [exact Hm|].
    destruct (truthy sr) eqn:Ht.
    + split.
      * right. exists sr, (VDict enhanced). auto.
      * intros k Hk. apply assoc_get_set_other. congruence.
    + split; [left; reflexivity | reflexivity].
  - unfold error_fallback in H. bind_inv H. inversion H; subst; clear H.
    cbn [out_data out_messages out_metadata].
    match goal with
    | Hd : state_item (data state) _ = Ok _, Hm : state_item (metadata state) _ = Ok ?m |- _ =>
        apply state_item_ok in Hd; apply state_item_ok in Hm;
        split; [exact Hd|]; split; [eexists; reflexivity|];
        exists m; split; [exact Hm|]; split; [left; reflexivity | reflexivity]
    end.
Qed.

Lemma C10_data_carried_through_witness :
  data ex_state_researchers = Some [("prices", VList [])]
  /\ exists out,
       debate_room_agent ex_env ex_state_researchers = Ok out
       /\ data ex_state_researchers = Some (out_data out).
Proof.
  split; [reflexivity|].
  destruct (debate_room_agent ex_env ex_state_researchers) as [out|e] eqn:Hrun.
  - exists out. split; [reflexivity|].
    exact (proj1 (@C10_data_carried_through ex_env ex_state_researchers out Hrun)).
  - vm_compute in Hrun. discriminate Hrun.
Defined.

End DebateRoomSpec.

(** ** Buy and hold *)

Module BuyHoldSpec.

Import BaseStrategy BuyHold Examples Props.
Local Open Scope string_scope.

Lemma hold_signal_plain : is_plain_hold (Ok hold_signal).
Proof. exists hold_signal. repeat split. Qed.

(** Once the purchase is made, a call returns the hold signal and leaves
    the instance as it is: the price data and the portfolio are not read. *)
Lemma generate_signal_after_purchase (self : BuyHoldStrategy) (data : Prices)
    (portfolio : Portfolio) :
  initial_purchase_made self = true ->
  generate_signal self data portfolio = (Ok hold_signal, self).
Proof. intros H. unfold generate_signal. rewrite H. reflexivity. Qed.

(** A call that returns ['buy'] sets [initial_purchase_made]. *)
Lemma buy_sets_flag (self self' : BuyHoldStrategy) (data : Prices)
    (portfolio : Portfolio) (r : result Signal) :
  generate_signal self data portfolio = (r, self') ->
  is_buy r = true ->
  initial_purchase_made self' = true.
Proof.
  unfold generate_signal.
  destruct (negb (initial_purchase_made self) && fgt (cash portfolio) (Fin 0)).
  - destruct (bind (iloc_last data) _) as [max_shares|e].
    + destruct (0 <? max_shares)%Z; intros H Hb; inversion H; subst.
      * reflexivity.
      * discriminate Hb.
    + intros H Hb; inversion H; subst. discriminate Hb.
  - intros H Hb; inversion H; subst. discriminate Hb.
Qed.

Lemma run_after_purchase (calls : list (Prices * Portfolio)) (self : BuyHoldStrategy) :
  initial_purchase_made self = true ->
  Forall is_plain_hold (run self calls) /\ filter is_buy (run self calls) = [].
Proof.
  intros Hflag. induction calls as [|[data portfolio] t IH]; simpl.
  - split; [constructor | reflexivity].
  - rewrite (generate_signal_after_purchase self data portfolio Hflag).
    destruct IH as [IH1 IH2]. split.
    + constructor; [apply hold_signal_plain | exact IH1].
    + simpl. exact IH2.
Qed.

(** C8. In any sequence of [generate_signal] calls on one instance at most
    one call returns ['buy'], and every call after one that returned ['buy']
    returns ['hold'] with quantity [0] and confidence [1.0], whatever price
    data and portfolio it is given. *)
Theorem C8_at_most_one_buy (calls : list (Prices * Portfolio)) (self : BuyHoldStrategy) :
  (List.length (filter is_buy (run self calls)) <= 1)%nat
  /\ forall pre r post,
       run self calls = (pre ++ r :: post)%list ->
       is_buy r = true ->
       Forall is_plain_hold post.
Proof.
  revert self. induction calls as [|[data portfolio] t IH]; intros self.
  - split; [simpl; lia|]. intros pre r post H. destruct pre; discriminate H.
  - cbn [run].
    destruct (generate_signal self data portfolio) as [r0 self'] eqn:Hgen.
    destruct (IH self') as [IHcount IHafter]. split.
    + cbn [filter]. destruct (is_buy r0) eqn:Hb.
      * pose proof (buy_sets_flag _ _ _ Hgen Hb) as Hflag.
        destruct (run_after_purchase t self' Hflag) as [_ Hnone].
        rewrite Hnone. simpl. lia.
      * lia.
    + intros pre r post Hsplit Hb. destruct pre as [|x pre'].
      * simpl in Hsplit. inversion Hsplit; subst.
        pose proof (buy_sets_flag _ _ _ Hgen Hb) as Hflag.
        apply (run_after_purchase t self' Hflag).
      * simpl in Hsplit. inversion Hsplit; subst.
        eapply IHafter; eauto.
Qed.

Lemma C8_at_most_one_buy_witness :
  run (init (Fin 1)) ex_calls
  = [ Ok (mkSignal "buy" 10 (Fin 1) "Initial buy-and-hold purchase"
            (Some [("allocation_ratio", VFloat (Fin 1))]));
      Ok hold_signal; Ok hold_signal ]
  /\ (List.length (filter is_buy (run (init (Fin 1)) ex_calls)) <= 1)%nat
  /\ Forall is_plain_hold [Ok hold_signal; Ok hold_signal].
Proof.
  split; [reflexivity|]. split.
  - exact (proj1 (C8_at_most_one_buy ex_calls (init (Fin 1)))).
  - apply (proj2 (C8_at_most_one_buy ex_calls (init (Fin 1))) []
             (Ok (mkSignal "buy" 10 (Fin 1) "Initial buy-and-hold purchase"
                    (Some [("allocation_ratio", VFloat (Fin 1))])))
             [Ok hold_signal; Ok hold_signal]); reflexivity.
Defined.

End BuyHoldSpec.

(** ** Moving-average crossover *)

Module MovingAverageSpec.

Import BaseStrategy MovingAverage Examples Props PyFacts.
Local Open Scope string_scope.

(** [int] truncates towards zero: a positive result is below its argument. *)
Lemma trunc_pos_le (x : Q) :
  (0 < Z.quot (Qnum x) (Zpos (Qden x)))%Z ->
  inject_Z (Z.quot (Qnum x) (Zpos (Qden x))) <= x.
Proof.
  intros Hpos. destruct x as [n d]. cbn [Qnum Qden] in *.
  assert (Hn : (0 <= n)%Z).
  { destruct (Z.le_gt_cases 0 n) as [H|H]; [exact H|].
    assert (Hd : Zpos d <> 0%Z) by lia.
    pose proof (Z.mul_quot_ge n (Zpos d) (Z.lt_le_incl _ _ H) Hd) as Hq. nia. }
  assert (Hd : Zpos d <> 0%Z) by lia.
  pose proof (Z.mul_quot_le n (Zpos d) Hn Hd) as Hq.
  unfold Qle, inject_Z. cbn [Qnum Qden]. lia.
Qed.

(** A positive [int(x)] does not exceed the float [x]. *)
Lemma int_of_float_le (x : pyfloat) (quantity : Z) :
  int_of_float x = Ok quantity ->
  (0 < quantity)%Z ->
  fle (int_value quantity) x = true.
Proof.
  destruct x as [q| | |]; try discriminate. intros Hq Hpos.
  injection Hq as Hq'. pose proof (trunc_pos_le q) as Hle.
  rewrite Hq' in Hle. specialize (Hle Hpos).
  apply FloatFacts.fle_Fin. exact Hle.
Qed.

(** The product of a positive float and [0.8] is rounded to a float that
    does not exceed it. *)
Lemma four_fifths_le (s : Q) :
  0 < s -> is_double s -> fle (fmul (Fin s) f_0_8) (Fin s) = true.
Proof.
  intros Hs D. unfold f_0_8. cbn [fmul].
  apply FloatFacts.round64_le; [lra | exact D].
Qed.

(** A sale: the quantity [int(stock * 0.8)], when positive, is within the
    holdings. *)
Lemma sell_quantity_within_holdings (stock : pyfloat) (quantity : Z) :
  is_float stock ->
  fgt stock (Fin 0) = true ->
  int_of_float (fmul stock f_0_8) = Ok quantity ->
  (0 < quantity)%Z ->
  fle (int_value quantity) stock = true.
Proof.
  unfold fgt. destruct stock as [s| | |]; try discriminate.
  intros D Hs Hq Hpos. apply FloatFacts.flt_Fin in Hs.
  apply FloatFacts.fle_trans with (fmul (Fin s) f_0_8).
  - now apply int_of_float_le.
  - now apply four_fifths_le.
Qed.

(** C9 (amended). A signal returned by [generate_signal] that is not a
    ['hold'] has quantity at least 1 and is either a ['sell'], returned only
    with [portfolio.stock > 0] and of quantity [int(portfolio.stock * 0.8)],
    which does not exceed the holdings, or a ['buy'], returned only with the
    position ratio below [0.9] and of quantity
    [int(portfolio.cash * 0.8 / current_price)], which does not exceed that
    quotient as the floating-point division gives it. *)
Theorem C9_non_hold_signals (mean : Prices -> pyfloat)
    (format_2f : pyfloat -> string)
    (self : MovingAverageStrategy) (prices : Prices) (portfolio : Portfolio)
    (sig : Signal) :
  is_float (stock portfolio) ->
  generate_signal mean format_2f self prices portfolio = Ok sig ->
  action sig <> "hold" ->
  (1 <= quantity sig)%Z
  /\ ((action sig = "sell"
       /\ fgt (stock portfolio) (Fin 0) = true
       /\ int_of_float (fmul (stock portfolio) f_0_8) = Ok (quantity sig)
       /\ fle (int_value (quantity sig)) (stock portfolio) = true)
      \/ (action sig = "buy"
          /\ exists current_price,
               iloc_last prices = Ok current_price
               /\ flt (position_ratio portfolio current_price) f_0_9 = true
               /\ int_of_float (fdiv_np (fmul (cash portfolio) f_0_8) current_price)
                  = Ok (quantity sig)
               /\ fle (int_value (quantity sig))
                      (fdiv_np (fmul (cash portfolio) f_0_8) current_price) = true)).
Proof.
  unfold generate_signal. intros Hfloat Hgen Hact.
  destruct (Z.of_nat (List.length prices) <? long_window self)%Z.
  { inversion Hgen; subst. cbn in Hact. congruence. }
  destruct (if (long_window self + 1 <=? Z.of_nat (List.length prices))%Z
            then _ else _) as [[[golden_cross death_cross] prev_short_ma] prev_long_ma].
  apply bind_ok in Hgen. destruct Hgen as (current_price & Hprice & Hgen).
  destruct (golden_cross && flt (position_ratio portfolio current_price) f_0_9)
    eqn:Hbuy.
  - apply andb_true_iff in Hbuy. destruct Hbuy as [_ Hratio].
    apply bind_ok in Hgen. destruct Hgen as (q & Hq & Hgen).
    destruct (0 <? q)%Z eqn:Hpos.
    + inversion Hgen; subst; clear Hgen. cbn [quantity action].
      apply Z.ltb_lt in Hpos. split; [lia|]. right. split; [reflexivity|].
      exists current_price. repeat split; try assumption.
      now apply int_of_float_le.
    + inversion Hgen; subst. cbn in Hact. congruence.
  - destruct (death_cross && fgt (stock portfolio) (Fin 0)) eqn:Hsell.
    + apply andb_true_iff in Hsell. destruct Hsell as [_ Hstock].
      apply bind_ok in Hgen. destruct Hgen as (q & Hq & Hgen).
      destruct (0 <? q)%Z eqn:Hpos.
      * inversion Hgen; subst; clear Hgen. cbn [quantity action].
        apply Z.ltb_lt in Hpos. split; [lia|]. left.
        repeat split; try assumption.
        now apply sell_quantity_within_holdings.
      * inversion Hgen; subst. cbn in Hact. congruence.
    + inversion Hgen; subst. cbn in Hact. congruence.
Qed.

Lemma C9_non_hold_signals_witness :
  exists sig,
    generate_signal ex_mean ex_format_2f ex_strategy [Fin 3; Fin 5]
      (mkPortfolio (Fin 1000) (Fin 10)) = Ok sig
    /\ action sig = "buy"
    /\ quantity sig = 160%Z
    /\ (1 <= quantity sig)%Z.
Proof.
  destruct (generate_signal ex_mean ex_format_2f ex_strategy [Fin 3; Fin 5]
              (mkPortfolio (Fin 1000) (Fin 10))) as [sig|e] eqn:Hrun.
  - exists sig. split; [reflexivity|].
    assert (Hact : action sig <> "hold").
    { vm_compute in Hrun. inversion Hrun; subst. cbn. discriminate. }
    assert (Hfloat : is_float (stock (mkPortfolio (Fin 1000) (Fin 10)))).
    { vm_compute. reflexivity. }
    pose proof (@C9_non_hold_signals ex_mean ex_format_2f ex_strategy [Fin 3; Fin 5]
                  (mkPortfolio (Fin 1000) (Fin 10)) sig Hfloat Hrun Hact) as [Hq _].
    vm_compute in Hrun. inversion Hrun; subst.
    repeat split. exact Hq.
  - vm_compute in Hrun. discriminate Hrun.
Defined.

(** C9, as stated, fails at a positive price: with windows 1 and 2, prices
    [20.0, 20.512820512820515], cash [1000.0] and no stock, the position
    ratio is [0], the quotient [800.0 / 20.512820512820515] is rounded up
    to [39.0], a ['buy'] of 39 shares is returned, and 39 shares cost more
    than 80% of the cash, [800.0]. *)
Lemma C9_rounded_quotient_counterexample :
  (exists r m,
     generate_signal ex_mean ex_format_2f ex_strategy [Fin 20; f_price]
       (mkPortfolio (Fin 1000) (Fin 0))
     = Ok (mkSignal "buy" 39 f_0_7 r m))
  /\ fgt f_price (Fin 0) = true
  /\ flt (position_ratio (mkPortfolio (Fin 1000) (Fin 0)) f_price) f_0_9 = true
  /\ fmul (Fin 1000) f_0_8 = Fin 800
  /\ fdiv_np (Fin 800) f_price = Fin 39
  /\ fle (fmul (int_value 39) f_price) (fmul (Fin 1000) f_0_8) = false.
Proof.
  split; [eexists; eexists; vm_compute; reflexivity|].
  repeat split; vm_compute; reflexivity.
Qed.

End MovingAverageSpec.

(** ** The MCP tool wrappers *)

Module McpToolsSpec.

Import McpTools Examples Props PyFacts.
Local Open Scope string_scope.






(** *** The tables of successful calls *)

Lemma cap_table_capped (max_rows max_cols : nat) (df : DataFrame) :
  capped max_rows max_cols (cap_table max_rows max_cols df).
Proof.
  unfold capped, cap_table. cbn [rows columns]. repeat split.
  - rewrite length_map. apply firstn_le_length.
  - apply firstn_le_length.
  - apply Forall_forall. intros row Hin. apply in_map_iff in Hin.
    destruct Hin as (r & <- & _). apply firstn_le_length.
Qed.

(** C6. With the formatter of the spec, a tool whose data-source call
    succeeds returns the markdown rendering of the table cut to fixed
    counts: 20 rows and 10 columns in [call_financial_data_tool], the
    formatter's own fixed counts in [call_macro_data_tool] and
    [call_index_constituent_tool]. *)
Theorem C6_successful_calls_give_capped_tables (default_rows default_cols : nat)
    (tool_name data_type_name : string) (df : DataFrame) :
  let fmt := fun d r c => Ok (format_df_to_markdown_spec default_rows default_cols d r c) in
  (forall isdigit len method code year quarter,
     invoked (call_financial_data_tool isdigit len fmt tool_name method data_type_name
                code year quarter) = [(code, year, quarter)] ->
     method code year quarter = Ok df ->
     output (call_financial_data_tool isdigit len fmt tool_name method data_type_name
               code year quarter)
     = to_markdown (cap_table 20 10 df)
     /\ capped 20 10 (cap_table 20 10 df))
  /\ (forall method start_date end_date kwargs,
        method start_date end_date kwargs = Ok df ->
        output (call_macro_data_tool fmt tool_name method data_type_name
                  start_date end_date kwargs)
        = to_markdown (cap_table default_rows default_cols df)
        /\ capped default_rows default_cols (cap_table default_rows default_cols df))
  /\ (forall method date,
        method date = Ok df ->
        output (call_index_constituent_tool fmt tool_name method data_type_name date)
        = to_markdown (cap_table default_rows default_cols df)
        /\ capped default_rows default_cols (cap_table default_rows default_cols df)).
Proof.
  cbv zeta. split; [|split].
  - intros isdigit len method code year quarter Hinv Hdf.
    split; [|apply cap_table_capped].
    unfold call_financial_data_tool in *.
    destruct (negb (isdigit year) || negb (len year =? 4)%nat);
      [discriminate Hinv|].
    destruct (negb ((1 <=? quarter)%Z && (quarter <=? 4)%Z)); [discriminate Hinv|].
    cbn [output]. rewrite Hdf. reflexivity.
  - intros method start_date end_date kwargs Hdf.
    split; [|apply cap_table_capped].
    unfold call_macro_data_tool. cbn [output]. rewrite Hdf. reflexivity.
  - intros method date Hdf.
    split; [|apply cap_table_capped].
    unfold call_index_constituent_tool. cbn [output]. rewrite Hdf. reflexivity.
Qed.

Lemma C6_successful_calls_give_capped_tables_witness :
  output (call_financial_data_tool isdigit_ascii String.length
            (fun d r c => Ok (format_df_to_markdown_spec 250 20 d r c))
            "get_profit_data" (fun _ _ _ => Ok ex_table) "Profitability"
            "sh.600000" "2023" 4)
  = to_markdown (cap_table 20 10 ex_table)
  /\ capped 20 10 (cap_table 20 10 ex_table).
Proof.
  apply (proj1 (@C6_successful_calls_give_capped_tables 250 20 "get_profit_data"
                  "Profitability" ex_table)
           isdigit_ascii String.length
           (fun _ _ _ => Ok ex_table) "sh.600000" "2023" 4%Z);
    reflexivity.
Defined.

End McpToolsSpec.

(* ===================================================================== *)
(** * Part III. Further properties of the code                            *)
(* ===================================================================== *)

(** ** Dictionaries *)

Module AssocFacts.

Local Open Scope string_scope.

Section Assoc.
Variable V : Type.
Implicit Types (d : list (string * V)) (k : string) (v : V).

Lemma assoc_mem_in d k : assoc_mem d k = true <-> In k (map fst d).
Proof.
  unfold assoc_mem. induction d as [|[k' v'] t IH]; simpl.
  - split; [discriminate | contradiction].
  - destruct (k' =? k) eqn:Hk.
    + apply String.eqb_eq in Hk. split; auto.
    + rewrite IH. split; [auto|]. intros [H|H]; [|exact H].
      apply String.eqb_neq in Hk. contradiction.
Qed.

Lemma in_assoc_set d k v k' v' :
  In (k', v') (assoc_set d k v) -> (k' = k /\ v' = v) \/ In (k', v') d.
Proof.
  induction d as [|[k0 v0] t IH]; simpl.
  - intros [H|[]]. inversion H. auto.
  - destruct (k0 =? k) eqn:Hk; simpl.
    + intros [H|H]; [inversion H; auto | auto].
    + intros [H|H]; [auto | destruct (IH H); auto].
Qed.

Lemma in_keys_assoc_set d k v k' :
  In k' (map fst (assoc_set d k v)) <-> k' = k \/ In k' (map fst d).
Proof.
  induction d as [|[k0 v0] t IH]; simpl.
  - split; intros [H|H]; auto; contradiction.
  - destruct (k0 =? k) eqn:Hk; simpl.
    + apply String.eqb_eq in Hk. subst k0.
      split; intros H; decompose [or] H; auto.
    + rewrite IH. split; intros H; decompose [or] H; auto.
Qed.

Lemma NoDup_assoc_set d k v :
  NoDup (map fst d) -> NoDup (map fst (assoc_set d k v)).
Proof.
  induction d as [|[k0 v0] t IH]; simpl; intros Hnd.
  - constructor; [intros [] | constructor].
  - inversion Hnd as [|? ? Hnotin Hnd']; subst.
    destruct (k0 =? k) eqn:Hk; simpl.
    + apply String.eqb_eq in Hk. subst k0. constructor; assumption.
    + constructor; [|auto].
      rewrite in_keys_assoc_set. intros [H|H]; [|contradiction].
      apply String.eqb_neq in Hk. congruence.
Qed.

Lemma assoc_set_length d k v :
  (List.length d <= List.length (assoc_set d k v) <= S (List.length d))%nat.
Proof.
  induction d as [|[k0 v0] t IH]; simpl; [lia|].
  destruct (k0 =? k); simpl; lia.
Qed.

End Assoc.

End AssocFacts.

(** ** The collection loop of the debate room *)

Module CollectFacts.

Import DebateRoom Examples Props PyFacts AssocFacts.
Local Open Scope string_scope.

Lemma mapping_value (name signal_type : string) :
  assoc_get agent_type_mapping name = Some signal_type ->
  In signal_type (map snd agent_type_mapping).
Proof.
  unfold agent_type_mapping. cbn [assoc_get map snd].
  repeat match goal with
         | |- (if ?b then _ else _) = _ -> _ => destruct b
         end;
    intros H; inversion H; subst; simpl; auto 10.
Qed.

Lemma signals_update_keeps (name : string) (content : pyval)
    (agent_signals agent_signals' : dict) (rm : list (string * Msg)) :
  well_collected (agent_signals, rm) ->
  match assoc_get agent_type_mapping name with
  | Some signal_type =>
      bind (as_dict content)
        (fun d =>
           Ok (assoc_set agent_signals signal_type
                 (VDict [ ("signal", get_default d "signal" (VStr "neutral"));
                          ("confidence", get_default d "confidence" (VFloat f_0_5));
                          ("raw_data", content) ])))
  | None => Ok agent_signals
  end = Ok agent_signals' ->
  well_collected (agent_signals', rm).
Proof.
  intros (Hincl & Hnd & Hshape & Hndr & Hres) H. cbn [fst snd] in *.
  destruct (assoc_get agent_type_mapping name) as [signal_type|] eqn:Hmap.
  - apply bind_ok in H. destruct H as (d0 & _ & H).
    inversion H; subst agent_signals'; clear H.
    unfold well_collected. cbn [fst snd]. repeat split; try assumption.
    + intros k Hk. apply in_keys_assoc_set in Hk. destruct Hk as [-> | Hk].
      * eapply mapping_value; eauto.
      * auto.
    + now apply NoDup_assoc_set.
    + intros st v Hin. apply in_assoc_set in Hin.
      destruct Hin as [[_ ->] | Hin]; eauto.
    + eapply Hres; eauto.
    + eapply Hres; eauto.
    + eapply Hres; eauto.
    + eapply Hres; eauto.
  - inversion H; subst. unfold well_collected. cbn [fst snd]. auto.
Qed.

Lemma researcher_update_keeps (name : string) (msg : Msg) (agent_signals : dict)
    (rm : list (string * Msg)) :
  msg_name msg = Some name ->
  endswith name "_agent" = true ->
  msg_content msg <> VNone ->
  well_collected (agent_signals, rm) ->
  well_collected
    (agent_signals,
     if startswith name "researcher_" then assoc_set rm name msg else rm).
Proof.
  intros Hname Hend Hcontent (Hincl & Hnd & Hshape & Hndr & Hres).
  cbn [fst snd] in *.
  destruct (startswith name "researcher_") eqn:Hstart.
  - unfold well_collected. cbn [fst snd].
    split; [exact Hincl|]. split; [exact Hnd|]. split; [exact Hshape|]. split.
    + now apply NoDup_assoc_set.
    + intros n m Hin. apply in_assoc_set in Hin.
      destruct Hin as [[-> ->] | Hin]; [auto | auto].
  - unfold well_collected. cbn [fst snd]. auto.
Qed.

Lemma collect_agent_message_keeps (E : Externals) (name : string) (msg : Msg)
    (acc acc' : dict * list (string * Msg)) :
  msg_name msg = Some name ->
  endswith name "_agent" = true ->
  well_collected acc ->
  collect_agent_message E name msg acc = Ok acc' ->
  well_collected acc'.
Proof.
  intros Hname Hend Hacc H. unfold collect_agent_message in H.
  destruct acc as [agent_signals researcher_messages].
  assert (Hstep : forall c,
             msg_content msg = c -> c <> VNone ->
             bind (match c with VStr s0 => json_loads E s0 | _ => Ok c end)
               (fun content =>
                  bind
                    match assoc_get agent_type_mapping name with
                    | Some signal_type =>
                        bind (as_dict content)
                          (fun d =>
                             Ok (assoc_set agent_signals signal_type
                                   (VDict [ ("signal", get_default d "signal" (VStr "neutral"));
                                            ("confidence",
                                             get_default d "confidence" (VFloat f_0_5));
                                            ("raw_data", content) ])))
                    | None => Ok agent_signals
                    end
                    (fun agent_signals' =>
                       Ok (agent_signals',
                           if startswith name "researcher_"
                           then assoc_set researcher_messages name msg
                           else researcher_messages)))
             = Ok acc' ->
             well_collected acc').
  { intros c Hc Hnone Hb.
    apply bind_ok in Hb. destruct Hb as (content & _ & Hb).
    apply bind_ok in Hb. destruct Hb as (agent_signals' & Hsig & Hb).
    inversion Hb; subst acc'; clear Hb.
    apply researcher_update_keeps; try assumption; [congruence|].
    eapply signals_update_keeps; eauto. }
  destruct (msg_content msg) as [|b0|z0|f0|s0|l0|d0] eqn:Hcontent;
    [ inversion H; subst; exact Hacc
    | eapply Hstep; [reflexivity | discriminate | exact H] .. ].
Qed.

Lemma collect_message_keeps (E : Externals) (m : option Msg)
    (acc acc' : dict * list (string * Msg)) :
  well_collected acc -> collect_message E acc m = Ok acc' -> well_collected acc'.
Proof.
  intros Hacc H. unfold collect_message in H.
  destruct m as [msg|]; [|inversion H; subst; exact Hacc].
  destruct (msg_name msg) as [name|] eqn:Hname; [|inversion H; subst; exact Hacc].
  destruct (endswith name "_agent") eqn:Hend; [|inversion H; subst; exact Hacc].
  unfold catch in H.
  destruct (collect_agent_message E name msg acc) as [a|e] eqn:Hc.
  - inversion H; subst. eapply collect_agent_message_keeps; eauto.
  - destruct (existsb _ _); inversion H; subst. exact Hacc.
Qed.

Lemma collect_keeps (E : Externals) (msgs : list (option Msg)) :
  forall acc acc',
    well_collected acc -> collect E msgs acc = Ok acc' -> well_collected acc'.
Proof.
  induction msgs as [|m t IH]; intros acc acc' Hacc H; cbn [collect] in H.
  - inversion H; subst. exact Hacc.
  - apply bind_ok in H. destruct H as (acc1 & H1 & H).
    eapply IH; [|exact H]. eapply collect_message_keeps; eauto.
Qed.

Lemma well_collected_empty : well_collected ([], []).
Proof.
  unfold well_collected. cbn [fst snd map].
  split; [intros x []|]. split; [constructor|]. split; [intros ? ? []|].
  split; [constructor|]. intros ? ? [].
Qed.

(** X1. Whatever the messages, what the loop of lines 47-90 collects is
    well formed: at most six agent signals, one per signal type of
    [agent_type_mapping], each a dict of [signal], [confidence] and
    [raw_data]; and researcher messages stored once under their own name,
    which starts with ["researcher_"] and ends with ["_agent"]. *)
Theorem X1_collect_well_formed (E : Externals) (msgs : list (option Msg))
    (agent_signals : dict) (researcher_messages : list (string * Msg)) :
  collect E msgs ([], []) = Ok (agent_signals, researcher_messages) ->
  well_collected (agent_signals, researcher_messages)
  /\ (List.length agent_signals <= 6)%nat.
Proof.
  intros H. pose proof (collect_keeps E msgs well_collected_empty H) as Hw.
  split; [exact Hw|].
  destruct Hw as (Hincl & Hnd & _). cbn [fst] in *.
  rewrite <- (length_map fst agent_signals).
  apply (NoDup_incl_length Hnd Hincl).
Qed.

Lemma X1_collect_well_formed_witness :
  well_collected ([], ex_researchers) /\ (List.length (@nil (string * pyval)) <= 6)%nat.
Proof.
  apply (@X1_collect_well_formed ex_env [Some bull_msg; Some bear_msg] [] ex_researchers).
  vm_compute. reflexivity.
Defined.










End CollectFacts.

(** ** Signals, confidences and the fusion step of the debate room *)

Module SignalFacts.

Import DebateRoom Examples Props PyFacts AssocFacts.
Local Open Scope string_scope.

Lemma assoc_set_keys_present (V : Type) (d : list (string * V)) (k : string) (v v' : V) :
  assoc_get d k = Some v' -> map fst (assoc_set d k v) = map fst d.
Proof.
  induction d as [|[k0 v0] t IH]; simpl; [discriminate|].
  destruct (k0 =? k) eqn:Hk; simpl.
  - apply String.eqb_eq in Hk. subst. reflexivity.
  - intros H. now rewrite IH.
Qed.

(** What formatting a number can raise. *)
Lemma fmt_f_number (v : pyval) (x : pyfloat) :
  num_of v = Some x ->
  fmt_f v = Ok tt
  \/ exists z e, v = VInt z /\ float_of_int z = Raise e /\ fmt_f v = Raise e
                 /\ exn_cls e = OverflowError.
Proof.
  destruct v; try discriminate; intros _; try (left; reflexivity).
  cbn [fmt_f]. destruct (float_of_int z) as [f|e] eqn:Hf; cbn [bind].
  - left. reflexivity.
  - right. exists z, e. split; [reflexivity|].
    split; [first [exact Hf | reflexivity]|].
    split; [reflexivity|].
    unfold float_of_int in Hf.
    destruct (round64 (inject_Z z)); inversion Hf; reflexivity.
Qed.

(** The forms of the result of [_convert_numeric_signal_to_string]. *)
Lemma convert_cases (analysis : dict) :
  (_convert_numeric_signal_to_string analysis = Ok analysis
   /\ forall v, assoc_get analysis "signal" = Some v -> num_of v = None)
  \/ (exists v x s,
        assoc_get analysis "signal" = Some v /\ num_of v = Some x
        /\ In s ["bullish"; "bearish"; "neutral"]
        /\ _convert_numeric_signal_to_string analysis
           = Ok (assoc_set analysis "signal" (VStr s)))
  \/ (exists z e,
        assoc_get analysis "signal" = Some (VInt z)
        /\ float_of_int z = Raise e
        /\ exn_cls e = OverflowError
        /\ _convert_numeric_signal_to_string analysis = Raise e).
Proof.
  unfold _convert_numeric_signal_to_string.
  destruct (assoc_get analysis "signal") as [v|] eqn:Hv.
  - destruct (num_of v) as [x|] eqn:Hx.
    + destruct (fmt_f_number v Hx) as [Hf | (z & e & -> & Hz & Hf & Hcls)];
        rewrite Hf; cbn [bind].
      * right. left. exists v, x.
        destruct (fgt x f_0_1);
          [exists "bullish"
          | destruct (flt x (fneg f_0_1)); [exists "bearish" | exists "neutral"]];
          simpl; auto 10.
      * right. right. exists z, e. auto.
    + left. split; [reflexivity|]. intros v' H. inversion H; subst. exact Hx.
  - left. split; [reflexivity|]. intros v' H. discriminate H.
Qed.

(** X3. Whenever [_convert_numeric_signal_to_string] returns, converting
    its result again changes nothing, the keys of the analysis and the value
    of every key but ['signal'] are kept, and no numeric ['signal'] is left
    behind. It raises only when the ['signal'] is an int too large for a
    float, and then the [OverflowError] of the log line 445. *)
Theorem X3_convert_idempotent_and_frame (analysis : dict) :
  (forall converted,
     _convert_numeric_signal_to_string analysis = Ok converted ->
     _convert_numeric_signal_to_string converted = Ok converted
     /\ map fst converted = map fst analysis
     /\ (forall k, k <> "signal" -> assoc_get converted k = assoc_get analysis k)
     /\ (forall v, assoc_get converted "signal" = Some v -> num_of v = None))
  /\ (forall e,
        _convert_numeric_signal_to_string analysis = Raise e ->
        exn_cls e = OverflowError
        /\ exists z, assoc_get analysis "signal" = Some (VInt z)
                     /\ float_of_int z = Raise e).
Proof.
  destruct (convert_cases analysis)
    as [[Heq Hnum] | [(v & x & s & Hv & Hx & Hs & Heq) | (z & e0 & Hz & Hf & Hcls & Heq)]];
    rewrite Heq; split; try (intros ? H; discriminate H).
  - intros converted H. injection H as <-. repeat split; auto.
  - intros converted H. injection H as <-.
    assert (Hget : assoc_get (assoc_set analysis "signal" (VStr s)) "signal"
                   = Some (VStr s)) by apply assoc_get_set_same.
    repeat split.
    + unfold _convert_numeric_signal_to_string. rewrite Hget. reflexivity.
    + eapply assoc_set_keys_present; eauto.
    + intros k Hk. apply assoc_get_set_other. congruence.
    + intros v' Hv'. rewrite Hget in Hv'. inversion Hv'; subst. reflexivity.
  - intros e H. injection H as <-. split; [exact Hcls|]. exists z. auto.
Qed.

(** *** [_parse_confidence] *)

(** The ints from 0 to 100 are floats. *)
Lemma small_int_double (n : nat) :
  (n <= 100)%nat -> round64 (inject_Z (Z.of_nat n)) = Fin (inject_Z (Z.of_nat n)).
Proof.
  intros H.
  do 101 (destruct n as [|n]; [vm_compute; reflexivity|]).
  lia.
Qed.

Lemma float_of_small_int (z : Z) :
  (0 <= z <= 100)%Z -> float_of_int z = Ok (Fin (inject_Z z)).
Proof.
  intros H. unfold float_of_int.
  replace z with (Z.of_nat (Z.to_nat z)) by lia.
  rewrite small_int_double by lia. reflexivity.
Qed.

(** The conversion of a number between 0 and 100 changes nothing. *)
Lemma to_float_small (conf_value : pyval) (x : Q) :
  num_of conf_value = Some (Fin x) ->
  0 <= x -> x <= 100 ->
  to_float conf_value = Ok (Fin x).
Proof.
  intros Hnum H0 H100. destruct conf_value; try discriminate Hnum.
  - destruct b; injection Hnum as <-; reflexivity.
  - injection Hnum as <-. cbn [to_float]. apply float_of_small_int.
    rewrite Zle_Qle, (Zle_Qle z 100). split; assumption.
  - injection Hnum as ->. reflexivity.
Qed.

Lemma unit_confidence_rounded (x : Q) :
  0 <= x -> x <= 1 -> unit_confidence (round64 x).
Proof.
  intros H0 H1.
  destruct (@FloatFacts.round64_in_range x 0 1 H0 H1 FloatFacts.is_double_0
              FloatFacts.is_double_1) as [Hlo Hhi].
  destruct (@FloatFacts.fle_between _ _ _ Hlo Hhi) as (q & Hq & Hq0 & Hq1).
  exists q. auto.
Qed.

(** X7. A confidence given as a number between 0 and 100 (an [int], a
    [float] or a [bool]) is parsed to a number between 0 and 1: values above
    1 are read as percentages, rounded to a float. *)
Theorem X7_parse_confidence_scales_percent (E : Externals) (conf_value : pyval) (x : Q) :
  num_of conf_value = Some (Fin x) ->
  0 <= x -> x <= 100 ->
  exists c,
    _parse_confidence E conf_value = Ok c
    /\ unit_confidence c
    /\ (x <= 1 -> c = Fin x)
    /\ (1 < x -> c = round64 (x / 100)).
Proof.
  intros Hnum H0 H100.
  pose proof (to_float_small conf_value Hnum H0 H100) as Hconv.
  assert (Hp : _parse_confidence E conf_value
               = if fgt (Fin x) (Fin 1) then Ok (fdiv_np (Fin x) (Fin 100))
                 else Ok (Fin x)).
  { unfold _parse_confidence.
    destruct conf_value; try discriminate Hnum; rewrite Hnum, Hconv;
      destruct (fgt (Fin x) (Fin 1)); reflexivity. }
  rewrite Hp. unfold fgt.
  destruct (flt (Fin 1) (Fin x)) eqn:H1.
  - apply FloatFacts.flt_Fin in H1.
    exists (round64 (x / 100)). split; [reflexivity|]. split; [|split].
    + apply unit_confidence_rounded.
      * apply Qle_shift_div_l; lra.
      * apply Qle_shift_div_r; lra.
    + intros Hx. lra.
    + reflexivity.
  - apply FloatFacts.flt_Fin_false in H1.
    exists (Fin x). split; [reflexivity|]. split; [|split].
    + exists x. auto.
    + reflexivity.
    + intros Hx. lra.
Qed.

Lemma X7_parse_confidence_scales_percent_witness :
  exists c,
    _parse_confidence ex_env (VInt 85) = Ok c
    /\ unit_confidence c
    /\ c = round64 (inject_Z 85 / 100).
Proof.
  destruct (@X7_parse_confidence_scales_percent ex_env (VInt 85) (inject_Z 85))
    as (c & Hc & Hu & _ & Hscaled).
  - reflexivity.
  - unfold Qle; simpl; lia.
  - unfold Qle; simpl; lia.
  - exists c. split; [exact Hc|]. split; [exact Hu|].
    apply Hscaled. unfold Qlt; simpl; lia.
Defined.

End SignalFacts.

(** ** The traditional debate logic *)

Module TraditionalFacts.

Import DebateRoom Examples Props PyFacts.
Local Open Scope string_scope.

Lemma Qeq_bool_pos (q : Q) : 0 < q -> Qeq_bool q 0 = false.
Proof.
  intros H. destruct (Qeq_bool q 0) eqn:Heq; [|reflexivity].
  apply Qeq_bool_iff in Heq. lra.
Qed.

Lemma fgt_zero_pos (q : Q) : 0 < q -> fgt (Fin q) (Fin 0) = true.
Proof. intros H. unfold fgt. now apply FloatFacts.flt_Fin. Qed.

(** The loop counts the contributions. *)
Lemma accumulate_count (cs : list (pyfloat * pyfloat)) :
  forall ts tc n,
    snd (accumulate cs (ts, tc, n)) = (n + Z.of_nat (List.length cs))%Z.
Proof.
  induction cs as [|[v c] t IH]; intros ts tc n; cbn [accumulate List.length].
  - cbn. lia.
  - rewrite IH. lia.
Qed.


(** X5. [_traditional_debate_logic] returns a dict of exactly three
    entries whose signal is one of ['bullish'], ['neutral'], ['bearish'].
    With fewer than two messages the signal is ['neutral'], the confidence
    [0.3] and the method ['insufficient_data']; otherwise the method is
    ['traditional_average'], and the signal is ['neutral'] with confidence
    [0.3] when no message is counted, and the confidence is
    [total_confidence / count] when some are. *)
Theorem X5_traditional_result_shape (E : Externals)
    (researcher_messages : list (string * Msg)) :
  exists signal_str avg_confidence method,
    _traditional_debate_logic E researcher_messages
    = [ ("signal", VStr signal_str);
        ("confidence", VFloat avg_confidence);
        ("aggregation_method", VStr method) ]
    /\ In signal_str ["bullish"; "neutral"; "bearish"]
    /\ ((List.length researcher_messages < 2)%nat ->
        signal_str = "neutral" /\ avg_confidence = f_0_3
        /\ method = "insufficient_data")
    /\ ((2 <= List.length researcher_messages)%nat ->
        method = "traditional_average"
        /\ (contributions E researcher_messages = [] ->
            signal_str = "neutral" /\ avg_confidence = f_0_3)
        /\ (contributions E researcher_messages <> [] ->
            avg_confidence
            = fdiv_np (total_confidence E researcher_messages)
                (float_of_count
                   (Z.of_nat (List.length (contributions E researcher_messages)))))).
Proof.
  unfold _traditional_debate_logic, total_confidence.
  destruct (Nat.ltb_spec (List.length researcher_messages) 2) as [Hlt|Hge].
  - exists "neutral", f_0_3, "insufficient_data".
    split; [reflexivity|]. split; [simpl; auto|]. split; [auto | lia].
  - pose proof (accumulate_count (contributions E researcher_messages) (Fin 0) (Fin 0) 0)
      as Hcount.
    destruct (accumulate (contributions E researcher_messages) (Fin 0, Fin 0, 0%Z))
      as [[ts tc] n] eqn:Hacc.
    cbn [snd fst] in *.
    eexists. eexists. eexists. split; [reflexivity|]. split; [|split; [lia|]].
    { destruct (fgt _ _); [|destruct (flt _ _)]; simpl; auto. }
    intros _. split; [reflexivity|]. split.
    + intros Hnil. rewrite Hnil in Hacc. cbn in Hacc.
      injection Hacc as <- <- <-. split; reflexivity.
    + intros Hne. unfold avg_confidence_of.
      assert (Hpos : (0 < n)%Z).
      { destruct (contributions E researcher_messages); [congruence|].
        cbn [List.length] in Hcount. lia. }
      apply Z.ltb_lt in Hpos. rewrite Hpos. rewrite Hcount. reflexivity.
Qed.

(** With one perspective value throughout and positive confidences the
    loop keeps [total_signal] equal to [total_confidence], or to its
    opposite, and [total_confidence] positive. *)
Lemma unanimous_step (bullish : bool) (tc : pyfloat) (q : Q) :
  fle (Fin 0) tc = true -> 0 < q -> is_double q ->
  fadd (signed bullish tc) (fmul (Fin (if bullish then 1 else -1)) (Fin q))
  = signed bullish (fadd tc (Fin q))
  /\ fgt (fadd tc (Fin q)) (Fin 0) = true.
Proof.
  intros Htc Hq D. split.
  - destruct bullish; cbn [signed].
    + rewrite (FloatFacts.fmul_one D). reflexivity.
    + rewrite (FloatFacts.fmul_minus_one D).
      destruct tc as [b | | | ]; try discriminate Htc; cbn [fneg fadd]; [|reflexivity].
      rewrite <- FloatFacts.round64_opp. apply FloatFacts.round64_comp. lra.
  - destruct tc as [b | | | ]; try discriminate Htc; cbn [fadd]; [|reflexivity].
    apply FloatFacts.fle_Fin in Htc.
    assert (Hge : fle (Fin q) (round64 (b + q)) = true)
      by (apply FloatFacts.round64_ge; [lra | exact D]).
    unfold fgt. destruct (round64 (b + q)) as [r | | | ]; try discriminate Hge;
      [|reflexivity].
    apply FloatFacts.fle_Fin in Hge. apply FloatFacts.flt_Fin. lra.
Qed.

Lemma fgt_zero_fle (a : pyfloat) : fgt a (Fin 0) = true -> fle (Fin 0) a = true.
Proof.
  unfold fgt. destruct a as [q | | | ]; try discriminate; try reflexivity.
  intros H. apply FloatFacts.flt_Fin in H. apply FloatFacts.fle_Fin. lra.
Qed.

Lemma accumulate_unanimous (bullish : bool) (cs : list (pyfloat * pyfloat)) :
  Forall (fun vc => fst vc = Fin (if bullish then 1 else -1)
                    /\ positive_finite (snd vc)) cs ->
  forall (tc : pyfloat) (n : Z),
    fle (Fin 0) tc = true ->
    exists tc',
      accumulate cs (signed bullish tc, tc, n)
      = (signed bullish tc', tc', (n + Z.of_nat (List.length cs))%Z)
      /\ fle (Fin 0) tc' = true
      /\ (cs <> [] -> fgt tc' (Fin 0) = true).
Proof.
  induction cs as [|[v0 c] t IH]; intros Hc tc n Htc.
  - exists tc. cbn [accumulate List.length]. replace (n + Z.of_nat 0)%Z with n by lia.
    split; [reflexivity|]. split; [exact Htc|]. congruence.
  - inversion Hc as [|? ? Hq Hc']; subst. simpl in Hq.
    destruct Hq as (-> & q & -> & Hq0 & D).
    cbn [accumulate].
    destruct (unanimous_step bullish tc Htc Hq0 D) as [Hstep Hpos].
    rewrite Hstep.
    destruct (IH Hc' (fadd tc (Fin q)) (n + 1)%Z (fgt_zero_fle _ Hpos))
      as (tc' & Hacc & Hnn & Hcs).
    exists tc'. rewrite Hacc. split; [|split].
    + f_equal. cbn [List.length]. lia.
    + exact Hnn.
    + intros _. destruct t as [|x t'].
      * cbn in Hacc. injection Hacc as _ <-. exact Hpos.
      * apply Hcs. discriminate.
Qed.

(** X6. Unanimous researchers are followed: with two or more messages, at
    least one of them counted, all counted perspectives bullish (bearish),
    all parsed confidences finite, positive floats and a sum of them that
    has not overflowed to [inf], the signal of [_traditional_debate_logic]
    is ['bullish'] (['bearish']). *)
Theorem X6_unanimous_researchers (E : Externals)
    (researcher_messages : list (string * Msg)) (bullish : bool) :
  (2 <= List.length researcher_messages)%nat ->
  contributions E researcher_messages <> [] ->
  Forall (fun vc => fst vc = Fin (if bullish then 1 else -1)
                    /\ positive_finite (snd vc))
         (contributions E researcher_messages) ->
  total_confidence E researcher_messages <> PInf ->
  assoc_get (_traditional_debate_logic E researcher_messages) "signal"
  = Some (VStr (if bullish then "bullish" else "bearish")).
Proof.
  intros Hlen Hne Hall Hfin. unfold _traditional_debate_logic.
  destruct (Nat.ltb_spec (List.length researcher_messages) 2) as [Hlt|_]; [lia|].
  destruct (@accumulate_unanimous bullish (contributions E researcher_messages) Hall
              (Fin 0) 0%Z eq_refl)
    as (tc & Hacc & Hnn & Hpos).
  assert (Hzero : signed bullish (Fin 0) = Fin 0) by (destruct bullish; reflexivity).
  rewrite Hzero in Hacc.
  unfold total_confidence in Hfin. rewrite Hacc in Hfin. cbn [fst snd] in Hfin.
  specialize (Hpos Hne).
  rewrite Hacc. cbn [assoc_get]. rewrite String.eqb_refl.
  unfold avg_signal_of.
  assert (Hn : (0 <? 0 + Z.of_nat (List.length (contributions E researcher_messages)))%Z
               = true).
  { apply Z.ltb_lt. destruct (contributions E researcher_messages); [congruence|].
    cbn [List.length]. lia. }
  rewrite Hn, Hpos.
  destruct tc as [b | | | ]; try discriminate Hnn; [|congruence].
  unfold fgt in Hpos. apply FloatFacts.flt_Fin in Hpos.
  destruct bullish; cbn [signed fneg fdiv_np]; rewrite (Qeq_bool_pos Hpos).
  - rewrite (@FloatFacts.round64_comp (b / b) 1) by (field; lra). reflexivity.
  - rewrite (@FloatFacts.round64_comp (- b / b) (-1)) by (field; lra). reflexivity.
Qed.

Lemma X6_unanimous_researchers_witness :
  assoc_get (_traditional_debate_logic ex_env ex_two_bulls) "signal"
  = Some (VStr "bullish").
Proof.
  assert (H : contributions ex_env ex_two_bulls = [(Fin 1, Fin 1); (Fin 1, Fin 1)])
    by (vm_compute; reflexivity).
  apply (@X6_unanimous_researchers ex_env ex_two_bulls true).
  - simpl. lia.
  - rewrite H. discriminate.
  - rewrite H.
    constructor;
      [split; [reflexivity
              | exists 1%Q; split; [reflexivity | split; [lra | vm_compute; reflexivity]]] |].
    constructor;
      [split; [reflexivity
              | exists 1%Q; split; [reflexivity | split; [lra | vm_compute; reflexivity]]] |].
    constructor.
  - vm_compute. discriminate.
Defined.

End TraditionalFacts.

(** ** The fusion with the LLM score *)

Module FusionFacts.

Import DebateRoom Examples Props PyFacts AssocFacts.
Local Open Scope string_scope.

Lemma in_range_fin (lo hi : Q) (a : pyfloat) :
  in_range lo hi a -> exists q, a = Fin q /\ lo <= q /\ q <= hi.
Proof. intros [H1 H2]. exact (@FloatFacts.fle_between _ _ _ H1 H2). Qed.

Lemma signal_mapping_in_range (s : string) : in_range (-1) 1 (signal_mapping s).
Proof.
  unfold signal_mapping.
  destruct (s =? "bullish"); [split; reflexivity|].
  destruct (s =? "neutral"); [split; reflexivity|].
  destruct (s =? "bearish"); split; reflexivity.
Qed.

(** The four writes of lines 188-194 leave ['signal'] as the first of them
    set it. *)
Lemma signal_after_fusion (enhanced_analysis : dict) (fused analysis weights original : pyval) :
  assoc_get
    (assoc_set
       (assoc_set
          (assoc_set (assoc_set enhanced_analysis "signal" fused) "llm_analysis" analysis)
          "fusion_weights" weights)
       "original_signal" original)
    "signal"
  = Some fused.
Proof.
  rewrite assoc_get_set_other by discriminate.
  rewrite assoc_get_set_other by discriminate.
  rewrite assoc_get_set_other by discriminate.
  apply assoc_get_set_same.
Qed.

(** A number of [[-1, 1]] times a weight, rounded, is within the weight. *)
Lemma weighted_in_range (w : Q) (a : pyfloat) :
  0 <= w -> is_double w ->
  in_range (-1) 1 a -> in_range (- w) w (fmul (Fin w) a).
Proof.
  intros H0 D Ha. apply in_range_fin in Ha. destruct Ha as (q & -> & H1 & H2).
  cbn [fmul]. apply FloatFacts.round64_in_range; try nra; try exact D.
  now apply FloatFacts.is_double_opp.
Qed.

(** The weighted sum of two numbers of [[-1, 1]] with float weights [w]
    and [l] that add up to 1 at most: every rounding keeps the bound. *)
Lemma weighted_sum_in_range (w l : Q) (a b : pyfloat) :
  0 <= w -> 0 <= l -> w + l <= 1 -> is_double w -> is_double l ->
  in_range (-1) 1 a -> in_range (-1) 1 b ->
  in_range (-1) 1 (fadd (fmul (Fin w) a) (fmul (Fin l) b)).
Proof.
  intros Hw Hl Hsum Dw Dl Ha Hb.
  destruct (in_range_fin (weighted_in_range Hw Dw Ha)) as (x & -> & Hx1 & Hx2).
  destruct (in_range_fin (weighted_in_range Hl Dl Hb)) as (y & -> & Hy1 & Hy2).
  cbn [fadd]. apply FloatFacts.round64_in_range; try lra.
  - apply FloatFacts.is_double_m1.
  - apply FloatFacts.is_double_1.
Qed.

(** The two pairs of fusion weights: [1 - 0.7] and [1 - 0.5] are exact. *)
Lemma fusion_weights (confident : bool) :
  exists w l,
    (if confident then f_0_7 else f_0_5) = Fin w
    /\ fsub (Fin 1) (if confident then f_0_7 else f_0_5) = Fin l
    /\ 0 <= w /\ 0 <= l /\ w + l == 1 /\ is_double w /\ is_double l.
Proof.
  destruct confident; eexists; eexists;
    (split; [reflexivity|]); (split; [vm_compute; reflexivity|]);
    repeat split; try (vm_compute; reflexivity); try discriminate.
Qed.

(** The conversion to a float of a number of [[-1, 1]] changes nothing. *)
Lemma to_float_unit (v : pyval) (x : pyfloat) :
  num_of v = Some x -> in_range (-1) 1 x -> to_float v = Ok x.
Proof.
  intros Hnum Hx. destruct v; try discriminate Hnum.
  - destruct b; injection Hnum as <-; reflexivity.
  - injection Hnum as <-. destruct Hx as [H1 H2].
    apply FloatFacts.fle_Fin in H1, H2.
    change (-1) with (inject_Z (-1)) in H1. change 1 with (inject_Z 1) in H2.
    rewrite <- Zle_Qle in H1, H2.
    assert (Hz : z = (-1)%Z \/ z = 0%Z \/ z = 1%Z) by lia.
    destruct Hz as [-> | [-> | ->]]; vm_compute; reflexivity.
  - injection Hnum as ->. reflexivity.
Qed.

(** X8. When [fuse] returns, with a current signal that is a string or a
    number of [[-1, 1]] and an LLM score of [[-1, 1]], the ['signal'] it
    writes is a float of [[-1, 1]], the signal it replaced is kept under
    ['original_signal'], and every key of the analysis other than the four
    written keeps its value. *)
Theorem X8_fused_signal_in_range (E : Externals)
    (enhanced_analysis llm_enhanced_analysis current_regime fused_analysis : dict)
    (current_signal llm_score : pyval) (score : pyfloat) :
  fuse E enhanced_analysis llm_enhanced_analysis current_regime = Ok fused_analysis ->
  assoc_get enhanced_analysis "signal" = Some current_signal ->
  assoc_get llm_enhanced_analysis "llm_score" = Some llm_score ->
  (forall x, num_of current_signal = Some x -> in_range (-1) 1 x) ->
  num_of llm_score = Some score ->
  in_range (-1) 1 score ->
  (exists fused_signal,
     assoc_get fused_analysis "signal" = Some (VFloat fused_signal)
     /\ in_range (-1) 1 fused_signal)
  /\ assoc_get fused_analysis "original_signal" = Some current_signal
  /\ forall k, ~ In k ["signal"; "llm_analysis"; "fusion_weights"; "original_signal"] ->
               assoc_get fused_analysis k = assoc_get enhanced_analysis k.
Proof.
  intros H Hcs Hls Hbound Hscore Hrange. unfold fuse in H. rewrite Hcs, Hls in H.
  apply bind_ok in H. destruct H as (confident & _ & H).
  apply bind_ok in H. destruct H as (numeric_signal & Hnum & H).
  apply bind_ok in H. destruct H as (y & Hy & H).
  rewrite (to_float_unit llm_score Hscore Hrange) in Hy.
  injection Hy as <-. injection H as <-.
  assert (Hn : in_range (-1) 1 numeric_signal).
  { destruct current_signal; cbn [py_float] in Hnum; try discriminate Hnum.
    - rewrite (@to_float_unit (VBool b) _ eq_refl (Hbound _ eq_refl)) in Hnum.
      inversion Hnum; subst. apply Hbound. reflexivity.
    - rewrite (@to_float_unit (VInt z) _ eq_refl (Hbound _ eq_refl)) in Hnum.
      inversion Hnum; subst. apply Hbound. reflexivity.
    - inversion Hnum; subst. apply Hbound. reflexivity.
    - inversion Hnum. apply signal_mapping_in_range. }
  split; [|split].
  - eexists. split; [apply signal_after_fusion|].
    destruct (fusion_weights confident)
      as (w & l & Ew & El & Hw & Hl & Hsum & Dw & Dl).
    change (in_range (-1) 1
              (fadd (fmul (if confident then f_0_7 else f_0_5) numeric_signal)
                    (fmul (fsub (Fin 1) (if confident then f_0_7 else f_0_5)) score))).
    rewrite El, Ew.
    apply weighted_sum_in_range; auto; lra.
  - apply assoc_get_set_same.
  - intros k Hk. cbn [In] in Hk.
    rewrite assoc_get_set_other by (intros Heq; apply Hk; rewrite <- Heq; auto 6).
    rewrite assoc_get_set_other by (intros Heq; apply Hk; rewrite <- Heq; auto 6).
    rewrite assoc_get_set_other by (intros Heq; apply Hk; rewrite <- Heq; auto 6).
    rewrite assoc_get_set_other by (intros Heq; apply Hk; rewrite <- Heq; auto 6).
    reflexivity.
Qed.

Lemma X8_fused_signal_in_range_witness :
  exists fused_analysis,
    fuse ex_env [("signal", VStr "bearish")] [("llm_score", VFloat f_0_5)] []
    = Ok fused_analysis
    /\ exists fused_signal,
         assoc_get fused_analysis "signal" = Some (VFloat fused_signal)
         /\ in_range (-1) 1 fused_signal.
Proof.
  destruct (fuse ex_env [("signal", VStr "bearish")] [("llm_score", VFloat f_0_5)] [])
    as [fused_analysis|e] eqn:Hrun.
  - exists fused_analysis. split; [reflexivity|].
    apply (@X8_fused_signal_in_range ex_env [("signal", VStr "bearish")]
             [("llm_score", VFloat f_0_5)] [] fused_analysis
             (VStr "bearish") (VFloat f_0_5) f_0_5 Hrun).
    + reflexivity.
    + reflexivity.
    + intros x Hx. discriminate Hx.
    + reflexivity.
    + split; reflexivity.
  - vm_compute in Hrun. discriminate Hrun.
Defined.

(** The conversion of a fused analysis returns, and classifies the fused
    signal. *)
Lemma convert_after_fusion (enhanced_analysis : dict) (fused : pyfloat)
    (analysis weights original : pyval) :
  exists converted,
    _convert_numeric_signal_to_string
      (assoc_set
         (assoc_set
            (assoc_set (assoc_set enhanced_analysis "signal" (VFloat fused))
               "llm_analysis" analysis)
            "fusion_weights" weights)
         "original_signal" original)
    = Ok converted
    /\ assoc_get converted "signal"
       = Some (VStr (if fgt fused f_0_1 then "bullish"
                     else if flt fused (fneg f_0_1) then "bearish" else "neutral")).
Proof.
  apply DebateRoomSpec.convert_numeric with (v := VFloat fused).
  - apply signal_after_fusion.
  - reflexivity.
  - exists fused. reflexivity.
Qed.

(** The signal fused with a failed LLM analysis is classified as the
    string it came from. *)
Lemma fused_with_failure (confident : bool) (s : string) :
  In s ["bullish"; "neutral"; "bearish"] ->
  let adaptive_weight := if confident then f_0_7 else f_0_5 in
  let fused :=
    fadd (fmul adaptive_weight (signal_mapping (lower s)))
         (fmul (fsub (Fin 1) adaptive_weight) (Fin 0)) in
  (if fgt fused f_0_1 then "bullish"
   else if flt fused (fneg f_0_1) then "bearish" else "neutral") = s.
Proof.
  intros Hs. cbn [In] in Hs.
  destruct confident; destruct Hs as [<- | [<- | [<- | []]]]; vm_compute; reflexivity.
Qed.

(** X9. When the LLM analysis failed, fusing it into an analysis whose
    signal is ['bullish'], ['neutral'] or ['bearish'] and converting the
    result gives that signal back, for either pair of fusion weights. *)
Theorem X9_failed_llm_keeps_signal (E : Externals)
    (enhanced_analysis current_regime : dict) (s : string) (regime_confidence : pyfloat) :
  In s ["bullish"; "neutral"; "bearish"] ->
  assoc_get enhanced_analysis "signal" = Some (VStr s) ->
  num_of (get_default current_regime "confidence" (VFloat f_0_5))
  = Some regime_confidence ->
  exists fused_analysis converted,
    fuse E enhanced_analysis (llm_failed) current_regime = Ok fused_analysis
    /\ _convert_numeric_signal_to_string fused_analysis = Ok converted
    /\ assoc_get converted "signal" = Some (VStr s).
Proof.
  intros Hs Hsig Hconf. unfold fuse. rewrite Hsig.
  cbn [llm_failed assoc_get String.eqb Ascii.eqb Bool.eqb].
  unfold py_gt. rewrite Hconf.
  change (to_float (VInt 0)) with (Ok (Fin 0)). cbn [bind].
  match goal with
  | |- exists fa converted,
         Ok (assoc_set (assoc_set (assoc_set (assoc_set ?d _ (VFloat ?f)) _ ?a) _ ?w) _ ?o)
         = Ok fa /\ _ =>
      destruct (convert_after_fusion d f a w o) as (converted & Hconv & Hget);
      eexists; exists converted; split; [reflexivity|]; split; [exact Hconv|]
  end.
  rewrite Hget. f_equal. f_equal.
  apply (@fused_with_failure (fgt regime_confidence f_0_6) s Hs).
Qed.

Lemma X9_failed_llm_keeps_signal_witness :
  exists fused_analysis converted,
    fuse ex_env [("signal", VStr "bearish"); ("confidence", VFloat f_0_3)]
         llm_failed [("confidence", VFloat f_0_9)]
    = Ok fused_analysis
    /\ _convert_numeric_signal_to_string fused_analysis = Ok converted
    /\ assoc_get converted "signal" = Some (VStr "bearish").
Proof.
  apply (@X9_failed_llm_keeps_signal ex_env
           [("signal", VStr "bearish"); ("confidence", VFloat f_0_3)]
           [("confidence", VFloat f_0_9)] "bearish" f_0_9).
  - simpl. auto.
  - reflexivity.
  - reflexivity.
Defined.

End FusionFacts.

(** ** The LLM analysis and the researcher data *)

Module LlmFacts.

Import DebateRoom Examples Props PyFacts AssocFacts.
Local Open Scope string_scope.

Lemma find_from_spec (c : ascii) (s : string) :
  forall i, (0 <= i)%Z ->
    find_from c s i = (-1)%Z
    \/ ((i <= find_from c s i)%Z
        /\ String.get (Z.to_nat (find_from c s i - i)) s = Some c).
Proof.
  induction s as [|a t IH]; intros i Hi; cbn [find_from]; [auto|].
  destruct (Ascii.eqb a c) eqn:Hac.
  - right. split; [lia|]. rewrite Z.sub_diag. cbn.
    apply Ascii.eqb_eq in Hac. now subst.
  - destruct (IH (i + 1)%Z) as [H|[H1 H2]]; [lia | auto |].
    right. split; [lia|].
    replace (Z.to_nat (find_from c t (i + 1) - i))
      with (S (Z.to_nat (find_from c t (i + 1) - (i + 1)))) by lia.
    exact H2.
Qed.

Lemma rfind_from_spec (c : ascii) (s : string) :
  forall i, (0 <= i)%Z ->
    rfind_from c s i = (-1)%Z
    \/ ((i <= rfind_from c s i)%Z
        /\ String.get (Z.to_nat (rfind_from c s i - i)) s = Some c).
Proof.
  induction s as [|a t IH]; intros i Hi; cbn [rfind_from]; [auto|].
  destruct (0 <=? rfind_from c t (i + 1))%Z eqn:Hr.
  - destruct (IH (i + 1)%Z) as [H|[H1 H2]]; [lia | lia |].
    right. split; [lia|].
    replace (Z.to_nat (rfind_from c t (i + 1) - i))
      with (S (Z.to_nat (rfind_from c t (i + 1) - (i + 1)))) by lia.
    exact H2.
  - destruct (Ascii.eqb a c) eqn:Hac; [|auto].
    right. split; [lia|]. rewrite Z.sub_diag. cbn.
    apply Ascii.eqb_eq in Hac. now subst.
Qed.

Lemma get_lt_length (s : string) :
  forall n c, String.get n s = Some c -> (n < String.length s)%nat.
Proof.
  induction s as [|a t IH]; intros n c H; [discriminate H|].
  destruct n as [|n]; cbn in *; [lia|]. apply IH in H. lia.
Qed.

Lemma substring_length (s : string) :
  forall n m, (n + m <= String.length s)%nat -> String.length (substring n m s) = m.
Proof.
  induction s as [|a t IH]; intros n m H; cbn in H.
  - destruct n, m; cbn; lia.
  - destruct n as [|n]; cbn [substring].
    + destruct m as [|m]; [reflexivity|]. cbn. rewrite IH; lia.
    + apply IH. lia.
Qed.

(** X11. The text that lines 409-412 hand to [json.loads], the slice from
    the first ['{'] to the last ['}'] of the response, starts with ['{'],
    ends with ['}'] and is as long as the distance between the two. *)
Theorem X11_extracted_json_is_braced (llm_response : string) :
  let json_start := find llm_response "{" in
  let json_end := (rfind llm_response "}" + 1)%Z in
  let json_str := slice llm_response json_start json_end in
  (0 <=? json_start)%Z && (json_start <? json_end)%Z = true ->
  String.get 0 json_str = Some "{"%char
  /\ String.get (String.length json_str - 1) json_str = Some "}"%char
  /\ Z.of_nat (String.length json_str) = (json_end - json_start)%Z.
Proof.
  cbv zeta. intros Hcond. apply andb_true_iff in Hcond. destruct Hcond as [Ha Hab].
  apply Z.leb_le in Ha. apply Z.ltb_lt in Hab.
  unfold find, rfind in *.
  destruct (find_from_spec "{" llm_response (Z.le_refl 0%Z)) as [Hf|[_ Hf]]; [lia|].
  destruct (rfind_from_spec "}" llm_response (Z.le_refl 0%Z)) as [Hr|[_ Hr]]; [lia|].
  rewrite Z.sub_0_r in Hf, Hr.
  set (a := find_from "{" llm_response 0) in *.
  set (b := rfind_from "}" llm_response 0) in *.
  pose proof (get_lt_length _ _ Hr) as Hlen.
  unfold slice.
  assert (Hsize : String.length
                    (substring (Z.to_nat a) (Z.to_nat (b + 1 - a)) llm_response)
                  = Z.to_nat (b + 1 - a)).
  { apply substring_length. lia. }
  rewrite Hsize. split; [|split].
  - rewrite substring_correct1 by lia. exact Hf.
  - rewrite substring_correct1 by lia.
    replace (Z.to_nat (b + 1 - a) - 1 + Z.to_nat a)%nat with (Z.to_nat b) by lia.
    exact Hr.
  - lia.
Qed.

Lemma X11_extracted_json_is_braced_witness :
  String.get 0 (slice ("Here is my view: " ++ big_score_text ++ " Thanks.")
                  (find ("Here is my view: " ++ big_score_text ++ " Thanks.") "{")
                  (rfind ("Here is my view: " ++ big_score_text ++ " Thanks.") "}" + 1))
  = Some "{"%char.
Proof.
  apply (@X11_extracted_json_is_braced ("Here is my view: " ++ big_score_text ++ " Thanks.")).
  vm_compute. reflexivity.
Defined.

(** X10. Nothing raised by the LLM call, by the extraction of the JSON
    object or by the reading of its score leaves
    [_get_llm_enhanced_analysis]: it raises only what the building of the
    prompt raises, which is the parsing of the regime confidence, the
    researcher views or the agent signals; and the [llm_score] it returns is
    the int [0], or a float that is in [[-1, 1]] or is [nan]. *)
Theorem X10_llm_failures_are_contained (E : Externals)
    (researcher_data : list (string * pyval)) (agent_signals current_regime : dict) :
  (forall e,
     _get_llm_enhanced_analysis E researcher_data agent_signals current_regime = Raise e ->
     _parse_confidence_for_display E (get_default current_regime "confidence" (VInt 0))
     = Raise e
     \/ prompt_researchers E researcher_data = Raise e
     \/ prompt_signals E agent_signals = Raise e)
  /\ (forall d,
        _get_llm_enhanced_analysis E researcher_data agent_signals current_regime = Ok d ->
        assoc_get d "llm_score" = Some (VInt 0)
        \/ exists f, assoc_get d "llm_score" = Some (VFloat f)
                     /\ (f = NaN \/ in_range (-1) 1 f)).
Proof.
  split.
  - intros e H. unfold _get_llm_enhanced_analysis in H.
    destruct (_parse_confidence_for_display E _) as [c|e0]; cbn [bind] in H;
      [|inversion H; auto].
    destruct (prompt_researchers E researcher_data) as [u|e1]; cbn [bind] in H;
      [|inversion H; auto].
    destruct (prompt_signals E agent_signals) as [u'|e2]; cbn [bind] in H;
      [discriminate H | inversion H; auto].
  - intros d H. apply DebateRoomSpec.llm_score_zero_or_clamped in H.
    destruct H as [H | (x & Hx & Hrange)]; [auto|].
    right. eexists. split; [exact Hx|].
    destruct x as [q| | |]; try (right; apply Hrange; discriminate).
    left. reflexivity.
Qed.

(** The loop of lines 143-158 adds data only under names of the researcher
    messages it is given. *)
Lemma parse_researchers_bound (E : Externals) (researcher_messages : list (string * Msg)) :
  forall researcher_data parsed_data,
    parse_researchers E researcher_messages researcher_data = Ok parsed_data ->
    (List.length parsed_data <= List.length researcher_data + List.length researcher_messages)%nat
    /\ incl (map fst parsed_data) (map fst researcher_data ++ map fst researcher_messages).
Proof.
  induction researcher_messages as [|[name msg] t IH]; intros rd parsed_data H.
  - cbn in H. inversion H; subst. split; [lia|]. rewrite app_nil_r. apply incl_refl.
  - cbn [parse_researchers] in H. cbn [List.length map fst].
    assert (Hskip : parse_researchers E t rd = Ok parsed_data ->
                    (List.length parsed_data <= List.length rd + S (List.length t))%nat
                    /\ incl (map fst parsed_data) (map fst rd ++ name :: map fst t)).
    { intros H'. apply IH in H'. destruct H' as [Hl Hi]. split; [lia|].
      intros k Hk. apply Hi in Hk. apply in_app_iff in Hk. apply in_app_iff.
      destruct Hk; [left | right; right]; assumption. }
    assert (Hstep : forall (c : result (option pyval)),
               bind c
                 (fun parsed =>
                    match parsed with
                    | Some data_content =>
                        parse_researchers E t (assoc_set rd name data_content)
                    | None => parse_researchers E t rd
                    end) = Ok parsed_data ->
               (List.length parsed_data <= List.length rd + S (List.length t))%nat
               /\ incl (map fst parsed_data) (map fst rd ++ name :: map fst t)).
    { intros c Hc. apply bind_ok in Hc. destruct Hc as ([data_content|] & _ & Hc);
        [|auto].
      apply IH in Hc. destruct Hc as [Hl Hi].
      pose proof (assoc_set_length rd name data_content) as Hsl. split; [lia|].
      intros k Hk. apply Hi in Hk. apply in_app_iff in Hk. apply in_app_iff.
      destruct Hk as [Hk|Hk]; [|right; right; assumption].
      apply in_keys_assoc_set in Hk. destruct Hk as [-> | Hk]; [right; left | left]; auto. }
    destruct (msg_content msg); [auto | apply Hstep in H; exact H ..].
Qed.

(** X12. The researcher data of lines 143-158 holds at most one entry per
    researcher message collected, under that message's name: the LLM
    analysis, which needs two entries, is never run on fewer than two
    researcher messages. *)
Theorem X12_researcher_data_bounded (E : Externals)
    (researcher_messages : list (string * Msg)) (researcher_data : list (string * pyval)) :
  parse_researchers E researcher_messages [] = Ok researcher_data ->
  (List.length researcher_data <= List.length researcher_messages)%nat
  /\ incl (map fst researcher_data) (map fst researcher_messages)
  /\ ((2 <=? List.length researcher_data)%nat = true ->
      (2 <= List.length researcher_messages)%nat).
Proof.
  intros H. apply parse_researchers_bound in H. cbn in H. destruct H as [Hl Hi].
  split; [exact Hl|]. split; [exact Hi|].
  intros H2. apply Nat.leb_le in H2. lia.
Qed.

Lemma X12_researcher_data_bounded_witness :
  exists researcher_data,
    parse_researchers ex_env ex_researchers [] = Ok researcher_data
    /\ (List.length researcher_data <= List.length ex_researchers)%nat.
Proof.
  destruct (parse_researchers ex_env ex_researchers []) as [rd|e] eqn:Hrun.
  - exists rd. split; [reflexivity|].
    exact (proj1 (@X12_researcher_data_bounded ex_env ex_researchers rd Hrun)).
  - vm_compute in Hrun. discriminate Hrun.
Defined.

End LlmFacts.

(** ** The message the debate room returns *)

Module AgentFacts.

Import DebateRoom Examples Props PyFacts AssocFacts.
Local Open Scope string_scope.

Lemma convert_leaves_no_number (analysis converted : dict) (v : pyval) :
  _convert_numeric_signal_to_string analysis = Ok converted ->
  assoc_get converted "signal" = Some v ->
  num_of v = None.
Proof.
  intros Hc.
  destruct (SignalFacts.convert_cases analysis)
    as [[Heq Hnum] | [(v0 & x & s & Hv & Hx & Hs & Heq) | (z & e & _ & _ & _ & Heq)]];
    rewrite Heq in Hc; [ | | discriminate Hc]; injection Hc as <-.
  - apply Hnum.
  - rewrite assoc_get_set_same. intros H. inversion H. reflexivity.
Qed.




(** The analysis the [try] block serialises is a converted one. *)
Lemma main_body_message (E : Externals) (state : AgentState) (out : AgentOutput) :
  main_body E state = Ok out ->
  exists analysis converted,
    _convert_numeric_signal_to_string analysis = Ok converted
    /\ out_messages out
       = [ HumanMessage (VStr (json_dumps E (VDict converted)))
                        (Some "debate_room_agent") ].
Proof.
  unfold main_body. intros H. DebateRoomSpec.bind_inv H.
  inversion H; subst. cbn [out_messages].
  eexists. eexists. split; [eassumption | reflexivity].
Qed.

(** X4. The ['signal'] of the analysis that [debate_room_agent] returns in
    its message is never a number, on the normal path and on the fallback:
    what reaches the next agent is a string signal (or whatever non-numeric
    value the aggregation gave). *)
Theorem X4_returned_signal_is_not_numeric (E : Externals) (state : AgentState)
    (out : AgentOutput) :
  debate_room_agent E state = Ok out ->
  exists analysis,
    out_messages out
    = [ HumanMessage (VStr (json_dumps E (VDict analysis))) (Some "debate_room_agent") ]
    /\ forall v, assoc_get analysis "signal" = Some v -> num_of v = None.
Proof.
  unfold debate_room_agent. intros H.
  destruct (main_body E state) as [out'|e] eqn:Hbody.
  - inversion H; subst out'. apply main_body_message in Hbody.
    destruct Hbody as (analysis & converted & Hconv & Hmsg).
    exists converted. split; [exact Hmsg|].
    intros v. now apply (convert_leaves_no_number analysis).
  - unfold error_fallback in H.
    apply bind_ok in H. destruct H as (d & _ & H).
    apply bind_ok in H. destruct H as (m & _ & H).
    inversion H; subst. cbn [out_messages]. eexists. split; [reflexivity|].
    intros v Hv. cbn in Hv. inversion Hv. reflexivity.
Qed.

Lemma X4_returned_signal_is_not_numeric_witness :
  exists out analysis,
    debate_room_agent ex_env ex_state_researchers = Ok out
    /\ out_messages out
       = [ HumanMessage (VStr (json_dumps ex_env (VDict analysis)))
                        (Some "debate_room_agent") ]
    /\ forall v, assoc_get analysis "signal" = Some v -> num_of v = None.
Proof.
  destruct (debate_room_agent ex_env ex_state_researchers) as [out|e] eqn:Hrun.
  - destruct (@X4_returned_signal_is_not_numeric ex_env ex_state_researchers out Hrun)
      as (analysis & Hmsg & Hnum).
    exists out, analysis. auto.
  - vm_compute in Hrun. discriminate Hrun.
Defined.



End AgentFacts.

(** ** Quantities bought and sold *)

Module TradeFacts.

Import BaseStrategy PyFacts.
Local Open Scope string_scope.

(** A result that is rounded to a positive float is positive. *)
Lemma round64_pos_inv (x q : Q) : round64 x = Fin q -> 0 < q -> 0 < x.
Proof.
  intros Hr Hq. destruct (Qlt_le_dec 0 x) as [H|H]; [exact H|].
  pose proof (@FloatFacts.round64_le x 0 H FloatFacts.is_double_0) as Hle.
  rewrite Hr in Hle. apply FloatFacts.fle_Fin in Hle. lra.
Qed.

(** A float whose integer part is positive is a finite number, at least 1. *)
Lemma int_of_float_pos (x : pyfloat) (quantity : Z) :
  int_of_float x = Ok quantity -> (0 < quantity)%Z ->
  exists q, x = Fin q /\ 1 <= q.
Proof.
  intros Hq Hpos. pose proof (MovingAverageSpec.int_of_float_le x Hq Hpos) as Hle.
  destruct x as [q| | |]; try discriminate Hq.
  exists q. split; [reflexivity|]. apply FloatFacts.fle_Fin in Hle.
  assert (H1 : 1 <= inject_Z quantity) by (unfold Qle, inject_Z; simpl; lia).
  lra.
Qed.

(** [int(budget / price)], when positive and at a positive price, comes
    from a budget that is a finite positive amount, and from a finite
    price. *)
Lemma positive_budget (budget current_price : pyfloat) (quantity : Z) :
  fgt current_price (Fin 0) = true ->
  int_of_float (fdiv_np budget current_price) = Ok quantity ->
  (0 < quantity)%Z ->
  exists b p, budget = Fin b /\ current_price = Fin p /\ 0 < p /\ 0 < b.
Proof.
  intros Hp Hq Hpos.
  destruct (int_of_float_pos _ Hq Hpos) as (r & Hr & Hr1).
  unfold fgt in Hp. destruct current_price as [p| | |]; try discriminate Hp.
  - apply FloatFacts.flt_Fin in Hp.
    assert (Hnz : Qeq_bool p 0 = false).
    { destruct (Qeq_bool p 0) eqn:Heq; [|reflexivity].
      apply Qeq_bool_iff in Heq. lra. }
    destruct budget as [b| | |]; cbn [fdiv_np] in Hr; rewrite ?Hnz in Hr;
      try discriminate Hr.
    + exists b, p. split; [reflexivity|]. split; [reflexivity|]. split; [exact Hp|].
      assert (Hquot : 0 < b / p) by (apply (round64_pos_inv _ Hr); lra).
      assert (Hb : b == b / p * p) by (field; lra).
      rewrite Hb. apply Qmult_lt_0_compat; assumption.
    + unfold inf_of_sign in Hr.
      destruct (0 <? _)%Z; [discriminate Hr|]. destruct (_ <? 0)%Z; discriminate Hr.
    + unfold inf_of_sign in Hr.
      destruct (0 <? _)%Z; [discriminate Hr|]. destruct (_ <? 0)%Z; discriminate Hr.
  - destruct budget as [b| | |]; cbn [fdiv_np] in Hr; try discriminate Hr.
    injection Hr as <-. lra.
Qed.

(** A product that is a finite positive float, one factor being positive. *)
Lemma positive_factor (a : pyfloat) (w b : Q) :
  0 < w -> fmul a (Fin w) = Fin b -> 0 < b -> fgt a (Fin 0) = true.
Proof.
  intros Hw Hm Hb. destruct a as [x| | |]; cbn [fmul] in Hm.
  - unfold fgt. apply FloatFacts.flt_Fin.
    pose proof (round64_pos_inv _ Hm Hb) as Hx. nra.
  - reflexivity.
  - unfold inf_of_sign in Hm. cbn [fsign] in Hm.
    destruct (0 <? _)%Z; [discriminate Hm|]. destruct (_ <? 0)%Z; discriminate Hm.
  - discriminate Hm.
Qed.

Lemma iloc_last_nonempty (prices : Prices) (p : pyfloat) :
  iloc_last prices = Ok p -> prices <> [].
Proof. intros H ->. discriminate H. Qed.

Lemma iloc_last_raise (prices : Prices) (e : exn) :
  iloc_last prices = Raise e -> prices = [] /\ exn_cls e = IndexError.
Proof.
  unfold iloc_last. destruct prices as [|p t].
  - intros H. inversion H. split; reflexivity.
  - pose proof (@app_cons_not_nil _ (rev t) [] p) as Hne.
    cbn [rev]. destruct (rev t ++ [p])%list eqn:Hr; [congruence | discriminate].
Qed.

(** What [int] of a float raises. *)
Lemma int_of_float_raise (x : pyfloat) (e : exn) :
  int_of_float x = Raise e ->
  (exn_cls e = OverflowError /\ (x = PInf \/ x = NInf))
  \/ (exn_cls e = ValueError /\ x = NaN).
Proof.
  destruct x; cbn; intros H; inversion H; auto.
Qed.

End TradeFacts.

(** ** Buy and hold: what a call changes and what it raises *)

Module BuyHoldFacts.

Import BaseStrategy BuyHold Examples Props PyFacts TradeFacts.
Local Open Scope string_scope.

(** The quotient of line 27 is rounded: with cash [800.0], ratio [1.0] and
    price [20.512820512820515] it is [39.0], and the 39 shares bought cost
    more than the cash. *)
Lemma purchase_can_exceed_cash :
  (exists m,
     generate_signal (init (Fin 1)) [f_price] (mkPortfolio (Fin 800) (Fin 0))
     = (Ok (mkSignal "buy" 39 (Fin 1) "Initial buy-and-hold purchase" m),
        mkBuyHold (Fin 1) true))
  /\ fle (fmul (int_value 39) f_price) (Fin 800) = false.
Proof. split; [eexists|]; vm_compute; reflexivity. Qed.

(** X15. A call of [generate_signal] changes nothing of the instance but
    [initial_purchase_made], and that only from [False] to [True] and only
    when it returns ['buy']: a call that holds or raises leaves the
    instance as it was, and the flag is never cleared. *)
Theorem X15_only_a_purchase_changes_the_instance (self self' : BuyHoldStrategy)
    (data : Prices) (portfolio : Portfolio) (r : result Signal) :
  generate_signal self data portfolio = (r, self') ->
  allocation_ratio self' = allocation_ratio self
  /\ (is_buy r = false -> self' = self)
  /\ (is_buy r = true ->
      initial_purchase_made self = false /\ initial_purchase_made self' = true)
  /\ (initial_purchase_made self = true -> initial_purchase_made self' = true).
Proof.
  unfold generate_signal. intros H.
  destruct (initial_purchase_made self) eqn:Hflag; cbn [negb andb] in H.
  - inversion H; subst. repeat split; auto; discriminate.
  - destruct (fgt (cash portfolio) (Fin 0)).
    + destruct (bind (iloc_last data) _) as [max_shares|e].
      * destruct (0 <? max_shares)%Z; inversion H; subst; cbn;
          repeat split; auto; try discriminate.
      * inversion H; subst. repeat split; auto; discriminate.
    + inversion H; subst. repeat split; auto; discriminate.
Qed.

Lemma X15_only_a_purchase_changes_the_instance_witness :
  generate_signal (init (Fin 1)) [Fin 0] (mkPortfolio (Fin 50) (Fin 0))
  = (Raise (mkExn OverflowError "cannot convert float infinity to integer"),
     init (Fin 1))
  /\ allocation_ratio (init (Fin 1)) = Fin 1.
Proof.
  split; [reflexivity|].
  apply (proj1 (@X15_only_a_purchase_changes_the_instance (init (Fin 1)) (init (Fin 1))
                  [Fin 0] (mkPortfolio (Fin 50) (Fin 0))
                  (Raise (mkExn OverflowError "cannot convert float infinity to integer"))
                  eq_refl)).
Defined.

(** X16. What [generate_signal] raises, and when: [IndexError] on an empty
    frame, [OverflowError] when the quotient [(cash * ratio) / price] is
    infinite and [ValueError] when it is [nan], and nothing else; a fresh
    instance with positive cash raises on an empty frame and on a last
    price of zero. *)
Theorem X16_when_buy_hold_raises (self : BuyHoldStrategy) (data : Prices)
    (portfolio : Portfolio) :
  (data = [] -> initial_purchase_made self = false ->
   fgt (cash portfolio) (Fin 0) = true ->
   exists e, generate_signal self data portfolio = (Raise e, self)
             /\ exn_cls e = IndexError)
  /\ (forall a r, iloc_last data = Ok (Fin 0) ->
        initial_purchase_made self = false ->
        cash portfolio = Fin a -> 0 < a -> allocation_ratio self = Fin r ->
        exists e, generate_signal self data portfolio = (Raise e, self)
                  /\ (exn_cls e = OverflowError \/ exn_cls e = ValueError))
  /\ (forall e self', generate_signal self data portfolio = (Raise e, self') ->
        (exn_cls e = IndexError /\ data = [])
        \/ exists current_price,
             iloc_last data = Ok current_price
             /\ let quotient :=
                  fdiv_np (fmul (cash portfolio) (allocation_ratio self)) current_price in
                (exn_cls e = OverflowError /\ (quotient = PInf \/ quotient = NInf))
                \/ (exn_cls e = ValueError /\ quotient = NaN)).
Proof.
  split; [|split].
  - intros -> Hflag Hcash. unfold generate_signal. rewrite Hflag, Hcash.
    cbn. eexists. split; reflexivity.
  - intros a r Hlast Hflag Hcash Ha Hr. unfold generate_signal.
    rewrite Hflag, Hcash, Hr, Hlast.
    rewrite (TraditionalFacts.fgt_zero_pos Ha). cbn [negb andb bind].
    assert (Hq : exists x, fdiv_np (fmul (Fin a) (Fin r)) (Fin 0) = x
                           /\ (x = PInf \/ x = NInf \/ x = NaN)).
    { eexists. split; [reflexivity|].
      destruct (fmul (Fin a) (Fin r)) as [q| | |]; cbn [fdiv_np];
        change (Qeq_bool 0 0) with true; cbn iota; auto.
      unfold inf_of_sign.
      destruct (0 <? Z.sgn (Qnum q))%Z; [auto|].
      destruct (Z.sgn (Qnum q) <? 0)%Z; auto. }
    destruct Hq as (x & -> & [-> | [-> | ->]]); cbn; eexists; split; eauto.
  - intros e self' H. unfold generate_signal in H.
    destruct (negb (initial_purchase_made self) && fgt (cash portfolio) (Fin 0));
      [|discriminate H].
    destruct (iloc_last data) as [current_price|e0] eqn:Hlast; cbn [bind] in H.
    + right. exists current_price. split; [reflexivity|]. cbv zeta.
      destruct (int_of_float _) as [max_shares|e1] eqn:Hint.
      * destruct (0 <? max_shares)%Z; discriminate H.
      * injection H as <- _. now apply int_of_float_raise.
    + injection H as <- _. left.
      destruct (iloc_last_raise _ Hlast) as [Hnil Hcls]. auto.
Qed.

Lemma X16_when_buy_hold_raises_witness :
  exists e,
    generate_signal (init (Fin 1)) [] (mkPortfolio (Fin 100) (Fin 0))
    = (Raise e, init (Fin 1))
    /\ exn_cls e = IndexError.
Proof.
  apply (proj1 (@X16_when_buy_hold_raises (init (Fin 1)) []
                  (mkPortfolio (Fin 100) (Fin 0)))); reflexivity.
Defined.

(** A finite, non-zero price and finite cash do not keep the quotient
    finite: with cash [1e300] and price [1e-300] it overflows, and the call
    raises [OverflowError]. *)
Lemma quotient_can_overflow :
  fst (generate_signal (init (Fin 1)) [round64 (1 # 10 ^ 300)]
         (mkPortfolio (round64 (inject_Z (10 ^ 300))) (Fin 0)))
  = Raise (mkExn OverflowError "cannot convert float infinity to integer").
Proof. vm_compute. reflexivity. Qed.

End BuyHoldFacts.

(** ** Moving-average crossover: the signals it returns *)

Module MovingAverageFacts.

Import BaseStrategy MovingAverage Examples Props PyFacts TradeFacts.
Local Open Scope string_scope.

(** The three kinds of signal [generate_signal] returns, with what the code
    checked and computed on the way to each. *)
Lemma signal_cases (mean : Prices -> pyfloat) (format_2f : pyfloat -> string)
    (self : MovingAverageStrategy)
    (prices : Prices) (portfolio : Portfolio) (sig : Signal) :
  generate_signal mean format_2f self prices portfolio = Ok sig ->
  (action sig = "hold" /\ quantity sig = 0%Z /\ confidence sig = f_0_5)
  \/ (action sig = "buy" /\ confidence sig = f_0_7 /\ (0 < quantity sig)%Z
      /\ exists current_price,
           iloc_last prices = Ok current_price
           /\ flt (position_ratio portfolio current_price) f_0_9 = true
           /\ int_of_float (fdiv_np (fmul (cash portfolio) f_0_8) current_price)
              = Ok (quantity sig))
  \/ (action sig = "sell" /\ confidence sig = f_0_7 /\ (0 < quantity sig)%Z
      /\ fgt (stock portfolio) (Fin 0) = true
      /\ int_of_float (fmul (stock portfolio) f_0_8) = Ok (quantity sig)).
Proof.
  unfold generate_signal. intros Hgen.
  destruct (Z.of_nat (List.length prices) <? long_window self)%Z.
  { inversion Hgen; subst. left. repeat split. }
  destruct (if (long_window self + 1 <=? Z.of_nat (List.length prices))%Z
            then _ else _) as [[[golden_cross death_cross] prev_short_ma] prev_long_ma].
  apply bind_ok in Hgen. destruct Hgen as (current_price & Hprice & Hgen).
  destruct (golden_cross && flt (position_ratio portfolio current_price) f_0_9)
    eqn:Hbuy.
  - apply andb_true_iff in Hbuy. destruct Hbuy as [_ Hratio].
    apply bind_ok in Hgen. destruct Hgen as (q & Hq & Hgen).
    destruct (0 <? q)%Z eqn:Hpos.
    + inversion Hgen; subst; clear Hgen. cbn [quantity action confidence].
      apply Z.ltb_lt in Hpos. right. left.
      split; [reflexivity|]. split; [reflexivity|]. split; [exact Hpos|].
      exists current_price. auto.
    + inversion Hgen; subst. left. repeat split.
  - destruct (death_cross && fgt (stock portfolio) (Fin 0)) eqn:Hsell.
    + apply andb_true_iff in Hsell. destruct Hsell as [_ Hstock].
      apply bind_ok in Hgen. destruct Hgen as (q & Hq & Hgen).
      destruct (0 <? q)%Z eqn:Hpos.
      * inversion Hgen; subst; clear Hgen. cbn [quantity action confidence].
        apply Z.ltb_lt in Hpos. right. right. auto.
      * inversion Hgen; subst. left. repeat split.
    + inversion Hgen; subst. left. repeat split.
Qed.

(** X17. Every signal of [MovingAverageStrategy.generate_signal] is a
    ['hold'] of quantity 0 and confidence 0.5, or a ['buy'] or a ['sell'] of
    at least one share and confidence 0.7. *)
Theorem X17_signal_kinds (mean : Prices -> pyfloat) (format_2f : pyfloat -> string)
    (self : MovingAverageStrategy)
    (prices : Prices) (portfolio : Portfolio) (sig : Signal) :
  generate_signal mean format_2f self prices portfolio = Ok sig ->
  (action sig = "hold" /\ quantity sig = 0%Z /\ confidence sig = f_0_5)
  \/ ((action sig = "buy" \/ action sig = "sell")
      /\ (1 <= quantity sig)%Z /\ confidence sig = f_0_7).
Proof.
  intros H. destruct (signal_cases _ _ _ _ _ H)
    as [Hh | [(Ha & Hc & Hq & _) | (Ha & Hc & Hq & _)]].
  - left. exact Hh.
  - right. split; [auto|]. split; [lia | exact Hc].
  - right. split; [auto|]. split; [lia | exact Hc].
Qed.

Lemma X17_signal_kinds_witness :
  exists sig,
    generate_signal ex_mean ex_format_2f ex_strategy [Fin 5; Fin 3]
      (mkPortfolio (Fin 1000) (Fin 10)) = Ok sig
    /\ action sig = "sell" /\ quantity sig = 8%Z.
Proof.
  destruct (generate_signal ex_mean ex_format_2f ex_strategy [Fin 5; Fin 3]
              (mkPortfolio (Fin 1000) (Fin 10))) as [sig|e] eqn:Hrun.
  - exists sig. split; [reflexivity|].
    pose proof (@X17_signal_kinds ex_mean ex_format_2f ex_strategy [Fin 5; Fin 3]
                  (mkPortfolio (Fin 1000) (Fin 10)) sig Hrun) as _.
    vm_compute in Hrun. inversion Hrun; subst. split; reflexivity.
  - vm_compute in Hrun. discriminate Hrun.
Defined.

(** X18. A ['sell'] is made only from a finite holding of more than one
    share; a ['buy'] at a positive price is made from positive cash
    only. *)
Theorem X18_trades_need_means (mean : Prices -> pyfloat)
    (format_2f : pyfloat -> string)
    (self : MovingAverageStrategy) (prices : Prices) (portfolio : Portfolio)
    (sig : Signal) :
  generate_signal mean format_2f self prices portfolio = Ok sig ->
  (action sig = "sell" ->
   exists s, stock portfolio = Fin s /\ 1 < s)
  /\ (action sig = "buy" ->
      forall current_price,
        iloc_last prices = Ok current_price ->
        fgt current_price (Fin 0) = true ->
        fgt (cash portfolio) (Fin 0) = true).
Proof.
  intros H. destruct (signal_cases _ _ _ _ _ H)
    as [(Ha & _) | [(Ha & _ & Hq & cp & Hcp & _ & Hint) | (Ha & _ & Hq & Hstock & Hint)]].
  - split; intros Hact; rewrite Ha in Hact; discriminate Hact.
  - split; [intros Hact; rewrite Ha in Hact; discriminate Hact|].
    intros _ current_price Hlast Hpos.
    rewrite Hlast in Hcp. inversion Hcp; subst cp.
    destruct (positive_budget _ _ Hpos Hint Hq) as (b & p & Hb & _ & _ & Hb0).
    unfold f_0_8 in Hb. eapply positive_factor; [|exact Hb|exact Hb0]. reflexivity.
  - split; [|intros Hact; rewrite Ha in Hact; discriminate Hact].
    intros _.
    destruct (int_of_float_pos _ Hint Hq) as (r & Hr & Hr1).
    destruct (stock portfolio) as [s| | |]; try discriminate Hstock;
      try (cbn in Hr; discriminate Hr).
    exists s. split; [reflexivity|].
    destruct (Qlt_le_dec 1 s) as [Hs|Hs]; [exact Hs|].
    unfold f_0_8 in Hr. cbn [fmul] in Hr.
    unfold fgt in Hstock. apply FloatFacts.flt_Fin in Hstock.
    assert (Hle : fle (round64 (s * (3602879701896397 # 4503599627370496)))
                      (Fin (3602879701896397 # 4503599627370496)) = true).
    { apply FloatFacts.round64_le; [nra | vm_compute; reflexivity]. }
    rewrite Hr in Hle. apply FloatFacts.fle_Fin in Hle. lra.
Qed.

Lemma X18_trades_need_means_witness :
  exists s, Fin 10 = Fin s /\ 1 < s.
Proof.
  apply (proj1 (@X18_trades_need_means ex_mean ex_format_2f ex_strategy [Fin 5; Fin 3]
                  (mkPortfolio (Fin 1000) (Fin 10))
                  (mkSignal "sell" 8 f_0_7 "Death cross: Short MA <.2f> < Long MA <.2f>"
                     (Some (ma_metadata (Fin 3) (Fin 4) (Fin 3) (Fin 4) 2)))
                  eq_refl)).
  reflexivity.
Defined.



(** Finite, non-zero prices and finite cash do not keep the quotient
    finite: with prices [1e-301, 1e-300], cash [1e300] and no stock the
    golden-cross branch is taken and [int] raises [OverflowError]. *)
Lemma moving_average_quotient_can_overflow :
  generate_signal ex_mean ex_format_2f ex_strategy
    [round64 (1 # 10 ^ 301); round64 (1 # 10 ^ 300)]
    (mkPortfolio (round64 (inject_Z (10 ^ 300))) (Fin 0))
  = Raise (mkExn OverflowError "cannot convert float infinity to integer").
Proof. vm_compute. reflexivity. Qed.

End MovingAverageFacts.

(** ** The MCP tool wrappers: validation and the other two tools *)

Module McpToolsFacts.

Import McpTools Examples Props PyFacts.
Local Open Scope string_scope.






End McpToolsFacts.
